(** * clipcat: file selection and exclusion matching

    A shallow embedding of the packages [exclude] (ExcludeMatcher,
    ShouldExclude), [collector] (CollectFiles), [output], [clipboard] and
    [clipcat] (ParseArgs, Run), together with the Go library functions
    they call (strings.*, path/filepath.Match, Clean, Base, Rel, Abs, Join,
    Walk, sort.Strings) on a Unix system.

    Go strings are byte strings; they are embedded as [string] (a list of
    8-bit [ascii] values).  Where Go decodes a rune (ToLower, TrimSpace, the
    [?] and [[...]] operators of filepath.Match) one byte is one rune, which
    is exact for ASCII paths and patterns. *)

From Stdlib Require Import String Ascii List Bool Arith NArith Lia Permutation Sorted Mergesort Orders DecimalString.
From stdpp Require Import gmap strings.
Import ListNotations.

Local Open Scope list_scope.
Local Open Scope string_scope.

(** stdpp blocks the unfolding of string concatenation; the proofs below
    compute with it. *)
#[local] Arguments String.append !s1 s2.

(** ** Package strings *)

Module strings.

(** strings.HasPrefix *)
Fixpoint HasPrefix (s prefix : string) {struct prefix} : bool :=
  match prefix with
  | EmptyString => true
  | String c p' =>
      match s with
      | EmptyString => false
      | String d s' => Ascii.eqb d c && HasPrefix s' p'
      end
  end.

(** strings.Contains *)
Fixpoint Contains (s substr : string) : bool :=
  HasPrefix s substr ||
  match s with
  | EmptyString => false
  | String _ s' => Contains s' substr
  end.

(** strings.HasSuffix:
    [len(s) >= len(suffix) && s[len(s)-len(suffix):] == suffix] *)
Definition HasSuffix (s suffix : string) : bool :=
  Nat.leb (String.length suffix) (String.length s) &&
  String.eqb (substring (String.length s - String.length suffix)
                        (String.length suffix) s) suffix.

(** strings.TrimSuffix *)
Definition TrimSuffix (s suffix : string) : string :=
  if HasSuffix s suffix
  then substring 0 (String.length s - String.length suffix) s
  else s.

(** strings.ContainsAny *)
Fixpoint ContainsAny (s chars : string) : bool :=
  match s with
  | EmptyString => false
  | String c s' => Contains chars (String c EmptyString) || ContainsAny s' chars
  end.

(** The ASCII white space of strings.TrimSpace:
    tab, line feed, vertical tab, form feed, carriage return, space. *)
Definition isSpace (c : ascii) : bool :=
  let n := nat_of_ascii c in
  Nat.eqb n 9 || Nat.eqb n 10 || Nat.eqb n 11 || Nat.eqb n 12 || Nat.eqb n 13 || Nat.eqb n 32.

Fixpoint trimLeft (s : string) : string :=
  match s with
  | EmptyString => EmptyString
  | String c s' => if isSpace c then trimLeft s' else s
  end.

Fixpoint trimRight (s : string) : string :=
  match s with
  | EmptyString => EmptyString
  | String c s' =>
      match trimRight s' with
      | EmptyString => if isSpace c then EmptyString else String c EmptyString
      | t => String c t
      end
  end.

(** strings.TrimSpace *)
Definition TrimSpace (s : string) : string := trimRight (trimLeft s).

Definition lowerByte (c : ascii) : ascii :=
  let n := nat_of_ascii c in
  if Nat.leb 65 n && Nat.leb n 90 then ascii_of_nat (n + 32) else c.

(** Whether every byte of [s] is below utf8.RuneSelf (0x80): the test
    with which strings.ToLower starts. *)
Fixpoint isASCII (s : string) : bool :=
  match s with
  | EmptyString => true
  | String c s' => Nat.ltb (nat_of_ascii c) 128 && isASCII s'
  end.

(** strings.ToLower on a string of ASCII bytes, where Go lowers the bytes
    A-Z and leaves the others.  A string with a byte from 0x80 on is
    mapped rune by rune through unicode.ToLower in Go; that table is not
    modelled, and what is stated below about the case of letters is stated
    for strings with [isASCII]. *)
Fixpoint ToLower (s : string) : string :=
  match s with
  | EmptyString => EmptyString
  | String c s' => String (lowerByte c) (ToLower s')
  end.

(** strings.ReplaceAll, for a one-byte [old] (the program only replaces
    "/" by the separator). *)
Fixpoint ReplaceAll1 (s : string) (old : ascii) (new : string) : string :=
  match s with
  | EmptyString => EmptyString
  | String c s' =>
      if Ascii.eqb c old then new ++ ReplaceAll1 s' old new
      else String c (ReplaceAll1 s' old new)
  end.

Definition ReplaceAll (s old new : string) : string :=
  match old with
  | String o EmptyString => ReplaceAll1 s o new
  | _ => s
  end.

(** strings.Split(s, sep) for a one-byte separator. *)
Fixpoint Split1 (s : string) (sep : ascii) : list string :=
  match s with
  | EmptyString => [EmptyString]
  | String c s' =>
      if Ascii.eqb c sep then EmptyString :: Split1 s' sep
      else match Split1 s' sep with
           | [] => [String c EmptyString]
           | x :: r => String c x :: r
           end
  end.

(** strings.Join *)
Fixpoint Join (elems : list string) (sep : string) : string :=
  match elems with
  | [] => EmptyString
  | [x] => x
  | x :: r => x ++ sep ++ Join r sep
  end.

End strings.

(** ** Package path/filepath (Unix) *)

Module filepath.
Import strings.

Definition Separator : ascii := "/"%char.

(** *** Match *)

(** The three outcomes of matchChunk: a malformed pattern, no match, or a
    match leaving [rest] of the name. *)
Inductive ChunkResult : Type :=
| ChunkBad
| ChunkFail
| ChunkOk (rest : string).

(** scanChunk, after the leading stars are stripped: the length of the
    chunk, which ends before the first [*] outside a bracket. *)
Fixpoint scanLen (pattern : string) (inrange : bool) : nat :=
  match pattern with
  | EmptyString => 0
  | String c p' =>
      if Ascii.eqb c "\"%char then
        match p' with
        | EmptyString => 1
        | String _ p'' => 2 + scanLen p'' inrange
        end
      else if Ascii.eqb c "["%char then S (scanLen p' true)
      else if Ascii.eqb c "]"%char then S (scanLen p' false)
      else if Ascii.eqb c "*"%char then
        if inrange then S (scanLen p' inrange) else 0
      else S (scanLen p' inrange)
  end.

Fixpoint stripStars (pattern : string) : bool * string :=
  match pattern with
  | String c p' =>
      if Ascii.eqb c "*"%char then (true, snd (stripStars p')) else (false, pattern)
  | EmptyString => (false, EmptyString)
  end.

(** scanChunk: (star, chunk, rest). *)
Definition scanChunk (pattern : string) : bool * string * string :=
  let '(star, p) := stripStars pattern in
  let i := scanLen p false in
  (star, substring 0 i p, substring i (String.length p - i) p).

(** getEsc: a possibly escaped character of a character class, and the
    remaining chunk; [None] is ErrBadPattern. *)
Definition getEsc (chunk : string) : option (ascii * string) :=
  match chunk with
  | EmptyString => None
  | String c rest =>
      if Ascii.eqb c "-"%char || Ascii.eqb c "]"%char then None
      else
        let chunk1 := if Ascii.eqb c "\"%char then rest else chunk in
        match chunk1 with
        | EmptyString => None
        | String r nchunk =>
            match nchunk with
            | EmptyString => None
            | _ => Some (r, nchunk)
            end
        end
  end.

(** The range loop of a character class: [r] is the rune read from the
    name, [Some (matched, rest-of-chunk)] when the closing bracket is
    found. *)
Fixpoint classLoop (fuel : nat) (chunk : string) (r : ascii)
         (matched : bool) (nrange : nat) : option (bool * string) :=
  match fuel with
  | O => None
  | S fuel' =>
      match chunk with
      | String c rest =>
          if Ascii.eqb c "]"%char && Nat.ltb 0 nrange
          then Some (matched, rest)
          else classStep fuel' chunk r matched nrange
      | EmptyString => classStep fuel' chunk r matched nrange
      end
  end
with classStep (fuel : nat) (chunk : string) (r : ascii)
         (matched : bool) (nrange : nat) : option (bool * string) :=
  match fuel with
  | O => None
  | S fuel' =>
      match getEsc chunk with
      | None => None
      | Some (lo, chunk1) =>
          match chunk1 with
          | String d after =>
              if Ascii.eqb d "-"%char then
                match getEsc after with
                | None => None
                | Some (hi, chunk2) =>
                    classLoop fuel' chunk2 r
                      (matched || (Ascii.leb lo r && Ascii.leb r hi)) (S nrange)
                end
              else
                classLoop fuel' chunk1 r
                  (matched || (Ascii.leb lo r && Ascii.leb r lo)) (S nrange)
          | EmptyString => None
          end
      end
  end.

(** matchChunk: once the match has failed the loop goes on over the chunk
    to check that it is well formed, no longer reading the name. *)
Fixpoint matchChunkLoop (fuel : nat) (chunk s : string) (failed : bool) : ChunkResult :=
  match fuel with
  | O => ChunkBad
  | S fuel' =>
      match chunk with
      | EmptyString => if failed then ChunkFail else ChunkOk s
      | String c chunk' =>
          let failed := failed || (match s with EmptyString => true | _ => false end) in
          if Ascii.eqb c "["%char then
            let '(r, s1) :=
              match s with
              | String r s' => if failed then ("000"%char, s) else (r, s')
              | EmptyString => ("000"%char, s)
              end in
            let '(negated, chunk1) :=
              match chunk' with
              | String n c1 => if Ascii.eqb n "^"%char then (true, c1) else (false, chunk')
              | EmptyString => (false, chunk')
              end in
            match classLoop (2 * String.length chunk1 + 2) chunk1 r false 0 with
            | None => ChunkBad
            | Some (matched, chunk2) =>
                matchChunkLoop fuel' chunk2 s1 (failed || Bool.eqb matched negated)
            end
          else if Ascii.eqb c "?"%char then
            match s with
            | String d s' =>
                if failed then matchChunkLoop fuel' chunk' s failed
                else matchChunkLoop fuel' chunk' s' (Ascii.eqb d Separator)
            | EmptyString => matchChunkLoop fuel' chunk' s failed
            end
          else
            let lit (c0 : ascii) (rest : string) :=
              match s with
              | String d s' =>
                  if failed then matchChunkLoop fuel' rest s failed
                  else matchChunkLoop fuel' rest s' (negb (Ascii.eqb c0 d))
              | EmptyString => matchChunkLoop fuel' rest s failed
              end in
            if Ascii.eqb c "\"%char then
              match chunk' with
              | EmptyString => ChunkBad
              | String c0 rest => lit c0 rest
              end
            else lit c chunk'
      end
  end.

Definition matchChunk (chunk s : string) : ChunkResult :=
  matchChunkLoop (S (String.length chunk)) chunk s false.

(** The loop of Match that, after a star, tries the chunk at every
    position of the name up to the next separator. [Some None] is "fall
    through to the final return false". *)
Fixpoint starLoop (chunk : string) (lastChunk : bool) (name : string)
  : option (option string) :=
  match name with
  | EmptyString => Some None
  | String c name' =>
      if Ascii.eqb c Separator then Some None
      else
        match matchChunk chunk name' with
        | ChunkOk t =>
            if lastChunk && negb (String.eqb t EmptyString)
            then starLoop chunk lastChunk name'
            else Some (Some t)
        | ChunkBad => None
        | ChunkFail => starLoop chunk lastChunk name'
        end
  end.

(** The closing loop of Match: the rest of the pattern is checked for
    syntax errors before [false] is returned. *)
Fixpoint checkRest (fuel : nat) (pattern : string) : option bool :=
  match fuel with
  | O => Some false
  | S fuel' =>
      match pattern with
      | EmptyString => Some false
      | _ =>
          let '(_, chunk, rest) := scanChunk pattern in
          match matchChunk chunk EmptyString with
          | ChunkBad => None
          | _ => checkRest fuel' rest
          end
      end
  end.

Fixpoint MatchLoop (fuel : nat) (pattern name : string) : option bool :=
  match fuel with
  | O => None
  | S fuel' =>
      match pattern with
      | EmptyString => Some (String.eqb name EmptyString)
      | _ =>
          let '(star, chunk, rest) := scanChunk pattern in
          if star && String.eqb chunk EmptyString
          then Some (negb (Contains name (String Separator EmptyString)))
          else
            let lastChunk := String.eqb rest EmptyString in
            let fallback (bad : bool) :=
              if bad then None
              else
                let tryStar :=
                  if star then starLoop chunk lastChunk name else Some None in
                match tryStar with
                | None => None
                | Some (Some t) => MatchLoop fuel' rest t
                | Some None => checkRest (String.length rest) rest
                end in
            match matchChunk chunk name with
            | ChunkOk t =>
                if String.eqb t EmptyString || negb lastChunk
                then MatchLoop fuel' rest t
                else fallback false
            | ChunkFail => fallback false
            | ChunkBad => fallback true
            end
      end
  end.

(** filepath.Match: [Some b] is [(b, nil)], [None] is
    [(false, ErrBadPattern)]. *)
Definition Match (pattern name : string) : option bool :=
  MatchLoop (S (String.length pattern)) pattern name.

(** *** Clean, Base, Join, IsAbs, Abs, Rel *)

(** The element loop of Clean, on the path elements between separators:
    empty and [.] elements are dropped, [..] removes the element before it
    when there is one that is not [..], is dropped at the root of a rooted
    path and is kept otherwise.  [out] is the output in reverse. *)
Fixpoint cleanElems (rooted : bool) (elems : list string) (out : list string)
  : list string :=
  match elems with
  | [] => rev out
  | e :: rest =>
      if String.eqb e EmptyString || String.eqb e "." then cleanElems rooted rest out
      else if String.eqb e ".." then
        match out with
        | top :: out' =>
            if String.eqb top ".."
            then cleanElems rooted rest (e :: out)
            else cleanElems rooted rest out'
        | [] =>
            if rooted then cleanElems rooted rest out
            else cleanElems rooted rest (e :: out)
        end
      else cleanElems rooted rest (e :: out)
  end.

(** filepath.Clean *)
Definition Clean (path : string) : string :=
  match path with
  | EmptyString => "."
  | String c _ =>
      let rooted := Ascii.eqb c Separator in
      let body := Join (cleanElems rooted (Split1 path Separator) []) "/" in
      if rooted then "/" ++ body
      else if String.eqb body EmptyString then "." else body
  end.

Fixpoint stripTrailingSeps (path : string) : string :=
  match path with
  | EmptyString => EmptyString
  | String c p' =>
      match stripTrailingSeps p' with
      | EmptyString => if Ascii.eqb c Separator then EmptyString else String c EmptyString
      | t => String c t
      end
  end.

(** The last element of a path without trailing separators. *)
Fixpoint lastElem (path : string) : string :=
  match path with
  | EmptyString => EmptyString
  | String c p' =>
      if Contains p' "/" then lastElem p'
      else if Ascii.eqb c Separator then p' else path
  end.

(** filepath.Base *)
Definition Base (path : string) : string :=
  match path with
  | EmptyString => "."
  | _ =>
      match lastElem (stripTrailingSeps path) with
      | EmptyString => "/"
      | b => b
      end
  end.

(** filepath.IsAbs *)
Definition IsAbs (path : string) : bool := HasPrefix path "/".

(** filepath.Join of two elements: empty elements are ignored and the
    result is cleaned. *)
Definition Join2 (a b : string) : string :=
  match a, b with
  | EmptyString, EmptyString => EmptyString
  | EmptyString, _ => Clean b
  | _, _ => Clean (a ++ "/" ++ b)
  end.

(** filepath.Abs, in a process whose working directory is [wd]. *)
Definition Abs (wd path : string) : string :=
  if IsAbs path then Clean path else Join2 wd path.

(** filepath.Rel(".", targpath), the only base path the program uses:
    an absolute target cannot be made relative to "." ([None] is the
    error), a relative one is returned cleaned. *)
Definition RelDot (targpath : string) : option string :=
  let targ := Clean targpath in
  if String.eqb targ "." then Some "."
  else if HasPrefix targ "/" then None
  else Some targ.

End filepath.

(** ** External libraries *)

(** github.com/sabhiram/go-gitignore: a compiled rule set, of which the
    program only uses [MatchesPath]. *)
Record GitIgnore : Type := { MatchesPath : string -> bool }.

(** ** Package exclude *)

Module exclude.
Import strings.

Definition osSep : string := String filepath.Separator EmptyString.

Record ExcludeMatcher : Type := {
  gitignoreMatcher : option GitIgnore;
  globPatterns : list string;
  ignoreCase : bool
}.

(** BuildMatcher; [readPatternsFromFile] gives the lines of an exclude
    file ([None] when it cannot be read), [CompileIgnoreLines] is the
    rule compiler of go-gitignore. [None] is the error return. *)
Section BuildMatcher.
Variable readPatternsFromFile : string -> option (list string).
Variable CompileIgnoreLines : list string -> GitIgnore.

Fixpoint readAll (files : list string) (allPatterns : list string)
  : option (list string) :=
  match files with
  | [] => Some allPatterns
  | file :: rest =>
      match readPatternsFromFile file with
      | None => None
      | Some patterns => readAll rest (allPatterns ++ patterns)%list
      end
  end.

Definition BuildMatcher (files globPatterns : list string) (ignoreCase : bool)
  : option ExcludeMatcher :=
  match readAll files [] with
  | None => None
  | Some allPatterns =>
      Some {| gitignoreMatcher :=
                if Nat.ltb 0 (List.length allPatterns)
                then Some (CompileIgnoreLines allPatterns) else None;
              globPatterns := globPatterns;
              ignoreCase := ignoreCase |}
  end.
End BuildMatcher.

Definition hasGlobChars (s : string) : bool := ContainsAny s "*?[".

(** matchPath of package exclude: filepath.Match with the error dropped. *)
Definition matchPath (pattern target : string) : bool :=
  match filepath.Match pattern target with
  | Some ok => ok
  | None => false
  end.

Definition lower (ic : bool) (s : string) : string :=
  if ic then ToLower s else s.

(** The loop of ShouldExclude over the -e/--exclude patterns. *)
Fixpoint excludeLoop (ic : bool) (relCmp baseCmp : string) (isDir : bool)
         (pats : list string) : bool :=
  match pats with
  | [] => false
  | raw :: rest =>
      let pat := TrimSpace raw in
      if String.eqb pat EmptyString then excludeLoop ic relCmp baseCmp isDir rest
      else
        let pat := ReplaceAll pat "/" osSep in
        let patCmp := lower ic pat in
        if HasSuffix patCmp osSep then
          let dirPat := TrimSuffix patCmp osSep in
          if negb (hasGlobChars dirPat) && negb (Contains dirPat osSep) then
            if isDir && (String.eqb relCmp dirPat || String.eqb relCmp (dirPat ++ osSep))
            then true
            else if HasPrefix relCmp (dirPat ++ osSep) then true
            else if Contains relCmp (osSep ++ dirPat ++ osSep) then true
            else excludeLoop ic relCmp baseCmp isDir rest
          else
            let dirAny := dirPat ++ osSep ++ "*" in
            if matchPath dirAny relCmp then true
            else excludeLoop ic relCmp baseCmp isDir rest
        else if Contains patCmp osSep then
          if matchPath patCmp relCmp && negb isDir then true
          else excludeLoop ic relCmp baseCmp isDir rest
        else if negb isDir && matchPath patCmp baseCmp then true
        else excludeLoop ic relCmp baseCmp isDir rest
  end.

(** The path ShouldExclude matches against: the path relative to ".",
    or the path itself when filepath.Rel fails, with "/" replaced by the
    separator. *)
Definition relNormOf (path : string) : string :=
  let relPath :=
    match filepath.RelDot path with
    | Some r => r
    | None => path
    end in
  ReplaceAll relPath "/" osSep.

Definition ShouldExclude (m : ExcludeMatcher) (path : string) (isDir : bool) : bool :=
  let relNorm := relNormOf path in
  let base := filepath.Base relNorm in
  let relCmp := lower (ignoreCase m) relNorm in
  let baseCmp := lower (ignoreCase m) base in
  if match gitignoreMatcher m with
     | Some g => MatchesPath g relNorm
     | None => false
     end
  then true
  else excludeLoop (ignoreCase m) relCmp baseCmp isDir (globPatterns m).

End exclude.

(** ** The file system seen through package os

    A tree of entries.  [entries] of a directory are in the order of their
    names, the order in which filepath.Walk visits them.  A directory that
    is not [readable] cannot be listed; a [Broken] entry is one whose
    lstat fails.  Symbolic links are not modelled. *)

Module os.
Import strings.

#[local] Set Warnings "-register-all".

Inductive Node : Type :=
| File
| Dir (readable : bool) (entries : list (string * Node))
| Broken.

(** Induction on the tree, with the hypothesis for every entry of a
    directory. *)
Fixpoint Node_tree_ind (P : Node -> Prop)
         (HFile : P File) (HBroken : P Broken)
         (HDir : forall readable entries,
             Forall (fun e => P (snd e)) entries -> P (Dir readable entries))
         (n : Node) : P n :=
  match n with
  | File => HFile
  | Broken => HBroken
  | Dir readable entries =>
      HDir readable entries
        ((fix all (es : list (string * Node)) : Forall (fun e => P (snd e)) es :=
            match es with
            | [] => @List.Forall_nil _ _
            | (name, child) :: es' =>
                @List.Forall_cons _ _ (name, child) es'
                  (Node_tree_ind P HFile HBroken HDir child) (all es')
            end) entries)
  end.

Record FileInfo : Type := { IsDir : bool }.

Definition infoOf (n : Node) : FileInfo :=
  match n with
  | Dir _ _ => {| IsDir := true |}
  | _ => {| IsDir := false |}
  end.

(** The state of the machine a run sees: the tree under "/" and the
    working directory of the process (an absolute, clean path). *)
Record World : Type := { root : Node; wd : string }.

Fixpoint lookupEntry (name : string) (entries : list (string * Node)) : option Node :=
  match entries with
  | [] => None
  | (n, child) :: rest =>
      if String.eqb n name then Some child else lookupEntry name rest
  end.

(** The node at a position, given by the names from the root. *)
Fixpoint nodeAt (n : Node) (elems : list string) : option Node :=
  match elems with
  | [] => Some n
  | e :: rest =>
      match n with
      | Dir _ entries =>
          match lookupEntry e entries with
          | Some child => nodeAt child rest
          | None => None
          end
      | _ => None
      end
  end.

(** Path resolution: every element, also an empty one, [.] and [..], is
    looked up in a directory. *)
Fixpoint resolve (r : Node) (cur : list string) (elems : list string)
  : option (list string) :=
  match elems with
  | [] => Some cur
  | e :: rest =>
      match nodeAt r cur with
      | Some (Dir _ _) =>
          if String.eqb e EmptyString || String.eqb e "." then resolve r cur rest
          else if String.eqb e ".." then resolve r (removelast cur) rest
          else resolve r (cur ++ [e])%list rest
      | _ => None
      end
  end.

Definition elemsOf (path : string) : list string :=
  filter (fun e => negb (String.eqb e EmptyString)) (Split1 path filepath.Separator).

(** os.Stat and os.Lstat: [None] is an error. *)
Definition Stat (w : World) (path : string) : option Node :=
  match path with
  | EmptyString => None
  | _ =>
      let start := if filepath.IsAbs path then [] else elemsOf (wd w) in
      match resolve (root w) start (Split1 path filepath.Separator) with
      | Some loc =>
          match nodeAt (root w) loc with
          | Some Broken => None
          | r => r
          end
      | None => None
      end
  end.

End os.

(** ** filepath.Walk *)

Module walk.
Import os.

(** Go's [error] values that the walk distinguishes; [None] is nil. *)
Inductive error : Type :=
| SkipDir
| SkipAll
| OtherError (msg : string).

Definition isSkipDir (e : error) : bool :=
  match e with SkipDir => true | _ => false end.

Definition isSome {A} (o : option A) : bool :=
  match o with Some _ => true | None => false end.

Section Walk.
(** The state the callback closes over. *)
Context {S : Type}.

(** filepath.WalkFunc, with the captured state passed through. *)
Definition WalkFunc : Type :=
  string -> option FileInfo -> option error -> S -> S * option error.

Variable walkFn : WalkFunc.

Definition lstatError : error := OtherError "lstat".
Definition readDirError : error := OtherError "readdirnames".

(** filepath.walk *)
Fixpoint walk (path : string) (n : Node) (st : S) : S * option error :=
  match n with
  | File => walkFn path (Some (infoOf File)) None st
  | Broken => walkFn path None (Some lstatError) st
  | Dir readable entries =>
      let err := if readable then None else Some readDirError in
      let '(st1, err1) := walkFn path (Some (infoOf n)) err st in
      if isSome err || isSome err1 then (st1, err1)
      else
        (fix loop (names : list (string * Node)) (st : S) : S * option error :=
           match names with
           | [] => (st, None)
           | (name, child) :: rest =>
               let filename := filepath.Join2 path name in
               match child with
               | Broken =>
                   let '(st', e) := walkFn filename None (Some lstatError) st in
                   match e with
                   | None => loop rest st'
                   | Some e' => if isSkipDir e' then loop rest st' else (st', Some e')
                   end
               | _ =>
                   let '(st', e) := walk filename child st in
                   match e with
                   | None => loop rest st'
                   | Some e' =>
                       if negb (IsDir (infoOf child)) || negb (isSkipDir e')
                       then (st', Some e')
                       else loop rest st'
                   end
               end
           end) entries st1
  end.

(** filepath.Walk *)
Definition Walk (w : World) (rootPath : string) (st : S) : S * option error :=
  let '(st', e) :=
    match Stat w rootPath with
    | None => walkFn rootPath None (Some lstatError) st
    | Some n => walk rootPath n st
    end in
  match e with
  | Some SkipDir | Some SkipAll => (st', None)
  | _ => (st', e)
  end.
End Walk.

End walk.

(** ** Package collector *)

Module collector.
Import strings os walk exclude.

Definition isGlobPattern (path : string) : bool := ContainsAny path "*?[".

Definition isDoublestarPattern (pattern : string) : bool := Contains pattern "**".

Definition hasBraceExpansion (pattern : string) : bool :=
  Contains pattern "{" && Contains pattern "}".

Definition containsAnySep (s : string) : bool :=
  Contains s "/" || Contains s (String filepath.Separator EmptyString).

(** The accumulator of CollectFiles: the map [seen] and the slice
    [result]. *)
Record State : Type := { seen : gmap string bool; result : list string }.

Definition seenAt (st : State) (absPath : string) : bool :=
  default false (seen st !! absPath).

(** [result = append(result, absPath); seen[absPath] = true] *)
Definition record (absPath : string) (st : State) : State :=
  {| seen := <[absPath := true]> (seen st);
     result := (result st ++ [absPath])%list |}.

Definition recordUnseen (absPath : string) (st : State) : State :=
  if negb (seenAt st absPath) then record absPath st else st.

(** What CollectFiles gives back: the slice and the error it returns, and
    the lines it wrote to the error stream. *)
Record Output : Type := {
  files : list string;
  err : option error;
  stderr : list string
}.

Definition newline : string := String (ascii_of_nat 10) EmptyString.

Definition warning (path : string) : string :=
  "Warning: Skipping non-existent path: " ++ path ++ newline.

Section CollectFiles.
(** github.com/bmatcuk/doublestar/v4 Match: [None] is its error. *)
Variable doublestarMatch : string -> string -> option bool.

(** matchPath of package collector. *)
Definition matchPath (pattern target : string) : bool :=
  if isDoublestarPattern pattern || hasBraceExpansion pattern then
    match doublestarMatch pattern target with
    | None => false
    | Some matched => matched
    end
  else
    match filepath.Match pattern target with
    | Some ok => ok
    | None => false
    end.

Variable w : World.
Variable matcher : ExcludeMatcher.
Variable ignoreCase : bool.

Definition isDirOf (fi : option FileInfo) : bool :=
  match fi with
  | Some i => IsDir i
  | None => false
  end.

(** The callback of the walk of a directory given as input. *)
Definition visitDirEntry : WalkFunc (S := State) :=
  fun p fi err st =>
    match err with
    | Some _ => (st, None)
    | None =>
        let absPath := filepath.Abs (wd w) p in
        if ShouldExclude matcher absPath (isDirOf fi) then
          if isDirOf fi then (st, Some SkipDir) else (st, None)
        else if negb (isDirOf fi) then (recordUnseen absPath st, None)
        else (st, None)
    end.

(** Whether the entry [p] of the walk from "." matches the glob
    [pattern]. *)
Definition globMatches (pattern p : string) : bool :=
  let rel := match filepath.RelDot p with Some r => r | None => EmptyString end in
  let sep := String filepath.Separator EmptyString in
  let patNorm := ReplaceAll pattern "/" sep in
  let target := rel in
  if containsAnySep patNorm || isDoublestarPattern patNorm then
    if ignoreCase
    then matchPath (ToLower patNorm) (ToLower target)
    else matchPath patNorm target
  else
    let name := filepath.Base rel in
    if ignoreCase
    then matchPath (ToLower patNorm) (ToLower name)
    else matchPath patNorm name.

(** The callback of the walk from "." for a glob pattern. *)
Definition visitGlobEntry (pattern : string) : WalkFunc (S := State) :=
  fun p fi err st =>
    match err with
    | Some _ => (st, None)
    | None =>
        let absPath := filepath.Abs (wd w) p in
        if ShouldExclude matcher absPath (isDirOf fi) then
          if isDirOf fi then (st, Some SkipDir) else (st, None)
        else if isDirOf fi then (st, None)
        else if globMatches pattern p then (recordUnseen absPath st, None)
        else (st, None)
    end.

(** The loop of CollectFiles over the input paths. *)
Fixpoint collectLoop (paths : list string) (st : State) (warnings : list string)
  : Output :=
  match paths with
  | [] => {| files := result st; err := None; stderr := warnings |}
  | path :: rest =>
      match Stat w path with
      | Some info =>
          if IsDir (infoOf info) then
            match Walk visitDirEntry w path st with
            | (_, Some e) => {| files := []; err := Some e; stderr := warnings |}
            | (st', None) => collectLoop rest st' warnings
            end
          else
            let absPath := filepath.Abs (wd w) path in
            if negb (ShouldExclude matcher absPath false) && negb (seenAt st absPath)
            then collectLoop rest (record absPath st) warnings
            else collectLoop rest st warnings
      | None =>
          if isGlobPattern path then
            match Walk (visitGlobEntry path) w "." st with
            | (_, Some e) => {| files := []; err := Some e; stderr := warnings |}
            | (st', None) => collectLoop rest st' warnings
            end
          else collectLoop rest st (warnings ++ [warning path])%list
      end
  end.

Definition CollectFiles (paths : list string) : Output :=
  collectLoop paths {| seen := ∅; result := [] |} [].
End CollectFiles.

End collector.

(** ** Package sort *)

Module sort.

(** The order of Go's [<=] on strings: bytewise lexicographic. *)
Module StringOrder <: TotalLeBool.
Definition t := string.
Definition leb := String.leb.
Theorem leb_total : forall x y, leb x y = true \/ leb y x = true.
Proof. exact String.leb_total. Qed.
End StringOrder.

Module StringSort := Mergesort.Sort StringOrder.

(** sort.Strings.  A list of strings has one ascending arrangement, so
    the sorting algorithm does not matter. *)
Definition Strings (x : list string) : list string := StringSort.sort x.

Definition string_le (a b : string) : Prop := String.leb a b = true.

End sort.

(** ** Package clipcat: the configuration *)

Module clipcat.
Import os walk exclude collector.

Record Config : Type := {
  Paths : list string;
  Excludes : list string;
  ExcludeFiles : list string;
  ShowTree : bool;
  OnlyTree : bool;
  PrintOut : bool;
  IgnoreCase : bool
}.

End clipcat.

(** ** More of package strings and path/filepath *)

Module strings2.
Import strings.

(** strings.Repeat *)
Fixpoint Repeat (s : string) (count : nat) : string :=
  match count with
  | O => EmptyString
  | S n => s ++ Repeat s n
  end.

(** strings.Count(s, sep) for a one-byte [sep]. *)
Fixpoint Count1 (s : string) (sep : ascii) : nat :=
  match s with
  | EmptyString => 0
  | String c s' => (if Ascii.eqb c sep then 1 else 0) + Count1 s' sep
  end.

(** The cut of [s] at the first [sep]: what is before it and, when [sep]
    occurs, what is after it.  strings.SplitN(s, sep, 2) is [[before]]
    or [[before; after]]. *)
Fixpoint cutFirst (s : string) (sep : ascii) : string * option string :=
  match s with
  | EmptyString => (EmptyString, None)
  | String c s' =>
      if Ascii.eqb c sep then (EmptyString, Some s')
      else let '(before, after) := cutFirst s' sep in (String c before, after)
  end.

End strings2.

Module filepath2.
Import strings strings2 filepath.

(** The loop of filepath.Rel over the elements of [base] and [targ]; the
    arguments are the parts of the two paths not yet compared.  The
    result is what is left of both when the loop ends and, when it ended
    at two different elements, the element of [base]. *)
Fixpoint relLoop (fuel : nat) (base targ : string)
  : string * string * option string :=
  match fuel with
  | O => (base, targ, None)
  | S fuel' =>
      match base, targ with
      | EmptyString, _ | _, EmptyString => (base, targ, None)
      | _, _ =>
          let '(be, brest) := cutFirst base Separator in
          let '(te, trest) := cutFirst targ Separator in
          if String.eqb te be then
            relLoop fuel' (match brest with Some b => b | None => EmptyString end)
                          (match trest with Some t => t | None => EmptyString end)
          else (base, targ, Some be)
      end
  end.

(** filepath.Rel for a base path without [..] elements (the program
    passes "." and results of filepath.Abs).  [None] is the error. *)
Definition Rel (basepath targpath : string) : option string :=
  let base := Clean basepath in
  let targ := Clean targpath in
  if String.eqb targ base then Some "."
  else
    let base := if String.eqb base "." then EmptyString else base in
    if negb (Bool.eqb (HasPrefix base "/") (HasPrefix targ "/")) then None
    else
      let '(b, t, differing) := relLoop (S (String.length base)) base targ in
      if match differing with Some e => String.eqb e ".." | None => false end
      then None
      else
        match b with
        | EmptyString => Some t
        | _ =>
            let seps := Count1 b Separator in
            Some (".." ++ Repeat "/.." seps
                  ++ match t with
                     | EmptyString => EmptyString
                     | _ => "/" ++ t
                     end)
        end.

End filepath2.

(** ** Package output *)

Module output.
Import strings strings2 filepath filepath2.

Definition newline : string := String (ascii_of_nat 10) EmptyString.

(** WriteHeader: the bytes it writes. *)
Definition WriteHeader (path : string) : string :=
  let bar := Repeat "=" (String.length path) in
  bar ++ newline ++ path ++ newline ++ bar ++ newline ++ newline.

(** What opening a file and copying it gives: the open fails, or [data]
    is copied and the copy ends well or with an error. *)
Inductive FileRead : Type :=
| OpenFails
| Copies (data : string) (complete : bool).

(** WriteFileContent: the bytes it writes and whether it returns an
    error. *)
Definition WriteFileContent (readFile : string -> FileRead) (path : string)
  : string * bool :=
  match readFile path with
  | OpenFails => (EmptyString, true)
  | Copies data complete => (data, negb complete)
  end.

Definition isGlobPattern (path : string) : bool := ContainsAny path "*?[".

(** The loop of getRelativePath over the roots. *)
Fixpoint bestRootLoop (wd file : string) (roots : list string)
         (bestRoot bestLabel : string) : string * string :=
  match roots with
  | [] => (bestRoot, bestLabel)
  | root :: rest =>
      if isGlobPattern root then bestRootLoop wd file rest bestRoot bestLabel
      else
        let absRoot := Abs wd root in
        if HasPrefix file absRoot
           && Nat.ltb (String.length bestRoot) (String.length absRoot)
        then bestRootLoop wd file rest absRoot root
        else bestRootLoop wd file rest bestRoot bestLabel
  end.

Definition orEmpty (r : option string) : string :=
  match r with
  | Some s => s
  | None => EmptyString
  end.

(** getRelativePath, in a process whose working directory is [wd]. *)
Definition getRelativePath (wd file : string) (roots : list string) : string :=
  let '(bestRoot, bestLabel) := bestRootLoop wd file roots EmptyString EmptyString in
  if negb (String.eqb bestRoot EmptyString) then
    let rel := orEmpty (Rel bestRoot file) in
    bestLabel ++ ":" ++ rel
  else
    let rel := orEmpty (RelDot file) in
    ".:" ++ rel.

(** The first loop of WriteTree: the files grouped by root label, and the
    labels in the order of their first file. *)
Record Groups : Type := {
  groups : gmap string (list string);
  order : list string
}.

Definition groupFile (wd : string) (roots : list string) (g : Groups) (file : string)
  : Groups :=
  let relPath := getRelativePath wd file roots in
  let '(root, after) := cutFirst relPath ":"%char in
  let rel := orEmpty after in
  match groups g !! root with
  | None =>
      {| groups := <[root := [rel]]> (groups g);
         order := (order g ++ [root])%list |}
  | Some fs =>
      {| groups := <[root := (fs ++ [rel])%list]> (groups g);
         order := order g |}
  end.

Definition groupFiles (wd : string) (roots files : list string) : Groups :=
  fold_left (groupFile wd roots) files {| groups := ∅; order := [] |}.

(** The loop over the directories of one file: [i] is the index of the
    first of [dirs], [accum] the path of the directories before it. *)
Fixpoint printDirs (dirs : list string) (i : nat) (accum : string)
         (seenDirs : gmap string bool) : string * gmap string bool :=
  match dirs with
  | [] => (EmptyString, seenDirs)
  | part :: rest =>
      let accum := if negb (String.eqb accum EmptyString) then accum ++ "/" else accum in
      let accum := accum ++ part in
      if negb (default false (seenDirs !! accum)) then
        let '(out, seen') := printDirs rest (S i) accum (<[accum := true]> seenDirs) in
        (Repeat "-" (S i) ++ part ++ "/" ++ newline ++ out, seen')
      else printDirs rest (S i) accum seenDirs
  end.

(** The lines of one file of a group. *)
Definition printFile (relPath : string) (seenDirs : gmap string bool)
  : string * gmap string bool :=
  let parts := Split1 relPath Separator in
  let '(out, seen') := printDirs (removelast parts) 0 EmptyString seenDirs in
  (out ++ Repeat "-" (List.length parts) ++ List.last parts EmptyString ++ newline, seen').

Fixpoint printFiles (relPaths : list string) (seenDirs : gmap string bool) : string :=
  match relPaths with
  | [] => EmptyString
  | relPath :: rest =>
      let '(out, seen') := printFile relPath seenDirs in
      out ++ printFiles rest seen'
  end.

(** The tree of one group. *)
Definition printGroup (label : string) (relPaths : list string) : string :=
  let shown := if String.eqb label "." then "." else Base label in
  shown ++ "/" ++ newline ++ printFiles relPaths ∅.

Fixpoint printGroups (g : gmap string (list string)) (keys : list string) (first : bool)
  : string :=
  match keys with
  | [] => EmptyString
  | rootKey :: rest =>
      (if first then EmptyString else newline)
      ++ printGroup rootKey (default [] (g !! rootKey))
      ++ printGroups g rest false
  end.

(** WriteTree: the bytes it writes. *)
Definition WriteTree (wd : string) (roots files : list string) : string :=
  let g := groupFiles wd roots files in
  printGroups (groups g) (order g) true.

End output.

(** ** Package clipboard *)

Module clipboard.

Section CopyToClipboard.
(** exec.LookPath finds the command. *)
Variable lookPath : string -> bool.
(** Running a command with arguments on the given standard input;
    [Some msg] is the error of cmd.Run. *)
Variable runCommand : string -> list string -> string -> option string.

(** CopyToClipboard; [Some msg] is the error. *)
Definition CopyToClipboard (data : string) : option string :=
  if lookPath "xclip" then runCommand "xclip" ["-selection"; "clipboard"] data
  else if lookPath "pbcopy" then runCommand "pbcopy" [] data
  else if lookPath "clip.exe" then runCommand "clip.exe" [] data
  else if lookPath "wl-copy" then runCommand "wl-copy" [] data
  else Some "no clipboard command found (tried xclip, wl-copy, pbcopy, clip.exe)".
End CopyToClipboard.

End clipboard.

(** ** Package clipcat: ParseArgs and the whole of Run *)

Module app.
Import strings os walk exclude collector clipcat output.

(** The lines of the usage text. *)
Definition usageLines : list string :=
  ["Usage: clipcat [OPTIONS] <path1> [<path2> ...]";
   "";
   "Description:";
   "  - If a path is a file: include that file.";
   "  - If a path is a directory: include ALL files recursively.";
   "  - If a path contains glob patterns (" ++ "* ? [) and doesn't exist as a literal path,";
   "    it will be treated as a recursive search pattern.";
   "  - Output is a single stream: each file is preceded by a header with its path.";
   "  - The final stream is copied to the clipboard.";
   "";
   "Options:";
   "  -e, --exclude PATTERN     Exclude glob pattern (repeatable)";
   "      --exclude-from FILE   Read patterns from FILE with full .gitignore semantics (repeatable)";
   "  -i, --ignore-case         Make glob pattern matching case-insensitive";
   "  -t, --tree                Prepend a FILE HIERARCHY section";
   "      --only-tree           Copy only the FILE HIERARCHY (no file contents)";
   "  -p, --print               Also print to stdout";
   "  -h, --help                Show help";
   "";
   "Examples:";
   "  clipcat README.md src/";
   "  clipcat src/ -t";
   "  clipcat . -e go.mod -e go.sum";
   "  clipcat '*checkin*' -i --exclude-from .gitignore";
   "  clipcat '*TEST*' --ignore-case --exclude 'frontend/assets/'";
   ""].

(** What printUsage writes to the error stream. *)
Definition usage : string := Join usageLines newline.

(** ParseArgs either returns a configuration or ends the process with an
    exit code, after writing to the error stream. *)
Inductive ParseResult : Type :=
| Parsed (cfg : Config)
| Exit (code : nat) (errOutput : string).

Definition emptyConfig : Config :=
  {| Paths := []; Excludes := []; ExcludeFiles := []; ShowTree := false;
     OnlyTree := false; PrintOut := false; IgnoreCase := false |}.

Definition isOneOf (arg : string) (names : list string) : bool :=
  existsb (String.eqb arg) names.

(** The options ParseArgs knows. *)
Definition knownOptions : list string :=
  ["-h"; "--help"; "-e"; "--exclude"; "--exclude-from"; "-t"; "--tree";
   "--only-tree"; "-p"; "--print"; "-i"; "--ignore-case"].

(** The loop of ParseArgs over the arguments. *)
Fixpoint parseLoop (args : list string) (cfg : Config) : ParseResult :=
  match args with
  | [] =>
      if Nat.eqb (List.length (Paths cfg)) 0 then Exit 2 usage else Parsed cfg
  | arg :: rest =>
      if isOneOf arg ["-h"; "--help"] then Exit 0 usage
      else if isOneOf arg ["-e"; "--exclude"] then
        match rest with
        | [] => Exit 2 ("Error: " ++ arg ++ " requires a pattern" ++ newline)
        | value :: rest' =>
            parseLoop rest'
              {| Paths := Paths cfg; Excludes := (Excludes cfg ++ [value])%list;
                 ExcludeFiles := ExcludeFiles cfg; ShowTree := ShowTree cfg;
                 OnlyTree := OnlyTree cfg; PrintOut := PrintOut cfg;
                 IgnoreCase := IgnoreCase cfg |}
        end
      else if isOneOf arg ["--exclude-from"] then
        match rest with
        | [] => Exit 2 ("Error: --exclude-from requires a file" ++ newline)
        | value :: rest' =>
            parseLoop rest'
              {| Paths := Paths cfg; Excludes := Excludes cfg;
                 ExcludeFiles := (ExcludeFiles cfg ++ [value])%list;
                 ShowTree := ShowTree cfg; OnlyTree := OnlyTree cfg;
                 PrintOut := PrintOut cfg; IgnoreCase := IgnoreCase cfg |}
        end
      else if isOneOf arg ["-t"; "--tree"] then
        parseLoop rest
          {| Paths := Paths cfg; Excludes := Excludes cfg;
             ExcludeFiles := ExcludeFiles cfg; ShowTree := true;
             OnlyTree := OnlyTree cfg; PrintOut := PrintOut cfg;
             IgnoreCase := IgnoreCase cfg |}
      else if isOneOf arg ["--only-tree"] then
        parseLoop rest
          {| Paths := Paths cfg; Excludes := Excludes cfg;
             ExcludeFiles := ExcludeFiles cfg; ShowTree := true;
             OnlyTree := true; PrintOut := PrintOut cfg;
             IgnoreCase := IgnoreCase cfg |}
      else if isOneOf arg ["-p"; "--print"] then
        parseLoop rest
          {| Paths := Paths cfg; Excludes := Excludes cfg;
             ExcludeFiles := ExcludeFiles cfg; ShowTree := ShowTree cfg;
             OnlyTree := OnlyTree cfg; PrintOut := true;
             IgnoreCase := IgnoreCase cfg |}
      else if isOneOf arg ["-i"; "--ignore-case"] then
        parseLoop rest
          {| Paths := Paths cfg; Excludes := Excludes cfg;
             ExcludeFiles := ExcludeFiles cfg; ShowTree := ShowTree cfg;
             OnlyTree := OnlyTree cfg; PrintOut := PrintOut cfg;
             IgnoreCase := true |}
      else if HasPrefix arg "-" then
        Exit 2 ("Error: unknown option: " ++ arg ++ newline ++ usage)
      else
        parseLoop rest
          {| Paths := (Paths cfg ++ [arg])%list; Excludes := Excludes cfg;
             ExcludeFiles := ExcludeFiles cfg; ShowTree := ShowTree cfg;
             OnlyTree := OnlyTree cfg; PrintOut := PrintOut cfg;
             IgnoreCase := IgnoreCase cfg |}
  end.

(** ParseArgs, given os.Args. *)
Definition ParseArgs (osArgs : list string) : ParseResult :=
  parseLoop (tl osArgs) emptyConfig.

(** The errors Run returns. *)
Inductive RunError : Type :=
| LoadingExcludePatterns
| CollectingFiles (e : error)
| NoFilesMatched
| CopyingToClipboard (msg : string).

(** What a call of Run does: the error it returns, the data handed to
    the clipboard (when CopyToClipboard is reached), and what it writes
    to the output and the error stream. *)
Record RunOutcome : Type := {
  runErr : option RunError;
  clipboardData : option string;
  stdout : string;
  runStderr : list string
}.

Definition decimal (n : nat) : string :=
  DecimalString.NilEmpty.string_of_uint (Nat.to_uint n).

Section Run.
Variable readPatternsFromFile : string -> option (list string).
Variable CompileIgnoreLines : list string -> GitIgnore.
Variable doublestarMatch : string -> string -> option bool.
Variable w : World.
Variable readFile : string -> FileRead.
Variable copyToClipboard : string -> option string.

(** The section Run writes for one file. *)
Definition fileSection (file : string) : string :=
  let '(data, failed) := WriteFileContent readFile file in
  WriteHeader file ++ data
  ++ (if failed then "[unreadable]" ++ newline else EmptyString)
  ++ newline.

Fixpoint fileSections (files : list string) : string :=
  match files with
  | [] => EmptyString
  | file :: rest => fileSection file ++ fileSections rest
  end.

(** The buffer Run assembles from the sorted files. *)
Definition assemble (cfg : Config) (files : list string) : string :=
  (if ShowTree cfg
   then WriteHeader "FILE HIERARCHY" ++ WriteTree (wd w) (Paths cfg) files ++ newline
   else EmptyString)
  ++ (if negb (OnlyTree cfg) then fileSections files else EmptyString).

Definition successMessage (cfg : Config) (n : nat) : string :=
  if OnlyTree cfg
  then "Copied file hierarchy for " ++ decimal n ++ " files to clipboard." ++ newline
  else "Copied " ++ decimal n ++ " files to clipboard." ++ newline.

(** Run *)
Definition Run (cfg : Config) : RunOutcome :=
  match BuildMatcher readPatternsFromFile CompileIgnoreLines
          (ExcludeFiles cfg) (Excludes cfg) (IgnoreCase cfg) with
  | None =>
      {| runErr := Some LoadingExcludePatterns; clipboardData := None;
         stdout := EmptyString; runStderr := [] |}
  | Some matcher =>
      let out := CollectFiles doublestarMatch w matcher (IgnoreCase cfg) (Paths cfg) in
      match err out with
      | Some e =>
          {| runErr := Some (CollectingFiles e); clipboardData := None;
             stdout := EmptyString; runStderr := stderr out |}
      | None =>
          if Nat.eqb (List.length (files out)) 0 then
            {| runErr := Some NoFilesMatched; clipboardData := None;
               stdout := EmptyString; runStderr := stderr out |}
          else
            let sorted := sort.Strings (files out) in
            let buf := assemble cfg sorted in
            match copyToClipboard buf with
            | Some msg =>
                {| runErr := Some (CopyingToClipboard msg); clipboardData := Some buf;
                   stdout := EmptyString; runStderr := stderr out |}
            | None =>
                {| runErr := None; clipboardData := Some buf;
                   stdout := (if PrintOut cfg then buf else EmptyString)
                             ++ successMessage cfg (List.length sorted);
                   runStderr := stderr out |}
            end
      end
  end.
End Run.

End app.

(** * Specification-level definitions *)

Module spec.
Import strings os walk exclude collector.

(** One iteration of the pattern loop of ShouldExclude: does the raw
    pattern exclude the candidate? *)
Definition patternExcludes (ic : bool) (relCmp baseCmp : string) (isDir : bool)
           (raw : string) : bool :=
  excludeLoop ic relCmp baseCmp isDir [raw].

(** A byte that filepath.Match reads as itself. *)
Definition plainByte (c : ascii) : bool :=
  negb (Ascii.eqb c "*"%char || Ascii.eqb c "?"%char
        || Ascii.eqb c "["%char || Ascii.eqb c "\"%char).

(** A pattern without wildcard, class or escape. *)
Fixpoint isLiteral (s : string) : bool :=
  match s with
  | EmptyString => true
  | String c s' => plainByte c && isLiteral s'
  end.

(** [s] without its prefix [lit], when it has that prefix. *)
Fixpoint dropPrefix (s lit : string) {struct lit} : option string :=
  match lit with
  | EmptyString => Some s
  | String c l =>
      match s with
      | String d s' => if Ascii.eqb c d then dropPrefix s' l else None
      | EmptyString => None
      end
  end.

(** A matcher with ad-hoc patterns only. *)
Definition adhoc (pats : list string) (ic : bool) : ExcludeMatcher :=
  {| gitignoreMatcher := None; globPatterns := pats; ignoreCase := ic |}.

Section Candidates.
Variable doublestarMatch : string -> string -> option bool.
Variable w : World.
Variable matcher : ExcludeMatcher.
Variable ignoreCase : bool.

(** The absolute paths a walk hands to the accumulator, in order:
    the files selected by [sel] that are reached without crossing an
    excluded or unreadable directory and are not excluded
    themselves. *)
Fixpoint walkCands (sel : string -> bool) (path : string) (n : Node) : list string :=
  match n with
  | File =>
      let absPath := filepath.Abs (wd w) path in
      if ShouldExclude matcher absPath false then []
      else if sel path then [absPath] else []
  | Broken => []
  | Dir readable entries =>
      if negb readable then []
      else if ShouldExclude matcher (filepath.Abs (wd w) path) true then []
      else
        (fix loop (names : list (string * Node)) : list string :=
           match names with
           | [] => []
           | (name, child) :: rest =>
               (walkCands sel (filepath.Join2 path name) child ++ loop rest)%list
           end) entries
  end.

(** The candidates of the entries of a directory at [path]. *)
Definition entryCands (sel : string -> bool) (path : string)
           (names : list (string * Node)) : list string :=
  flat_map (fun e => walkCands sel (filepath.Join2 path (fst e)) (snd e)) names.

(** What filepath.walk returns for a node: SkipDir for an excluded
    directory, nil otherwise. *)
Definition walkErr (path : string) (n : Node) : option error :=
  match n with
  | Dir true _ =>
      if ShouldExclude matcher (filepath.Abs (wd w) path) true
      then Some SkipDir else None
  | _ => None
  end.

(** The callback both walks of CollectFiles instantiate. *)
Definition visitWith (sel : string -> bool) : WalkFunc (S := State) :=
  fun p fi err st =>
    match err with
    | Some _ => (st, None)
    | None =>
        let absPath := filepath.Abs (wd w) p in
        if ShouldExclude matcher absPath (isDirOf fi) then
          if isDirOf fi then (st, Some SkipDir) else (st, None)
        else if isDirOf fi then (st, None)
        else if sel p then (recordUnseen absPath st, None)
        else (st, None)
    end.

(** The absolute paths one input token hands to the accumulator. *)
Definition tokenCands (path : string) : list string :=
  match Stat w path with
  | Some (Dir r es) => walkCands (fun _ => true) path (Dir r es)
  | Some _ =>
      let absPath := filepath.Abs (wd w) path in
      if ShouldExclude matcher absPath false then [] else [absPath]
  | None =>
      if isGlobPattern path then
        match Stat w "." with
        | Some n =>
            walkCands (globMatches doublestarMatch ignoreCase path) "." n
        | None => []
        end
      else []
  end.

(** The warnings one input token writes. *)
Definition tokenWarnings (path : string) : list string :=
  match Stat w path with
  | Some _ => []
  | None => if isGlobPattern path then [] else [warning path]
  end.

(** A token that is neither found nor a glob pattern. *)
Definition missingLiteral (path : string) : bool :=
  match Stat w path with
  | Some _ => false
  | None => negb (isGlobPattern path)
  end.

Definition recordAll (cands : list string) (st : State) : State :=
  fold_left (fun st a => recordUnseen a st) cands st.
End Candidates.

(** The accumulator is consistent: no path twice, and [seen] is the set
    of the paths of [result]. *)
Definition consistent (st : State) : Prop :=
  List.NoDup (result st) /\ forall p, seenAt st p = true <-> In p (result st).

End spec.

(** * Example inputs *)

Module examples.
Import os exclude spec.

(** A project in /w: [Temp/a/b.txt], [a.txt] and [b.txt]. *)
Definition projectTree : Node :=
  Dir true
    [("w", Dir true
        [("Temp", Dir true [("a", Dir true [("b.txt", File)])]);
         ("a.txt", File);
         ("b.txt", File)])].

Definition project : World := {| root := projectTree; wd := "/w" |}.

(** A project in /w: [a/test.go], [b/test.go] and [test.go]. *)
Definition nestedTree : Node :=
  Dir true
    [("w", Dir true
        [("a", Dir true [("test.go", File)]);
         ("b", Dir true [("test.go", File)]);
         ("test.go", File)])].

Definition nested : World := {| root := nestedTree; wd := "/w" |}.

(** A project in /w: the directory [a] with the file [x], and the file
    [a.txt]; the names of a directory are listed in ascending order, as
    filepath.Walk reads them. *)
Definition dottedTree : Node :=
  Dir true
    [("w", Dir true
        [("a", Dir true [("x", File)]);
         ("a.txt", File)])].

Definition dotted : World := {| root := dottedTree; wd := "/w" |}.

(** A doublestar library that rejects every pattern; the examples that
    use it give CollectFiles no glob token. *)
Definition noDoublestar (pattern target : string) : option bool := None.

Definition noExcludeFile (path : string) : option (list string) := None.

Definition matchNothing (lines : list string) : GitIgnore :=
  {| MatchesPath := fun _ => false |}.

(** Rows of Go's own tables for filepath.Match (ASCII rows; [None] is
    ErrBadPattern), filepath.Clean and filepath.Base. *)
Definition goMatchTests : list (string * string * option bool) :=
  [("abc", "abc", Some true); ("*", "abc", Some true); ("*c", "abc", Some true);
   ("a*", "a", Some true); ("a*", "abc", Some true); ("a*", "ab/c", Some false);
   ("a*/b", "abc/b", Some true); ("a*/b", "a/c/b", Some false);
   ("a*b*c*d*e*/f", "axbxcxdxe/f", Some true);
   ("a*b*c*d*e*/f", "axbxcxdxexxx/f", Some true);
   ("a*b*c*d*e*/f", "axbxcxdxe/xxx/f", Some false);
   ("a*b*c*d*e*/f", "axbxcxdxexxx/fff", Some false);
   ("a*b?c*x", "abxbbxdbxebxczzx", Some true);
   ("a*b?c*x", "abxbbxdbxebxczzy", Some false);
   ("ab[c]", "abc", Some true); ("ab[b-d]", "abc", Some true);
   ("ab[e-g]", "abc", Some false); ("ab[^c]", "abc", Some false);
   ("ab[^b-d]", "abc", Some false); ("ab[^e-g]", "abc", Some true);
   ("a\*b", "a*b", Some true); ("a\*b", "ab", Some false);
   ("a?b", "a/b", Some false); ("a*b", "a/b", Some false);
   ("[\]a]", "]", Some true); ("[\-]", "-", Some true); ("[x\-]", "x", Some true);
   ("[x\-]", "-", Some true); ("[x\-]", "z", Some false); ("[\-x]", "x", Some true);
   ("[\-x]", "-", Some true); ("[\-x]", "a", Some false);
   ("[]a]", "]", None); ("[-]", "-", None); ("[x-]", "x", None); ("[x-]", "-", None);
   ("[x-]", "z", None); ("[-x]", "x", None); ("[-x]", "-", None); ("[-x]", "a", None);
   ("[a-b-c]", "a", None); ("[", "a", None); ("[^", "a", None);
   ("[^bc", "a", None); ("a[", "a", None); ("a[", "ab", None); ("a[", "x", None);
   ("a/b[", "x", None); ("*x", "xxx", Some true)].

Definition goCleanTests : list (string * string) :=
  [("abc", "abc"); ("abc/def", "abc/def"); ("a/b/c", "a/b/c"); (".", ".");
   ("..", ".."); ("../..", "../.."); ("../../abc", "../../abc"); ("/abc", "/abc");
   ("/", "/"); ("", "."); ("abc/", "abc"); ("abc/def/", "abc/def");
   ("a/b/c/", "a/b/c"); ("./", "."); ("../", ".."); ("../../", "../..");
   ("/abc/", "/abc"); ("abc//def//ghi", "abc/def/ghi"); ("abc//", "abc");
   ("abc/./def", "abc/def"); ("/./abc/def", "/abc/def"); ("abc/.", "abc");
   ("abc/def/ghi/../jkl", "abc/def/jkl"); ("abc/def/../ghi/../jkl", "abc/jkl");
   ("abc/def/..", "abc"); ("abc/def/../..", "."); ("/abc/def/../..", "/");
   ("abc/def/../../..", ".."); ("/abc/def/../../..", "/");
   ("abc/def/../../../ghi/jkl/../../../mno", "../../mno"); ("/../abc", "/abc");
   ("abc/./../def", "def"); ("abc//./../def", "def");
   ("abc/../../././../def", "../../def"); ("//abc", "/abc"); ("///abc", "/abc");
   ("//abc//", "/abc")].

Definition goBaseTests : list (string * string) :=
  [("", "."); (".", "."); ("/.", "."); ("/", "/"); ("////", "/"); ("x/", "x");
   ("abc", "abc"); ("abc/def", "def"); ("a/b/.x", ".x"); ("a/b/c.", "c.");
   ("a/b/c.x", "c.x")].

(** A row of a table-driven test of ShouldExclude: the ad-hoc patterns, the
    case flag, the path, isDir and the expected answer. *)
Definition ExcludeCase : Type := (list string * bool * string * bool * bool)%type.

Definition runCase (c : ExcludeCase) : bool :=
  let '(pats, ic, path, isDir, _) := c in ShouldExclude (adhoc pats ic) path isDir.

Definition expected (c : ExcludeCase) : bool :=
  let '(_, _, _, _, e) := c in e.

Definition failing (cases : list ExcludeCase) : list string :=
  map (fun c => let '(_, _, path, _, _) := c in path)
      (filter (fun c => negb (Bool.eqb (runCase c) (expected c))) cases).

Definition table (pats : list string) (ic : bool)
           (rows : list (string * bool * bool)) : list ExcludeCase :=
  map (fun '(path, isDir, e) => (pats, ic, path, isDir, e)) rows.

(** The unit tests of the repository for the ad-hoc patterns. *)
Definition test_GlobPatterns : list ExcludeCase :=
  table ["*.log"; "temp/"; "__pycache__/"] false
    [("debug.log", false, true); ("src/debug.log", false, true);
     ("debug.txt", false, false); ("temp/file.txt", false, true);
     ("src/__pycache__/file.pyc", false, true);
     ("src/temporary/file.txt", false, false); ("__pycache__", true, true)].

Definition test_PathAwareOnly : list ExcludeCase :=
  table ["src/test.go"; "lib/*/config.json"; "docs/api.md"] false
    [("src/test.go", false, true); ("test.go", false, false);
     ("lib/test.go", false, false); ("project/test.go", false, false);
     ("lib/prod/config.json", false, true); ("lib/dev/config.json", false, true);
     ("config.json", false, false); ("src/config.json", false, false);
     ("docs/api.md", false, true); ("api.md", false, false);
     ("guides/api.md", false, false)].

Definition test_DirectoryTrailingSlash : list ExcludeCase :=
  table ["dist/"; "*.tmp"; "logs/"; "cache/"] false
    [("dist", true, true); ("dist/main.js", false, true);
     ("dist/assets/style.css", false, true); ("logs", true, true);
     ("logs/app.log", false, true); ("cache", true, true);
     ("src/cache/file.dat", false, true); ("tmp", true, false);
     ("debug.tmp", false, true); ("distribution", true, false);
     ("dist_old/file.js", false, false); ("mydist/build.js", false, false)].

Definition test_CaseInsensitivity : list ExcludeCase :=
  (table ["*.LOG"; "TeMp/"] false
     [("debug.LOG", false, true); ("debug.log", false, false);
      ("debug.Log", false, false); ("TeMp/file.txt", false, true);
      ("temp/file.txt", false, false); ("TEMP/file.txt", false, false);
      ("Temp/file.txt", false, false)]
   ++ table ["*.LOG"; "TeMp/"] true
     [("debug.LOG", false, true); ("debug.log", false, true);
      ("debug.Log", false, true); ("TeMp/file.txt", false, true);
      ("temp/file.txt", false, true); ("TEMP/file.txt", false, true);
      ("Temp/file.txt", false, true)])%list.

Definition test_PathVsBasename : list ExcludeCase :=
  table ["test.go"; "src/test.go"; "*/temp.txt"; "build/"] false
    [("test.go", false, true); ("src/test.go", false, true);
     ("project/pkg/test.go", false, true); ("lib/test.go", false, true);
     ("cache/temp.txt", false, true); ("build/output/temp.txt", false, true);
     ("temp.txt", false, false); ("build/file.js", false, true);
     ("build/dist/main.js", false, true)].

Definition test_EdgeCases : list ExcludeCase :=
  (table [""; "  "] false
     [("any.file", false, false); ("test.go", false, false); ("a", false, false)]
   ++ table ["*"] false
     [("test.go", false, true); ("src/test.go", false, true); ("any.file", false, true)]
   ++ table ["?"] false
     [("a", false, true); ("ab", false, false); ("test.go", false, false)]
   ++ table ["[abc]"] false
     [("a", false, true); ("b", false, true); ("c", false, true);
      ("d", false, false); ("ab", false, false)]
   ++ table ["file[0-9]*"] false
     [("file1.txt", false, true); ("file99", false, true); ("file0", false, true);
      ("file.txt", false, false); ("test1.txt", false, false);
      ("myfile1.txt", false, false)])%list.

Definition test_ComplexGlobs : list ExcludeCase :=
  table ["**/node_modules/**"; "**/*.{tmp,log,cache}"; "build/**/output.*";
         "src/**/test_*.go"; "[Tt]emp*/"; "*.{js,ts}.*"] false
    [("project/lib/node_modules/pkg/index.js", false, true);
     ("debug.tmp", false, true); ("app.log", false, true);
     ("webpack.cache", false, true); ("build/dist/output.js", false, true);
     ("src/utils/test_helper.go", false, true); ("Temp/file.txt", false, true);
     ("temp/file.txt", false, true); ("main.js.map", false, true);
     ("app.ts.build", false, true); ("script.js", false, false);
     ("src/main.go", false, false); ("src/helper.go", false, false)].

End examples.

(** * Facts about the string functions *)

Module string_facts.
Import strings.

Lemma str_app_nil_r (s : string) : s ++ "" = s.
Proof. induction s as [|c s IH]; simpl; [reflexivity | now rewrite IH]. Qed.

Lemma str_app_assoc (a b c : string) : (a ++ b) ++ c = a ++ (b ++ c).
Proof. induction a as [|x a IH]; simpl; [reflexivity | now rewrite IH]. Qed.

Lemma str_length_app (a b : string) :
  String.length (a ++ b) = String.length a + String.length b.
Proof. induction a as [|x a IH]; simpl; [reflexivity | now rewrite IH]. Qed.

Lemma HasPrefix_refl_app (p s : string) : HasPrefix (p ++ s) p = true.
Proof.
  induction p as [|c p IH]; simpl; [reflexivity|].
  now rewrite Ascii.eqb_refl, IH.
Qed.

Lemma HasPrefix_inv (s p : string) :
  HasPrefix s p = true -> exists r, s = p ++ r.
Proof.
  revert s; induction p as [|c p IH]; intros s H; simpl in *.
  - now exists s.
  - destruct s as [|d s]; [discriminate|].
    apply andb_prop in H as [Hc Hp].
    apply Ascii.eqb_eq in Hc; subst d.
    destruct (IH _ Hp) as [r ->]. now exists r.
Qed.

Lemma Contains_app (a b c : string) : Contains (a ++ b ++ c) b = true.
Proof.
  induction a as [|x a IH]; simpl.
  - destruct (b ++ c) eqn:E; simpl; rewrite <- E, HasPrefix_refl_app; reflexivity.
  - rewrite IH. apply orb_true_r.
Qed.

Lemma Contains_inv (s b : string) :
  Contains s b = true -> exists a c, s = a ++ b ++ c.
Proof.
  induction s as [|x s IH]; simpl; intros H.
  - rewrite orb_false_r in H. apply HasPrefix_inv in H as [r ->].
    now exists "", r.
  - apply orb_prop in H as [H|H].
    + apply HasPrefix_inv in H as [r ->]. now exists "", r.
    + destruct (IH H) as (a & c & ->). now exists (String x a), c.
Qed.

Lemma substring_app_l (a b : string) :
  substring 0 (String.length a) (a ++ b) = a.
Proof. induction a as [|x a IH]; simpl; [now destruct b | now rewrite IH]. Qed.

Lemma substring_all (b : string) : substring 0 (String.length b) b = b.
Proof. induction b as [|x b IH]; simpl; [reflexivity | now rewrite IH]. Qed.

Lemma substring_app_r (a b : string) :
  substring (String.length a) (String.length b) (a ++ b) = b.
Proof. induction a as [|x a IH]; simpl; [apply substring_all | exact IH]. Qed.

Lemma HasSuffix_app (s suffix : string) : HasSuffix (s ++ suffix) suffix = true.
Proof.
  unfold HasSuffix. rewrite str_length_app.
  replace (String.length s + String.length suffix - String.length suffix)
    with (String.length s) by lia.
  rewrite substring_app_r, String.eqb_refl, andb_true_r.
  apply Nat.leb_le. lia.
Qed.

Lemma TrimSuffix_app (s suffix : string) : TrimSuffix (s ++ suffix) suffix = s.
Proof.
  unfold TrimSuffix. rewrite HasSuffix_app, str_length_app.
  replace (String.length s + String.length suffix - String.length suffix)
    with (String.length s) by lia.
  apply substring_app_l.
Qed.

Lemma ToLower_app (a b : string) : ToLower (a ++ b) = ToLower a ++ ToLower b.
Proof. induction a as [|x a IH]; simpl; [reflexivity | now rewrite IH]. Qed.

Lemma ToLower_length (s : string) : String.length (ToLower s) = String.length s.
Proof. induction s as [|x s IH]; simpl; [reflexivity | now rewrite IH]. Qed.

Lemma ToLower_substring (s : string) (n m : nat) :
  substring n m (ToLower s) = ToLower (substring n m s).
Proof.
  revert n m; induction s as [|x s IH]; intros n m; simpl.
  - now destruct n, m.
  - destruct n, m; simpl; try reflexivity; now rewrite IH.
Qed.

(** Bytes are inspected by exhaustive case analysis. *)
Ltac each_byte c :=
  destruct c as [[] [] [] [] [] [] [] []]; try reflexivity; try discriminate.

Lemma lowerByte_idem (c : ascii) : lowerByte (lowerByte c) = lowerByte c.
Proof. each_byte c. Qed.

Lemma lowerByte_sep (c : ascii) :
  Ascii.eqb (lowerByte c) "/"%char = Ascii.eqb c "/"%char.
Proof. each_byte c. Qed.

Lemma lowerByte_dot (c : ascii) :
  Ascii.eqb (lowerByte c) "."%char = Ascii.eqb c "."%char.
Proof. each_byte c. Qed.

Lemma lowerByte_space (c : ascii) : isSpace (lowerByte c) = isSpace c.
Proof. each_byte c. Qed.

Lemma lowerByte_glob (c : ascii) :
  Contains "*?[" (String (lowerByte c) "") = Contains "*?[" (String c "").
Proof. each_byte c. Qed.

Lemma ToLower_idem (s : string) : ToLower (ToLower s) = ToLower s.
Proof.
  induction s as [|x s IH]; simpl; [reflexivity|].
  now rewrite lowerByte_idem, IH.
Qed.

Lemma ToLower_empty (s : string) :
  String.eqb (ToLower s) "" = String.eqb s "".
Proof. now destruct s. Qed.

Lemma ToLower_eq_sep (s : string) :
  String.eqb (ToLower s) "/" = String.eqb s "/".
Proof.
  destruct s as [|c [|d s]]; simpl; try reflexivity.
  - rewrite lowerByte_sep. reflexivity.
  - rewrite lowerByte_sep. now destruct (Ascii.eqb c "/").
Qed.

Lemma ToLower_ContainsAny_glob (s : string) :
  ContainsAny (ToLower s) "*?[" = ContainsAny s "*?[".
Proof.
  induction s as [|x s IH]; [reflexivity|].
  cbn [ToLower ContainsAny]. now rewrite lowerByte_glob, IH.
Qed.

Lemma ToLower_HasPrefix_sep (s : string) :
  HasPrefix (ToLower s) "/" = HasPrefix s "/".
Proof. destruct s as [|c s]; simpl; [reflexivity | now rewrite lowerByte_sep]. Qed.

Lemma ToLower_Contains_sep (s : string) :
  Contains (ToLower s) "/" = Contains s "/".
Proof.
  induction s as [|x s IH]; [reflexivity|].
  cbn [ToLower Contains]. rewrite IH.
  change (String (lowerByte x) (ToLower s)) with (ToLower (String x s)).
  now rewrite ToLower_HasPrefix_sep.
Qed.

Lemma ToLower_HasSuffix_sep (s : string) :
  HasSuffix (ToLower s) "/" = HasSuffix s "/".
Proof.
  unfold HasSuffix. now rewrite ToLower_length, ToLower_substring, ToLower_eq_sep.
Qed.

Lemma ToLower_TrimSuffix_sep (s : string) :
  TrimSuffix (ToLower s) "/" = ToLower (TrimSuffix s "/").
Proof.
  unfold TrimSuffix.
  rewrite ToLower_HasSuffix_sep, ToLower_length, ToLower_substring.
  now destruct (HasSuffix s "/").
Qed.

Lemma ReplaceAll1_same (s : string) (c : ascii) :
  ReplaceAll1 s c (String c "") = s.
Proof.
  induction s as [|x s IH]; simpl; [reflexivity|].
  destruct (Ascii.eqb_spec x c) as [->|_]; simpl; now rewrite IH.
Qed.

(** On Unix replacing "/" by the separator changes nothing. *)
Lemma ReplaceAll_sep (s : string) : ReplaceAll s "/" exclude.osSep = s.
Proof. apply ReplaceAll1_same. Qed.

Lemma ToLower_trimLeft (s : string) : trimLeft (ToLower s) = ToLower (trimLeft s).
Proof.
  induction s as [|x s IH]; simpl; [reflexivity|].
  rewrite lowerByte_space. now destruct (isSpace x).
Qed.

Lemma ToLower_trimRight (s : string) : trimRight (ToLower s) = ToLower (trimRight s).
Proof.
  induction s as [|x s IH]; simpl; [reflexivity|].
  rewrite IH, lowerByte_space.
  destruct (trimRight s); simpl; [now destruct (isSpace x) | reflexivity].
Qed.

Lemma ToLower_TrimSpace (s : string) : TrimSpace (ToLower s) = ToLower (TrimSpace s).
Proof. unfold TrimSpace. now rewrite ToLower_trimLeft, ToLower_trimRight. Qed.

End string_facts.

(** * Facts about ShouldExclude *)

Module exclude_facts.
Import strings exclude spec string_facts.

(** The pattern loop stops at the first pattern that excludes. *)
Lemma excludeLoop_cons (ic : bool) (relCmp baseCmp : string) (isDir : bool)
      (raw : string) (rest : list string) :
  excludeLoop ic relCmp baseCmp isDir (raw :: rest) =
  patternExcludes ic relCmp baseCmp isDir raw
  || excludeLoop ic relCmp baseCmp isDir rest.
Proof.
  unfold patternExcludes. cbn [excludeLoop].
  repeat match goal with
         | |- context [if ?c then _ else _] => destruct c
         end; reflexivity.
Qed.

Lemma excludeLoop_existsb (ic : bool) (relCmp baseCmp : string) (isDir : bool)
      (pats : list string) :
  excludeLoop ic relCmp baseCmp isDir pats =
  existsb (patternExcludes ic relCmp baseCmp isDir) pats.
Proof.
  induction pats as [|raw rest IH]; [reflexivity|].
  rewrite excludeLoop_cons, IH. reflexivity.
Qed.

Definition gitignoreSays (m : ExcludeMatcher) (path : string) : bool :=
  match gitignoreMatcher m with
  | Some g => MatchesPath g (relNormOf path)
  | None => false
  end.

(** ShouldExclude is a disjunction: the gitignore rules, or one of the
    ad-hoc patterns. *)
Lemma ShouldExclude_unfold (m : ExcludeMatcher) (path : string) (isDir : bool) :
  ShouldExclude m path isDir =
  gitignoreSays m path
  || existsb (patternExcludes (ignoreCase m)
                (lower (ignoreCase m) (relNormOf path))
                (lower (ignoreCase m) (filepath.Base (relNormOf path))) isDir)
             (globPatterns m).
Proof.
  unfold ShouldExclude, gitignoreSays.
  rewrite excludeLoop_existsb.
  destruct (gitignoreMatcher m) as [g|]; [destruct (MatchesPath g _)|]; reflexivity.
Qed.

Lemma ShouldExclude_pattern (m : ExcludeMatcher) (path : string) (isDir : bool)
      (raw : string) :
  In raw (globPatterns m) ->
  patternExcludes (ignoreCase m) (lower (ignoreCase m) (relNormOf path))
    (lower (ignoreCase m) (filepath.Base (relNormOf path))) isDir raw = true ->
  ShouldExclude m path isDir = true.
Proof.
  intros Hin Hp. rewrite ShouldExclude_unfold.
  apply orb_true_iff; right. apply existsb_exists. now exists raw.
Qed.

(** More patterns exclude more. *)
Lemma ShouldExclude_mono (m1 m2 : ExcludeMatcher) (path : string) (isDir : bool) :
  gitignoreMatcher m1 = gitignoreMatcher m2 ->
  ignoreCase m1 = ignoreCase m2 ->
  incl (globPatterns m1) (globPatterns m2) ->
  ShouldExclude m1 path isDir = true ->
  ShouldExclude m2 path isDir = true.
Proof.
  intros Hg Hic Hincl. rewrite !ShouldExclude_unfold.
  unfold gitignoreSays. rewrite Hg, Hic.
  intros H. apply orb_true_iff in H as [H|H]; apply orb_true_iff; [now left|right].
  apply existsb_exists in H as (raw & Hin & Hp).
  apply existsb_exists. exists raw. split; [now apply Hincl | exact Hp].
Qed.

Lemma lower_app (ic : bool) (a b : string) : lower ic (a ++ b) = lower ic a ++ lower ic b.
Proof. destruct ic; [apply ToLower_app | reflexivity]. Qed.

Lemma lower_sep (ic : bool) : lower ic "/" = "/".
Proof. now destruct ic. Qed.

Lemma lower_hasGlobChars (ic : bool) (s : string) :
  hasGlobChars (lower ic s) = hasGlobChars s.
Proof. destruct ic; [apply ToLower_ContainsAny_glob | reflexivity]. Qed.

Lemma lower_Contains_sep (ic : bool) (s : string) :
  Contains (lower ic s) "/" = Contains s "/".
Proof. destruct ic; [apply ToLower_Contains_sep | reflexivity]. Qed.

Lemma lower_HasSuffix_sep (ic : bool) (s : string) :
  HasSuffix (lower ic s) "/" = HasSuffix s "/".
Proof. destruct ic; [apply ToLower_HasSuffix_sep | reflexivity]. Qed.

(** What a bare directory pattern [name/] does in one iteration. *)
Lemma patternExcludes_bare_dir (ic : bool) (relCmp baseCmp : string) (isDir : bool)
      (raw name : string) :
  TrimSpace raw = name ++ "/" ->
  hasGlobChars name = false ->
  Contains name "/" = false ->
  patternExcludes ic relCmp baseCmp isDir raw =
  (isDir && (String.eqb relCmp (lower ic name)
             || String.eqb relCmp (lower ic name ++ "/")))
  || HasPrefix relCmp (lower ic name ++ "/")
  || Contains relCmp ("/" ++ lower ic name ++ "/").
Proof.
  intros Htrim Hglob Hsep.
  unfold patternExcludes. cbn [excludeLoop].
  rewrite Htrim, ReplaceAll_sep.
  replace (String.eqb (name ++ "/") "") with false by (now destruct name).
  rewrite lower_app, lower_sep.
  change osSep with "/".
  rewrite HasSuffix_app, TrimSuffix_app, lower_hasGlobChars, Hglob,
    lower_Contains_sep, Hsep.
  cbn [negb andb].
  repeat match goal with
         | |- context [if ?c then _ else _] => destruct c
         end; reflexivity.
Qed.

(** The candidates a bare directory pattern [name/] excludes. *)
Lemma ShouldExclude_bare_dir (m : ExcludeMatcher) (raw name path : string)
      (isDir : bool) :
  In raw (globPatterns m) ->
  TrimSpace raw = name ++ "/" ->
  hasGlobChars name = false ->
  Contains name "/" = false ->
  (isDir = true /\ relNormOf path = name)
  \/ (exists rest, relNormOf path = name ++ "/" ++ rest)
  \/ (exists pre rest, relNormOf path = pre ++ "/" ++ name ++ "/" ++ rest) ->
  ShouldExclude m path isDir = true.
Proof.
  intros Hin Htrim Hglob Hsep Hcase.
  apply (ShouldExclude_pattern m path isDir raw Hin).
  rewrite (patternExcludes_bare_dir _ _ _ _ raw name Htrim Hglob Hsep).
  destruct Hcase as [[-> ->] | [[rest ->] | (pre & rest & ->)]].
  - rewrite String.eqb_refl. reflexivity.
  - rewrite !lower_app, lower_sep.
    rewrite <- str_app_assoc, HasPrefix_refl_app.
    now rewrite orb_true_r.
  - rewrite !lower_app, lower_sep.
    replace (lower (ignoreCase m) pre ++ "/" ++ lower (ignoreCase m) name
             ++ "/" ++ lower (ignoreCase m) rest)
      with (lower (ignoreCase m) pre ++ ("/" ++ lower (ignoreCase m) name ++ "/")
            ++ lower (ignoreCase m) rest)
      by (now rewrite !str_app_assoc).
    rewrite Contains_app. now rewrite orb_true_r.
Qed.

(** An absolute path is matched as it is: filepath.Rel cannot make it
    relative to ".". *)
Lemma Clean_rooted (path : string) :
  HasPrefix path "/" = true -> HasPrefix (filepath.Clean path) "/" = true.
Proof.
  destruct path as [|c path]; [discriminate|].
  cbn [HasPrefix]. rewrite andb_true_r. intros Hc.
  unfold filepath.Clean, filepath.Separator. now rewrite Hc.
Qed.

Lemma relNormOf_absolute (path : string) :
  HasPrefix path "/" = true -> relNormOf path = path.
Proof.
  intros Habs. unfold relNormOf, filepath.RelDot.
  pose proof (Clean_rooted path Habs) as Hc.
  destruct (filepath.Clean path) as [|c t]; [discriminate|].
  cbn [HasPrefix] in Hc. rewrite andb_true_r in Hc.
  apply Ascii.eqb_eq in Hc. subst c.
  cbn [String.eqb Ascii.eqb Bool.eqb HasPrefix andb]. apply ReplaceAll_sep.
Qed.

Lemma Abs_rooted (wd path : string) :
  HasPrefix wd "/" = true -> HasPrefix (filepath.Abs wd path) "/" = true.
Proof.
  intros Hwd. unfold filepath.Abs, filepath.IsAbs.
  destruct (HasPrefix path "/") eqn:E; [now apply Clean_rooted|].
  unfold filepath.Join2.
  destruct wd as [|c wd]; [discriminate|].
  apply Clean_rooted. exact Hwd.
Qed.

End exclude_facts.

(** * Facts about filepath.Match on literal patterns *)

Module match_facts.
Import strings filepath spec string_facts.

Lemma substring_none (n : nat) (s : string) : substring n 0 s = "".
Proof.
  revert n; induction s as [|c s IH]; intros [|n]; simpl; try reflexivity.
  apply IH.
Qed.

Lemma plainByte_inv (c : ascii) :
  plainByte c = true ->
  Ascii.eqb c "*"%char = false /\ Ascii.eqb c "?"%char = false /\
  Ascii.eqb c "["%char = false /\ Ascii.eqb c "\"%char = false.
Proof.
  unfold plainByte. intros H. apply negb_true_iff in H.
  repeat (apply orb_false_iff in H as [H ?]). auto.
Qed.

Lemma scanLen_literal (lit : string) :
  isLiteral lit = true -> scanLen lit false = String.length lit.
Proof.
  induction lit as [|c lit IH]; [reflexivity|].
  cbn [isLiteral]. intros H. apply andb_prop in H as [Hc Hl].
  apply plainByte_inv in Hc as (Hstar & _ & Hbr & Hesc).
  cbn [scanLen String.length]. rewrite Hesc, Hbr, Hstar.
  destruct (Ascii.eqb c "]"); now rewrite IH.
Qed.

Lemma scanChunk_literal (lit : string) :
  isLiteral lit = true -> scanChunk lit = (false, lit, "").
Proof.
  intros H. unfold scanChunk.
  assert (Hs : stripStars lit = (false, lit)).
  { destruct lit as [|c lit]; [reflexivity|].
    cbn [isLiteral] in H. apply andb_prop in H as [Hc _].
    apply plainByte_inv in Hc as (Hstar & _). cbn. now rewrite Hstar. }
  rewrite Hs, scanLen_literal by exact H.
  now rewrite substring_all, Nat.sub_diag, substring_none.
Qed.

Lemma matchChunkLoop_literal_failed (lit : string) :
  forall (fuel : nat) (s : string),
    isLiteral lit = true -> String.length lit < fuel ->
    matchChunkLoop fuel lit s true = ChunkFail.
Proof.
  induction lit as [|c lit IH]; intros fuel s Hl Hf.
  - destruct fuel; [inversion Hf | reflexivity].
  - destruct fuel as [|fuel]; [inversion Hf|].
    cbn [isLiteral] in Hl. apply andb_prop in Hl as [Hc Hl].
    apply plainByte_inv in Hc as (_ & Hq & Hbr & Hesc).
    cbn [String.length] in Hf. apply Nat.succ_lt_mono in Hf.
    cbn [matchChunkLoop orb]. rewrite Hbr, Hq, Hesc.
    destruct s; now apply IH.
Qed.

Lemma matchChunkLoop_literal (lit : string) :
  forall (fuel : nat) (s : string),
    isLiteral lit = true -> String.length lit < fuel ->
    matchChunkLoop fuel lit s false =
    match dropPrefix s lit with
    | Some r => ChunkOk r
    | None => ChunkFail
    end.
Proof.
  induction lit as [|c lit IH]; intros fuel s Hl Hf.
  - destruct fuel; [inversion Hf | reflexivity].
  - destruct fuel as [|fuel]; [inversion Hf|].
    pose proof Hl as Hl0.
    cbn [isLiteral] in Hl. apply andb_prop in Hl as [Hc Hl].
    apply plainByte_inv in Hc as (_ & Hq & Hbr & Hesc).
    cbn [String.length] in Hf. apply Nat.succ_lt_mono in Hf.
    cbn [matchChunkLoop orb dropPrefix]. rewrite Hbr, Hq, Hesc.
    destruct s as [|d s].
    + now apply matchChunkLoop_literal_failed.
    + destruct (Ascii.eqb c d); cbn [negb].
      * now apply IH.
      * now apply matchChunkLoop_literal_failed.
Qed.

Lemma dropPrefix_all (s lit : string) :
  dropPrefix s lit = Some "" <-> s = lit.
Proof.
  revert s; induction lit as [|c lit IH]; intros s; cbn [dropPrefix].
  - split; [now intros [= ->] | now intros ->].
  - destruct s as [|d s]; [split; discriminate|].
    destruct (Ascii.eqb_spec c d) as [->|Hne].
    + rewrite IH. split; [now intros -> | now intros [= ->]].
    + split; [discriminate | intros [= -> _]; now elim Hne].
Qed.

(** On a pattern without special bytes Match is equality. *)
Lemma Match_literal (lit name : string) :
  isLiteral lit = true -> Match lit name = Some (String.eqb lit name).
Proof.
  intros Hl. unfold Match.
  destruct lit as [|c lit].
  - cbn. now rewrite String.eqb_sym.
  - set (pat := String c lit) in *.
    assert (Hlen : String.length pat = S (String.length lit)) by reflexivity.
    rewrite Hlen. cbn [MatchLoop]. unfold pat at 1.
    rewrite scanChunk_literal by exact Hl.
    cbn [andb]. rewrite String.eqb_refl.
    unfold matchChunk. rewrite matchChunkLoop_literal by (auto; lia).
    destruct (dropPrefix name pat) as [t|] eqn:E.
    + destruct (String.eqb_spec t "") as [->|Ht]; cbn [orb negb].
      * apply dropPrefix_all in E. subst name.
        rewrite String.eqb_refl. now destruct (String.length lit).
      * cbn -[String.eqb]. f_equal. symmetry. apply String.eqb_neq. intros Heq.
        symmetry in Heq. apply dropPrefix_all in Heq.
        rewrite Heq in E. injection E as <-. now elim Ht.
    + cbn -[String.eqb]. f_equal. symmetry. apply String.eqb_neq. intros Heq.
      symmetry in Heq. apply dropPrefix_all in Heq.
      rewrite Heq in E. discriminate.
Qed.

Lemma matchPath_literal (lit name : string) :
  isLiteral lit = true -> exclude.matchPath lit name = String.eqb lit name.
Proof. intros H. unfold exclude.matchPath. now rewrite Match_literal. Qed.

End match_facts.

(** * Lower-casing commutes with path normalisation *)

Module lower_facts.
Import strings filepath exclude spec string_facts.

Lemma lowerByte_Separator (c : ascii) :
  Ascii.eqb (lowerByte c) Separator = Ascii.eqb c Separator.
Proof. apply lowerByte_sep. Qed.

Lemma Split1_ToLower (s : string) :
  Split1 (ToLower s) Separator = map ToLower (Split1 s Separator).
Proof.
  induction s as [|c s IH]; [reflexivity|].
  cbn [ToLower Split1]. rewrite lowerByte_Separator, IH.
  destruct (Ascii.eqb c Separator); [reflexivity|].
  now destruct (Split1 s Separator).
Qed.

Lemma ToLower_eq_dot (e : string) : String.eqb (ToLower e) "." = String.eqb e ".".
Proof.
  destruct e as [|c [|d e]]; cbn; try reflexivity; rewrite lowerByte_dot;
    now destruct (Ascii.eqb c ".").
Qed.

Lemma ToLower_eq_dotdot (e : string) : String.eqb (ToLower e) ".." = String.eqb e "..".
Proof.
  destruct e as [|c [|d [|x e]]]; cbn; try reflexivity;
    rewrite ?lowerByte_dot;
    destruct (Ascii.eqb c "."); try reflexivity;
    now destruct (Ascii.eqb d ".").
Qed.

Lemma cleanElems_ToLower (rooted : bool) (elems : list string) :
  forall out,
    cleanElems rooted (map ToLower elems) (map ToLower out) =
    map ToLower (cleanElems rooted elems out).
Proof.
  induction elems as [|e elems IH]; intros out; cbn [map cleanElems].
  - now rewrite map_rev.
  - rewrite ToLower_empty, ToLower_eq_dot, ToLower_eq_dotdot.
    destruct (String.eqb e "" || String.eqb e "."); [apply IH|].
    destruct (String.eqb e "..").
    + destruct out as [|top out]; cbn [map].
      * destruct rooted; [apply (IH []) | apply (IH [e])].
      * rewrite ToLower_eq_dotdot. destruct (String.eqb top "..").
        -- apply (IH (e :: top :: out)).
        -- apply IH.
    + apply (IH (e :: out)).
Qed.

Lemma Join_ToLower (l : list string) :
  Join (map ToLower l) "/" = ToLower (Join l "/").
Proof.
  induction l as [|x l IH]; [reflexivity|].
  destruct l as [|y l]; [reflexivity|].
  change (Join (map ToLower (x :: y :: l)) "/")
    with (ToLower x ++ "/" ++ Join (map ToLower (y :: l)) "/").
  rewrite IH.
  change (Join (x :: y :: l) "/") with (x ++ "/" ++ Join (y :: l) "/").
  now rewrite !ToLower_app.
Qed.

Lemma Clean_ToLower (path : string) : Clean (ToLower path) = ToLower (Clean path).
Proof.
  destruct path as [|c path]; [reflexivity|].
  unfold Clean. cbn [ToLower]. rewrite lowerByte_Separator.
  change (String (lowerByte c) (ToLower path)) with (ToLower (String c path)).
  rewrite Split1_ToLower.
  rewrite (cleanElems_ToLower _ _ []), Join_ToLower.
  destruct (Ascii.eqb c Separator).
  - reflexivity.
  - rewrite ToLower_empty. now destruct (String.eqb _ "").
Qed.

Lemma RelDot_ToLower (path : string) :
  RelDot (ToLower path) = option_map ToLower (RelDot path).
Proof.
  unfold RelDot. rewrite Clean_ToLower, ToLower_eq_dot, ToLower_HasPrefix_sep.
  destruct (String.eqb (Clean path) "."); [reflexivity|].
  now destruct (HasPrefix (Clean path) "/").
Qed.

Lemma relNormOf_ToLower (path : string) :
  relNormOf (ToLower path) = ToLower (relNormOf path).
Proof.
  unfold relNormOf. rewrite RelDot_ToLower, !ReplaceAll_sep.
  now destruct (RelDot path).
Qed.

Lemma stripTrailingSeps_ToLower (path : string) :
  stripTrailingSeps (ToLower path) = ToLower (stripTrailingSeps path).
Proof.
  induction path as [|c path IH]; [reflexivity|].
  cbn [ToLower stripTrailingSeps]. rewrite IH, lowerByte_Separator.
  destruct (stripTrailingSeps path); cbn [ToLower]; [|reflexivity].
  now destruct (Ascii.eqb c Separator).
Qed.

Lemma lastElem_ToLower (path : string) :
  lastElem (ToLower path) = ToLower (lastElem path).
Proof.
  induction path as [|c path IH]; [reflexivity|].
  cbn [ToLower lastElem]. rewrite ToLower_Contains_sep, IH, lowerByte_Separator.
  destruct (Contains path "/"); [reflexivity|].
  now destruct (Ascii.eqb c Separator).
Qed.

Lemma Base_ToLower (path : string) : Base (ToLower path) = ToLower (Base path).
Proof.
  destruct path as [|c path]; [reflexivity|].
  unfold Base.
  change (ToLower (String c path)) with (String (lowerByte c) (ToLower path)).
  cbv iota.
  change (String (lowerByte c) (ToLower path)) with (ToLower (String c path)).
  rewrite stripTrailingSeps_ToLower, lastElem_ToLower.
  now destruct (lastElem (stripTrailingSeps (String c path))).
Qed.

(** The case-insensitive loop is the case-sensitive loop on lower-cased
    patterns. *)
Lemma excludeLoop_ToLower (relCmp baseCmp : string) (isDir : bool) (pats : list string) :
  excludeLoop true relCmp baseCmp isDir pats =
  excludeLoop false relCmp baseCmp isDir (map ToLower pats).
Proof.
  induction pats as [|raw rest IH]; [reflexivity|].
  cbn [map excludeLoop lower].
  rewrite ToLower_TrimSpace, ToLower_empty, !ReplaceAll_sep, IH.
  reflexivity.
Qed.

Lemma ShouldExclude_ToLower (pats : list string) (path : string) (isDir : bool) :
  ShouldExclude (adhoc pats true) path isDir =
  ShouldExclude (adhoc (map ToLower pats) false) (ToLower path) isDir.
Proof.
  unfold ShouldExclude, adhoc.
  cbn [gitignoreMatcher ignoreCase globPatterns lower].
  now rewrite excludeLoop_ToLower, relNormOf_ToLower, Base_ToLower.
Qed.

End lower_facts.

(** * Facts about the accumulator of CollectFiles *)

Module state_facts.
Import collector spec.

Lemma seenAt_record (a p : string) (st : State) :
  seenAt (record a st) p = true <-> p = a \/ seenAt st p = true.
Proof.
  unfold seenAt, record. cbn [seen].
  destruct (decide (a = p)) as [->|Hne].
  - rewrite lookup_insert_eq. cbn. tauto.
  - rewrite lookup_insert_ne by exact Hne.
    split; [tauto | intros [->|H]; [now elim Hne | exact H]].
Qed.

Definition emptyState : State := {| seen := ∅; result := [] |}.

Lemma consistent_empty : consistent emptyState.
Proof.
  split; [constructor|].
  intros p. unfold seenAt. cbn [seen emptyState result].
  rewrite lookup_empty. cbn. split; [discriminate | tauto].
Qed.

Lemma consistent_recordUnseen (a : string) (st : State) :
  consistent st -> consistent (recordUnseen a st).
Proof.
  intros [Hnd Hseen]. unfold recordUnseen.
  destruct (seenAt st a) eqn:E; cbn [negb]; [now split|].
  split.
  - cbn [record result].
    rewrite <- (rev_involutive (result st ++ [a])%list).
    apply List.NoDup_rev. rewrite rev_app_distr. cbn.
    constructor.
    + rewrite <- in_rev. intros Hin. apply Hseen in Hin. congruence.
    + now apply List.NoDup_rev.
  - intros p. rewrite seenAt_record. cbn [record result].
    rewrite in_app_iff, Hseen. cbn. intuition.
Qed.

Lemma In_recordUnseen (a p : string) (st : State) :
  consistent st ->
  In p (result (recordUnseen a st)) <-> In p (result st) \/ p = a.
Proof.
  intros [_ Hseen]. unfold recordUnseen.
  destruct (seenAt st a) eqn:E; cbn [negb].
  - split; [tauto | intros [H| ->]; [exact H | now apply Hseen]].
  - cbn [record result]. rewrite in_app_iff. cbn. intuition.
Qed.

Lemma recordAll_app (l1 l2 : list string) (st : State) :
  recordAll (l1 ++ l2)%list st = recordAll l2 (recordAll l1 st).
Proof. apply fold_left_app. Qed.

Lemma consistent_recordAll (l : list string) :
  forall st, consistent st -> consistent (recordAll l st).
Proof.
  induction l as [|a l IH]; intros st H; [exact H|].
  cbn. apply IH. now apply consistent_recordUnseen.
Qed.

Lemma In_recordAll (l : list string) (p : string) :
  forall st, consistent st ->
    In p (result (recordAll l st)) <-> In p (result st) \/ In p l.
Proof.
  induction l as [|a l IH]; intros st H; cbn [recordAll fold_left].
  - cbn. tauto.
  - fold (recordAll l (recordUnseen a st)).
    rewrite IH by now apply consistent_recordUnseen.
    rewrite In_recordUnseen by exact H. cbn. intuition.
Qed.

End state_facts.

(** * The walks of CollectFiles, as lists of candidates *)

Module walk_facts.
Import strings os walk exclude collector spec state_facts.

Section WalkSpec.
Variable w : World.
Variable matcher : ExcludeMatcher.
Variable sel : string -> bool.
Variable fn : WalkFunc (S := State).
Hypothesis fn_visit :
  forall p fi e st, fn p fi e st = visitWith w matcher sel p fi e st.

Lemma walkCands_Dir (path : string) (entries : list (string * Node)) :
  walkCands w matcher sel path (Dir true entries) =
  if ShouldExclude matcher (filepath.Abs (wd w) path) true then []
  else entryCands w matcher sel path entries.
Proof.
  cbn [walkCands negb].
  destruct (ShouldExclude matcher _ true); [reflexivity|].
  unfold entryCands.
  induction entries as [|[name child] rest IH]; [reflexivity|].
  cbn [flat_map fst snd]. now rewrite <- IH.
Qed.

Lemma walk_spec (n : Node) :
  forall path st,
    walk fn path n st =
    (recordAll (walkCands w matcher sel path n) st, walkErr w matcher path n).
Proof.
  induction n as [| |readable entries IH] using Node_tree_ind; intros path st.
  - cbn [walk walkCands walkErr]. rewrite fn_visit.
    unfold visitWith. cbn [isDirOf infoOf IsDir].
    destruct (ShouldExclude matcher _ false); [reflexivity|].
    destruct (sel path); reflexivity.
  - cbn [walk walkCands walkErr]. now rewrite fn_visit.
  - destruct readable.
    2:{ cbn [walk walkCands walkErr negb]. now rewrite fn_visit. }
    rewrite walkCands_Dir. cbn [walk walkErr]. rewrite fn_visit.
    unfold visitWith. cbn [isDirOf infoOf IsDir].
    destruct (ShouldExclude matcher _ true); [reflexivity|].
    cbn [isSome orb]. unfold entryCands.
    revert st. induction IH as [|[name child] rest Hchild _ IHrest]; intros st.
    + reflexivity.
    + cbn [flat_map fst snd] in *. rewrite recordAll_app.
      destruct child as [| r es |].
      * rewrite Hchild. cbn [walkErr]. apply IHrest.
      * rewrite Hchild.
        destruct (walkErr w matcher (filepath.Join2 path name) (Dir r es)) as [e|] eqn:E.
        -- assert (e = SkipDir) as ->.
           { unfold walkErr in E. destruct r; [|discriminate].
             destruct (ShouldExclude matcher _ true); now inversion E. }
           cbn [infoOf IsDir isSkipDir negb orb]. apply IHrest.
        -- apply IHrest.
      * rewrite fn_visit. cbn [visitWith walkCands recordAll fold_left].
        apply IHrest.
Qed.

Lemma Walk_spec (rootPath : string) (st : State) :
  Walk fn w rootPath st =
  (recordAll (match Stat w rootPath with
              | Some n => walkCands w matcher sel rootPath n
              | None => []
              end) st, None).
Proof.
  unfold Walk. destruct (Stat w rootPath) as [n|].
  - rewrite walk_spec.
    destruct (walkErr w matcher rootPath n) as [e|] eqn:E; [|reflexivity].
    unfold walkErr in E. destruct n as [|[] es|]; try discriminate.
    destruct (ShouldExclude matcher _ true); now inversion E.
  - now rewrite fn_visit.
Qed.
End WalkSpec.

Section CollectSpec.
Variable doublestarMatch : string -> string -> option bool.
Variable w : World.
Variable matcher : ExcludeMatcher.
Variable ignoreCase : bool.

Lemma visitDirEntry_visit (p : string) fi e (st : State) :
  visitDirEntry w matcher p fi e st =
  visitWith w matcher (fun _ => true) p fi e st.
Proof.
  unfold visitDirEntry, visitWith. destruct e; [reflexivity|].
  destruct (ShouldExclude matcher _ _); [reflexivity|].
  now destruct (isDirOf fi).
Qed.

Lemma visitGlobEntry_visit (pattern p : string) fi e (st : State) :
  visitGlobEntry doublestarMatch w matcher ignoreCase pattern p fi e st =
  visitWith w matcher (globMatches doublestarMatch ignoreCase pattern) p fi e st.
Proof. reflexivity. Qed.

(** One round of the loop of CollectFiles. *)
Lemma collectLoop_step (path : string) (rest : list string)
      (st : State) (warnings : list string) :
  collectLoop doublestarMatch w matcher ignoreCase (path :: rest) st warnings =
  collectLoop doublestarMatch w matcher ignoreCase rest
    (recordAll (tokenCands doublestarMatch w matcher ignoreCase path) st)
    (warnings ++ tokenWarnings w path)%list.
Proof.
  cbn [collectLoop]. unfold tokenCands, tokenWarnings.
  destruct (Stat w path) as [[|r es|]|] eqn:E; cbn [infoOf IsDir];
    rewrite ?app_nil_r.
  - destruct (ShouldExclude matcher _ false); cbn [negb andb]; [reflexivity|].
    cbn [recordAll fold_left]. unfold recordUnseen.
    now destruct (seenAt st _).
  - rewrite (Walk_spec w matcher (fun _ => true)) by apply visitDirEntry_visit.
    now rewrite E.
  - destruct (ShouldExclude matcher _ false); cbn [negb andb]; [reflexivity|].
    cbn [recordAll fold_left]. unfold recordUnseen.
    now destruct (seenAt st _).
  - destruct (isGlobPattern path); rewrite ?app_nil_r.
    + now rewrite (Walk_spec w matcher (globMatches doublestarMatch ignoreCase path))
        by apply visitGlobEntry_visit.
    + reflexivity.
Qed.

(** CollectFiles accumulates the candidates of its tokens in order,
    never returns an error, and writes the warnings of its tokens. *)
Lemma collectLoop_spec (paths : list string) :
  forall st warnings,
    collectLoop doublestarMatch w matcher ignoreCase paths st warnings =
    {| files := result (recordAll
                  (flat_map (tokenCands doublestarMatch w matcher ignoreCase) paths) st);
       err := None;
       stderr := (warnings ++ flat_map (tokenWarnings w) paths)%list |}.
Proof.
  induction paths as [|path rest IH]; intros st warnings.
  - cbn. now rewrite app_nil_r.
  - rewrite collectLoop_step, IH. cbn [flat_map].
    now rewrite recordAll_app, <- app_assoc.
Qed.

Lemma CollectFiles_spec (paths : list string) :
  CollectFiles doublestarMatch w matcher ignoreCase paths =
  {| files := result (recordAll
                (flat_map (tokenCands doublestarMatch w matcher ignoreCase) paths)
                emptyState);
     err := None;
     stderr := flat_map (tokenWarnings w) paths |}.
Proof. unfold CollectFiles. now rewrite collectLoop_spec. Qed.

Lemma In_CollectFiles (paths : list string) (p : string) :
  In p (files (CollectFiles doublestarMatch w matcher ignoreCase paths)) <->
  exists tok, In tok paths /\
              In p (tokenCands doublestarMatch w matcher ignoreCase tok).
Proof.
  rewrite CollectFiles_spec. cbn [files].
  rewrite In_recordAll by apply consistent_empty.
  rewrite in_flat_map. cbn. tauto.
Qed.
End CollectSpec.

End walk_facts.

(** * Facts about the candidates of a token *)

Module collect_facts.
Import strings os walk exclude collector spec state_facts walk_facts.

(** Every candidate of a walk is a path that ShouldExclude lets pass as
    a file. *)
Lemma walkCands_not_excluded (w : World) (m : ExcludeMatcher)
      (sel : string -> bool) (n : Node) :
  forall path a,
    In a (walkCands w m sel path n) -> ShouldExclude m a false = false.
Proof.
  induction n as [| |readable entries IH] using Node_tree_ind; intros path a Hin.
  - cbn [walkCands] in Hin.
    destruct (ShouldExclude m (filepath.Abs (wd w) path) false) eqn:E;
      [contradiction|].
    destruct (sel path); [|contradiction].
    destruct Hin as [<-|[]]. exact E.
  - contradiction.
  - destruct readable; [|contradiction].
    rewrite walkCands_Dir in Hin.
    destruct (ShouldExclude m _ true); [contradiction|].
    unfold entryCands in Hin. apply in_flat_map in Hin as ([name child] & Hc & Ha).
    rewrite List.Forall_forall in IH. exact (IH _ Hc _ _ Ha).
Qed.

(** Every candidate of a walk is an absolute path. *)
Lemma walkCands_absolute (w : World) (m : ExcludeMatcher)
      (sel : string -> bool) (n : Node) :
  HasPrefix (wd w) "/" = true ->
  forall path a, In a (walkCands w m sel path n) -> HasPrefix a "/" = true.
Proof.
  intros Hwd.
  induction n as [| |readable entries IH] using Node_tree_ind; intros path a Hin.
  - cbn [walkCands] in Hin.
    destruct (ShouldExclude m _ false); [contradiction|].
    destruct (sel path); [|contradiction].
    destruct Hin as [<-|[]]. now apply exclude_facts.Abs_rooted.
  - contradiction.
  - destruct readable; [|contradiction].
    rewrite walkCands_Dir in Hin.
    destruct (ShouldExclude m _ true); [contradiction|].
    unfold entryCands in Hin. apply in_flat_map in Hin as ([name child] & Hc & Ha).
    rewrite List.Forall_forall in IH. exact (IH _ Hc _ _ Ha).
Qed.

(** A walk under the larger pattern list finds no more. *)
Lemma walkCands_mono (w : World) (m1 m2 : ExcludeMatcher)
      (sel : string -> bool) (n : Node) :
  gitignoreMatcher m1 = gitignoreMatcher m2 ->
  ignoreCase m1 = ignoreCase m2 ->
  incl (globPatterns m1) (globPatterns m2) ->
  forall path a,
    In a (walkCands w m2 sel path n) -> In a (walkCands w m1 sel path n).
Proof.
  intros Hg Hic Hincl.
  assert (Hmono : forall p d, ShouldExclude m2 p d = false ->
                              ShouldExclude m1 p d = false).
  { intros p d H2. destruct (ShouldExclude m1 p d) eqn:E1; [|reflexivity].
    rewrite (exclude_facts.ShouldExclude_mono m1 m2 p d Hg Hic Hincl E1) in H2.
    discriminate. }
  induction n as [| |readable entries IH] using Node_tree_ind; intros path a Hin.
  - cbn [walkCands] in *.
    destruct (ShouldExclude m2 (filepath.Abs (wd w) path) false) eqn:E;
      [contradiction|].
    now rewrite (Hmono _ _ E).
  - contradiction.
  - destruct readable; [|contradiction].
    rewrite walkCands_Dir in *.
    destruct (ShouldExclude m2 (filepath.Abs (wd w) path) true) eqn:E;
      [contradiction|].
    rewrite (Hmono _ _ E).
    unfold entryCands in *. apply in_flat_map in Hin as ([name child] & Hc & Ha).
    apply in_flat_map. exists (name, child). split; [exact Hc|].
    rewrite List.Forall_forall in IH. exact (IH _ Hc _ _ Ha).
Qed.

Section Tokens.
Variable doublestarMatch : string -> string -> option bool.
Variable w : World.
Variable ignoreCase : bool.

Lemma tokenCands_not_excluded (m : ExcludeMatcher) (tok a : string) :
  In a (tokenCands doublestarMatch w m ignoreCase tok) ->
  ShouldExclude m a false = false.
Proof.
  unfold tokenCands.
  assert (Hlit : In a (if ShouldExclude m (filepath.Abs (wd w) tok) false
                       then [] else [filepath.Abs (wd w) tok]) ->
                 ShouldExclude m a false = false).
  { destruct (ShouldExclude m _ false) eqn:E; [contradiction|].
    now intros [<-|[]]. }
  destruct (Stat w tok) as [[|r es|]|]; try exact Hlit.
  - apply walkCands_not_excluded.
  - destruct (isGlobPattern tok); [|contradiction].
    destruct (Stat w "."); [|contradiction].
    apply walkCands_not_excluded.
Qed.

Lemma tokenCands_mono (m1 m2 : ExcludeMatcher) (tok a : string) :
  gitignoreMatcher m1 = gitignoreMatcher m2 ->
  exclude.ignoreCase m1 = exclude.ignoreCase m2 ->
  incl (globPatterns m1) (globPatterns m2) ->
  In a (tokenCands doublestarMatch w m2 ignoreCase tok) ->
  In a (tokenCands doublestarMatch w m1 ignoreCase tok).
Proof.
  intros Hg Hic Hincl. unfold tokenCands.
  assert (Hlit : In a (if ShouldExclude m2 (filepath.Abs (wd w) tok) false
                       then [] else [filepath.Abs (wd w) tok]) ->
                 In a (if ShouldExclude m1 (filepath.Abs (wd w) tok) false
                       then [] else [filepath.Abs (wd w) tok])).
  { destruct (ShouldExclude m2 _ false) eqn:E2; [contradiction|].
    destruct (ShouldExclude m1 _ false) eqn:E1; [|tauto].
    rewrite (exclude_facts.ShouldExclude_mono m1 m2 _ _ Hg Hic Hincl E1) in E2.
    discriminate. }
  destruct (Stat w tok) as [[|r es|]|]; try exact Hlit.
  - now apply walkCands_mono.
  - destruct (isGlobPattern tok); [|contradiction].
    destruct (Stat w "."); [|contradiction].
    now apply walkCands_mono.
Qed.

Lemma tokenCands_absolute (m : ExcludeMatcher) (tok a : string) :
  HasPrefix (wd w) "/" = true ->
  In a (tokenCands doublestarMatch w m ignoreCase tok) ->
  HasPrefix a "/" = true.
Proof.
  intros Hwd. unfold tokenCands.
  assert (Hlit : In a (if ShouldExclude m (filepath.Abs (wd w) tok) false
                       then [] else [filepath.Abs (wd w) tok]) ->
                 HasPrefix a "/" = true).
  { destruct (ShouldExclude m _ false); [contradiction|].
    intros [<-|[]]. now apply exclude_facts.Abs_rooted. }
  destruct (Stat w tok) as [[|r es|]|]; try exact Hlit.
  - now apply walkCands_absolute.
  - destruct (isGlobPattern tok); [|contradiction].
    destruct (Stat w "."); [|contradiction].
    now apply walkCands_absolute.
Qed.

(** Under a bare directory pattern [name/] no returned path has a
    segment [name] with something below it: the content of every
    directory of that name is left out, at any depth. *)
Lemma bare_directory_content_not_collected
      (m : ExcludeMatcher) (paths : list string) (raw name p : string) :
  HasPrefix (wd w) "/" = true ->
  In raw (globPatterns m) ->
  TrimSpace raw = name ++ "/" ->
  hasGlobChars name = false ->
  Contains name "/" = false ->
  In p (files (CollectFiles doublestarMatch w m ignoreCase paths)) ->
  Contains p ("/" ++ name ++ "/") = false.
Proof.
  intros Hwd Hin Htrim Hglob Hsep Hp.
  apply In_CollectFiles in Hp as (tok & _ & Hc).
  pose proof (tokenCands_not_excluded m tok p Hc) as Hex.
  pose proof (tokenCands_absolute m tok p Hwd Hc) as Habs.
  destruct (Contains p ("/" ++ name ++ "/")) eqn:E; [|reflexivity].
  apply string_facts.Contains_inv in E as (pre & rest & E).
  rewrite (exclude_facts.ShouldExclude_bare_dir m raw name p false
             Hin Htrim Hglob Hsep) in Hex; [discriminate|].
  right; right. exists pre, rest.
  rewrite (exclude_facts.relNormOf_absolute p Habs), E.
  now rewrite !string_facts.str_app_assoc.
Qed.

Lemma consistent_CollectFiles (m : ExcludeMatcher) (paths : list string) :
  List.NoDup (files (CollectFiles doublestarMatch w m ignoreCase paths)).
Proof.
  rewrite CollectFiles_spec. cbn [files].
  apply consistent_recordAll, consistent_empty.
Qed.
End Tokens.

End collect_facts.

(** * Facts about sort.Strings *)

Module sort_facts.
Import sort.

Lemma ascii_compare_lt_trans (a b c : ascii) :
  Ascii.compare a b = Lt -> Ascii.compare b c = Lt -> Ascii.compare a c = Lt.
Proof. unfold Ascii.compare. rewrite !N.compare_lt_iff. lia. Qed.

Lemma compare_not_gt_trans (s1 : string) :
  forall s2 s3,
    String.compare s1 s2 <> Gt -> String.compare s2 s3 <> Gt ->
    String.compare s1 s3 <> Gt.
Proof.
  induction s1 as [|c1 s1 IH]; intros [|c2 s2] [|c3 s3]; cbn [String.compare];
    try congruence.
  destruct (Ascii.compare c1 c2) eqn:E12; try congruence;
    destruct (Ascii.compare c2 c3) eqn:E23; try congruence.
  - apply Ascii.compare_eq_iff in E12, E23. subst.
    replace (Ascii.compare c3 c3) with Eq
      by (symmetry; apply N.compare_refl).
    apply IH.
  - apply Ascii.compare_eq_iff in E12. subst. now rewrite E23.
  - apply Ascii.compare_eq_iff in E23. subst. now rewrite E12.
  - now rewrite (ascii_compare_lt_trans _ _ _ E12 E23).
Qed.

Lemma string_le_trans (a b c : string) :
  string_le a b -> string_le b c -> string_le a c.
Proof.
  unfold string_le, String.leb. intros H1 H2.
  pose proof (compare_not_gt_trans a b c) as H.
  destruct (String.compare a b), (String.compare b c), (String.compare a c);
    try reflexivity; try discriminate; exfalso; apply H; congruence.
Qed.

(** sort.Strings returns its argument rearranged in ascending order. *)
Lemma Strings_sorted (x : list string) : StronglySorted string_le (Strings x).
Proof.
  apply Sorted_StronglySorted.
  - intros a b c. apply string_le_trans.
  - apply StringSort.Sorted_sort.
Qed.

Lemma Strings_permutation (x : list string) : Permutation x (Strings x).
Proof. apply StringSort.Permuted_sort. Qed.

End sort_facts.

(** * The embedding against the tests of Go and of the repository *)

Module model_checks.
Import examples.

(** The embedded filepath.Match, Clean and Base give what Go's test tables
    expect. *)
Lemma Match_go_table :
  forallb (fun '(pattern, name, want) =>
             match filepath.Match pattern name, want with
             | Some a, Some b => Bool.eqb a b
             | None, None => true
             | _, _ => false
             end) goMatchTests = true.
Proof. vm_compute. reflexivity. Qed.

Lemma Clean_go_table :
  forallb (fun '(path, want) => String.eqb (filepath.Clean path) want) goCleanTests
  = true.
Proof. vm_compute. reflexivity. Qed.

Lemma Base_go_table :
  forallb (fun '(path, want) => String.eqb (filepath.Base path) want) goBaseTests
  = true.
Proof. vm_compute. reflexivity. Qed.

(** The embedded ShouldExclude passes the unit tests of the repository
    that only use single-segment globs ... *)
Lemma ShouldExclude_unit_tests :
  failing (test_GlobPatterns ++ test_PathAwareOnly ++ test_DirectoryTrailingSlash
           ++ test_CaseInsensitivity ++ test_PathVsBasename ++ test_EdgeCases)%list
  = [].
Proof. vm_compute. reflexivity. Qed.

(** ... and fails the rows of TestExcludeMatcherShouldExclude_ComplexGlobs
    that need [**] across segments or brace alternation. *)
Lemma ShouldExclude_ComplexGlobs_test :
  failing test_ComplexGlobs
  = ["project/lib/node_modules/pkg/index.js"; "debug.tmp"; "app.log";
     "webpack.cache"; "main.js.map"; "app.ts.build"].
Proof. vm_compute. reflexivity. Qed.

End model_checks.

(** * The claims about ShouldExclude *)

Import strings exclude spec.

(** C1 (the code at the failing inputs).  The bare directory pattern
    [cache/] does not exclude the directory src/cache: a directory is
    compared with the whole path, and the test for a nested segment looks
    for [/cache/], which a path that ends in [/cache] does not hold.  The
    directory cache at the head of a relative path is excluded, and so is
    every path under src/cache.  On the absolute paths CollectFiles passes,
    a bare directory pattern [name/] excludes no directory that has no
    segment [name] followed by something, so neither /w/src/cache nor
    /w/cache. *)
Theorem C1_directory_in_last_segment_is_not_excluded :
  (forall (raw name path : string),
      TrimSpace raw = name ++ "/" ->
      name <> "" ->
      hasGlobChars name = false ->
      Contains name "/" = false ->
      HasPrefix path "/" = true ->
      Contains path ("/" ++ name ++ "/") = false ->
      ShouldExclude (adhoc [raw] false) path true = false)
  /\ ShouldExclude (adhoc ["cache/"] false) "src/cache" true = false
  /\ ShouldExclude (adhoc ["cache/"] false) "/w/src/cache" true = false
  /\ ShouldExclude (adhoc ["cache/"] false) "/w/cache" true = false
  /\ ShouldExclude (adhoc ["cache/"] false) "cache" true = true
  /\ ShouldExclude (adhoc ["cache/"] false) "src/cache/file.dat" false = true.
Proof.
  split; [|vm_compute; repeat split; reflexivity].
  intros raw name path Htrim Hne Hglob Hsep Habs Hmid.
  rewrite exclude_facts.ShouldExclude_unfold.
  cbn [exclude_facts.gitignoreSays adhoc gitignoreMatcher globPatterns
       ignoreCase existsb orb].
  rewrite orb_false_r.
  rewrite (exclude_facts.patternExcludes_bare_dir _ _ _ _ raw name Htrim Hglob Hsep).
  cbn [lower]. rewrite (exclude_facts.relNormOf_absolute path Habs), Hmid.
  destruct name as [|c n]; [contradiction|].
  destruct path as [|d p]; [discriminate|].
  cbn [HasPrefix] in Habs. rewrite andb_true_r in Habs.
  apply Ascii.eqb_eq in Habs. subst d.
  cbn [Contains HasPrefix] in Hsep. rewrite andb_true_r in Hsep.
  apply orb_false_elim in Hsep as [Hc _].
  assert (Hc' : Ascii.eqb "/" c = false) by now rewrite Ascii.eqb_sym.
  cbn [String.append String.eqb HasPrefix]. rewrite Hc'. reflexivity.
Qed.

Lemma C1_directory_in_last_segment_is_not_excluded_witness :
  ShouldExclude (adhoc [" node_modules/ "] false) "/w/lib/node_modules" true = false.
Proof.
  destruct C1_directory_in_last_segment_is_not_excluded as [Hgen _].
  apply (Hgen " node_modules/ " "node_modules" "/w/lib/node_modules").
  - reflexivity.
  - discriminate.
  - reflexivity.
  - reflexivity.
  - reflexivity.
  - reflexivity.
Defined.

(** One iteration of the pattern loop for a pattern that does not end in a
    separator: it only excludes files, by their base name when the pattern
    has no separator and by their whole path otherwise. *)
Lemma patternExcludes_file_pattern (ic : bool) (relCmp baseCmp : string)
      (isDir : bool) (raw : string) :
  TrimSpace raw <> "" ->
  HasSuffix (TrimSpace raw) "/" = false ->
  patternExcludes ic relCmp baseCmp isDir raw =
  negb isDir &&
  matchPath (lower ic (TrimSpace raw))
            (if Contains (TrimSpace raw) "/" then relCmp else baseCmp).
Proof.
  intros Hne Hsuf. unfold patternExcludes. cbn [excludeLoop].
  apply String.eqb_neq in Hne. rewrite Hne, string_facts.ReplaceAll_sep.
  change osSep with "/".
  rewrite exclude_facts.lower_HasSuffix_sep, Hsuf, exclude_facts.lower_Contains_sep.
  destruct (Contains (TrimSpace raw) "/"), isDir; cbn [negb andb];
    try reflexivity;
    now destruct (matchPath _ _).
Qed.

(** C3 (the code at the failing inputs).  The matchPath of package exclude
    is filepath.Match, in which [**] is two single-segment stars and braces
    are literal: the file project/lib/node_modules/pkg/index.js is not
    excluded by [**/node_modules/**], nor project/cache/temp.tmp by
    [**/*.{tmp,log}]. *)
Theorem C3_exclude_patterns_are_not_recursive :
  ShouldExclude (adhoc ["**/node_modules/**"] false)
                "project/lib/node_modules/pkg/index.js" false = false
  /\ ShouldExclude (adhoc ["**/*.{tmp,log}"] false)
                   "project/cache/temp.tmp" false = false
  /\ ShouldExclude (adhoc ["**/*.{tmp,log}"] false) "cache/temp.tmp" false = false
  /\ ShouldExclude (adhoc ["**/node_modules/**"] false)
                   "lib/node_modules/index.js" false = true.
Proof. vm_compute. repeat split; reflexivity. Qed.

(** C7.  The pattern [*.LOG] excludes a file whose base name is x.log
    exactly when ignoreCase is set, and a file whose base name is x.LOG in
    both modes; and a case-insensitive matcher answers as the case-sensitive
    matcher does on the lower-cased patterns and the lower-cased
    candidate. *)
Theorem C7_case_sensitivity_toggle :
  (forall (ic : bool) (path : string),
      filepath.Base (relNormOf path) = "x.log" ->
      ShouldExclude (adhoc ["*.LOG"] ic) path false = ic)
  /\ (forall (ic : bool) (path : string),
         filepath.Base (relNormOf path) = "x.LOG" ->
         ShouldExclude (adhoc ["*.LOG"] ic) path false = true)
  /\ (forall (pats : list string) (path : string) (isDir : bool),
         ShouldExclude (adhoc pats true) path isDir =
         ShouldExclude (adhoc (map ToLower pats) false) (ToLower path) isDir).
Proof.
  split; [|split].
  - intros ic path Hbase. unfold ShouldExclude.
    cbn [adhoc gitignoreMatcher globPatterns ignoreCase]. rewrite Hbase.
    generalize (lower ic (relNormOf path)) as relCmp. intros relCmp.
    destruct ic; vm_compute; reflexivity.
  - intros ic path Hbase. unfold ShouldExclude.
    cbn [adhoc gitignoreMatcher globPatterns ignoreCase]. rewrite Hbase.
    generalize (lower ic (relNormOf path)) as relCmp. intros relCmp.
    destruct ic; vm_compute; reflexivity.
  - apply lower_facts.ShouldExclude_ToLower.
Qed.

Lemma C7_case_sensitivity_toggle_witness :
  ShouldExclude (adhoc ["*.LOG"] true) "logs/x.log" false = true
  /\ ShouldExclude (adhoc ["*.LOG"] false) "logs/x.log" false = false
  /\ ShouldExclude (adhoc ["*.LOG"] false) "/w/x.LOG" false = true.
Proof.
  destruct C7_case_sensitivity_toggle as (Hlow & Hup & _).
  split; [|split].
  - apply (Hlow true "logs/x.log"). reflexivity.
  - apply (Hlow false "logs/x.log"). reflexivity.
  - apply (Hup false "/w/x.LOG"). reflexivity.
Defined.

(** C10.  A matcher built from exclude files that hold no line at all and
    from ad-hoc patterns that are all empty or white space excludes
    nothing. *)
Theorem C10_default_excludes_nothing :
  forall (readPatternsFromFile : string -> option (list string))
         (CompileIgnoreLines : list string -> GitIgnore)
         (excludeFiles pats : list string) (ic : bool)
         (m : ExcludeMatcher) (path : string) (isDir : bool),
    readAll readPatternsFromFile excludeFiles [] = Some [] ->
    Forall (fun raw => TrimSpace raw = "") pats ->
    BuildMatcher readPatternsFromFile CompileIgnoreLines excludeFiles pats ic = Some m ->
    ShouldExclude m path isDir = false.
Proof.
  intros rd comp excludeFiles pats ic m path isDir Hread Hpats Hbuild.
  unfold BuildMatcher in Hbuild. rewrite Hread in Hbuild.
  cbn in Hbuild. injection Hbuild as <-.
  unfold ShouldExclude. cbn [gitignoreMatcher globPatterns ignoreCase].
  induction Hpats as [|raw rest Hraw _ IH]; [reflexivity|].
  cbn [excludeLoop]. rewrite Hraw. exact IH.
Qed.

Lemma C10_default_excludes_nothing_witness :
  ShouldExclude (adhoc [""; "  "] false) "src/main.go" false = false.
Proof.
  apply (C10_default_excludes_nothing examples.noExcludeFile examples.matchNothing
           [] [""; "  "] false).
  - reflexivity.
  - repeat constructor.
  - reflexivity.
Defined.

(** * The claims about CollectFiles *)

Import os walk collector.

(** C4 (the code at the failing input).  CollectFiles hands absolute paths
    to ShouldExclude, filepath.Rel cannot make them relative to ".", and the
    prefix glob [[Tt]emp*/*] of the pattern [[Tt]emp*/] never matches an
    absolute path: walking "." in /w, the directory /w/Temp is not pruned
    and /w/Temp/a/b.txt is returned; named directly, Temp/a/b.txt is
    returned as well. *)
Theorem C4_complex_directory_pattern_does_not_prune :
  forall doublestarMatch : string -> string -> option bool,
    files (CollectFiles doublestarMatch examples.project
             (adhoc ["[Tt]emp*/"] false) false ["Temp"])
    = ["/w/Temp/a/b.txt"]
    /\ In "/w/Temp/a/b.txt"
          (files (CollectFiles doublestarMatch examples.project
                    (adhoc ["[Tt]emp*/"] false) false ["."]))
    /\ files (CollectFiles doublestarMatch examples.project
                (adhoc ["[Tt]emp*/"] false) false ["Temp/a/b.txt"])
       = ["/w/Temp/a/b.txt"]
    /\ ShouldExclude (adhoc ["[Tt]emp*/"] false) "/w/Temp" true = false
    /\ ShouldExclude (adhoc ["[Tt]emp*/"] false) "Temp/a/b.txt" false = false.
Proof.
  intros ds. vm_compute. repeat split; auto.
Qed.

(** C5.  The list CollectFiles returns has no path twice and no path that
    ShouldExclude excludes as a file; every path in it occurs once, and an
    existing, not excluded file given as a token, however often, occurs
    once. *)
Theorem C5_no_excluded_path_no_duplicate :
  forall (doublestarMatch : string -> string -> option bool) (w : World)
         (m : ExcludeMatcher) (ic : bool) (paths : list string),
    let out := files (CollectFiles doublestarMatch w m ic paths) in
    List.NoDup out
    /\ (forall p, In p out -> ShouldExclude m p false = false)
    /\ (forall p, In p out -> count_occ string_dec out p = 1)
    /\ (forall tok,
           In tok paths ->
           Stat w tok = Some File ->
           ShouldExclude m (filepath.Abs (wd w) tok) false = false ->
           count_occ string_dec out (filepath.Abs (wd w) tok) = 1).
Proof.
  intros ds w m ic paths out.
  assert (Hnd : List.NoDup out) by apply collect_facts.consistent_CollectFiles.
  assert (Hcount : forall p, In p out -> count_occ string_dec out p = 1).
  { intros p Hin. now apply (proj1 (List.NoDup_count_occ' string_dec out) Hnd). }
  split; [exact Hnd|]. split; [|split; [exact Hcount|]].
  - intros p Hin. apply walk_facts.In_CollectFiles in Hin as (tok & _ & Hc).
    exact (collect_facts.tokenCands_not_excluded ds w ic m tok p Hc).
  - intros tok Hin Hstat Hex. apply Hcount.
    apply walk_facts.In_CollectFiles. exists tok. split; [exact Hin|].
    unfold tokenCands. rewrite Hstat, Hex. now left.
Qed.

Lemma C5_no_excluded_path_no_duplicate_witness :
  count_occ string_dec
    (files (CollectFiles examples.noDoublestar examples.project (adhoc [] false) false
              ["a.txt"; "."; "a.txt"; "./a.txt"]))
    "/w/a.txt" = 1.
Proof.
  destruct (C5_no_excluded_path_no_duplicate examples.noDoublestar examples.project
              (adhoc [] false) false ["a.txt"; "."; "a.txt"; "./a.txt"])
    as (_ & _ & _ & Hone).
  apply (Hone "a.txt").
  - cbn. now left.
  - reflexivity.
  - reflexivity.
Defined.

(** C6 (the code at the failing inputs).  CollectFiles returns the paths
    in the order in which it finds them and does not sort.  The tokens
    b.txt, a.txt give /w/b.txt before /w/a.txt.  The single token "." in a
    directory that holds a/x and a.txt gives /w/a/x before /w/a.txt:
    filepath.Walk visits the directory a before the file a.txt, while in
    the paths the byte "." sorts before "/".  Neither list is sorted;
    sort.Strings, which Run calls on the result, puts them in order. *)
Theorem C6_CollectFiles_does_not_sort :
  files (CollectFiles examples.noDoublestar examples.project (adhoc [] false) false
           ["b.txt"; "a.txt"])
  = ["/w/b.txt"; "/w/a.txt"]
  /\ ~ Sorted sort.string_le
       (files (CollectFiles examples.noDoublestar examples.project (adhoc [] false)
                 false ["b.txt"; "a.txt"]))
  /\ files (CollectFiles examples.noDoublestar examples.dotted (adhoc [] false) false
              ["."])
     = ["/w/a/x"; "/w/a.txt"]
  /\ ~ Sorted sort.string_le
       (files (CollectFiles examples.noDoublestar examples.dotted (adhoc [] false)
                 false ["."]))
  /\ sort.Strings
       (files (CollectFiles examples.noDoublestar examples.dotted (adhoc [] false)
                 false ["."]))
     = ["/w/a.txt"; "/w/a/x"].
Proof.
  assert (Hunsorted : forall a b,
             String.leb a b = false -> ~ Sorted sort.string_le [a; b]).
  { intros a b Hab H. inversion H as [|? ? _ Hhd]; subst.
    inversion Hhd as [|? ? Hle]; subst.
    unfold sort.string_le in Hle. congruence. }
  split; [vm_compute; reflexivity|]. split.
  { replace (files _) with ["/w/b.txt"; "/w/a.txt"] by (vm_compute; reflexivity).
    apply Hunsorted. vm_compute. reflexivity. }
  split; [vm_compute; reflexivity|]. split.
  { replace (files _) with ["/w/a/x"; "/w/a.txt"] by (vm_compute; reflexivity).
    apply Hunsorted. vm_compute. reflexivity. }
  vm_compute. reflexivity.
Qed.

(** C8.  With the same gitignore rules and the same case mode, a matcher
    with more ad-hoc patterns lets CollectFiles return no path that the
    matcher with fewer patterns does not return. *)
Theorem C8_more_patterns_never_add_files :
  forall (doublestarMatch : string -> string -> option bool) (w : World)
         (m1 m2 : ExcludeMatcher) (ic : bool) (paths : list string) (p : string),
    gitignoreMatcher m1 = gitignoreMatcher m2 ->
    ignoreCase m1 = ignoreCase m2 ->
    incl (globPatterns m1) (globPatterns m2) ->
    In p (files (CollectFiles doublestarMatch w m2 ic paths)) ->
    In p (files (CollectFiles doublestarMatch w m1 ic paths)).
Proof.
  intros ds w m1 m2 ic paths p Hg Hic Hincl Hin.
  apply walk_facts.In_CollectFiles in Hin as (tok & Htok & Hc).
  apply walk_facts.In_CollectFiles. exists tok. split; [exact Htok|].
  exact (collect_facts.tokenCands_mono ds w ic m1 m2 tok p Hg Hic Hincl Hc).
Qed.

Lemma C8_more_patterns_never_add_files_witness :
  In "/w/a.txt"
     (files (CollectFiles examples.noDoublestar examples.project
               (adhoc ["Temp/"] false) false ["."])).
Proof.
  apply (C8_more_patterns_never_add_files examples.noDoublestar examples.project
           (adhoc ["Temp/"] false) (adhoc ["b.txt"; "Temp/"] false) false ["."]).
  - reflexivity.
  - reflexivity.
  - intros x Hx. cbn in *. tauto.
  - vm_compute. tauto.
Defined.

(** C9.  A token that does not exist and has none of the bytes [*?[]
    makes CollectFiles write one warning, which names the token, between the
    warnings of the tokens before and after it; it adds no path to the
    result and the call returns no error. *)
Theorem C9_missing_literal_token_is_skipped :
  forall (doublestarMatch : string -> string -> option bool) (w : World)
         (m : ExcludeMatcher) (ic : bool) (before after : list string) (tok : string),
    Stat w tok = None ->
    isGlobPattern tok = false ->
    let run := CollectFiles doublestarMatch w m ic in
    files (run (before ++ tok :: after)%list) = files (run (before ++ after)%list)
    /\ err (run (before ++ tok :: after)%list) = None
    /\ stderr (run (before ++ tok :: after)%list)
       = (stderr (run before) ++ warning tok :: stderr (run after))%list
    /\ Contains (warning tok) tok = true
    /\ run [tok] = {| files := []; err := None; stderr := [warning tok] |}.
Proof.
  intros ds w m ic before after tok Hstat Hglob run. unfold run.
  rewrite !walk_facts.CollectFiles_spec. cbn [files err stderr].
  assert (Hc : tokenCands ds w m ic tok = []).
  { unfold tokenCands. now rewrite Hstat, Hglob. }
  assert (Hw : tokenWarnings w tok = [warning tok]).
  { unfold tokenWarnings. now rewrite Hstat, Hglob. }
  rewrite !flat_map_app. cbn [flat_map]. rewrite Hc, Hw.
  cbn [app].
  repeat split.
  unfold warning. apply string_facts.Contains_app.
Qed.

Lemma C9_missing_literal_token_is_skipped_witness :
  CollectFiles examples.noDoublestar examples.project (adhoc [] false) false
    ["missing/literal/path"]
  = {| files := []; err := None;
       stderr := [warning "missing/literal/path"] |}.
Proof.
  apply (C9_missing_literal_token_is_skipped examples.noDoublestar examples.project
           (adhoc [] false) false [] [] "missing/literal/path").
  - reflexivity.
  - reflexivity.
Defined.

(** * Further facts used by the properties below *)

Module more_facts.
Import strings os walk exclude collector spec string_facts state_facts walk_facts.

Lemma trimRight_idem (s : string) : trimRight (trimRight s) = trimRight s.
Proof.
  induction s as [|c s IH]; [reflexivity|].
  cbn [trimRight]. destruct (trimRight s) as [|d u] eqn:E.
  - destruct (isSpace c) eqn:Ec; [reflexivity|]. cbn [trimRight]. now rewrite Ec.
  - cbn [trimRight]. cbn [trimRight] in IH. now rewrite IH.
Qed.

Definition headNotSpace (s : string) : Prop :=
  match s with
  | EmptyString => True
  | String c _ => isSpace c = false
  end.

Lemma trimLeft_head (s : string) : headNotSpace (trimLeft s).
Proof.
  induction s as [|c s IH]; [exact I|].
  cbn [trimLeft]. destruct (isSpace c) eqn:E; [exact IH | exact E].
Qed.

Lemma trimRight_head (s : string) : headNotSpace s -> headNotSpace (trimRight s).
Proof.
  destruct s as [|c s]; [trivial|]. cbn [headNotSpace trimRight]. intros Hc.
  destruct (trimRight s); [now rewrite Hc | exact Hc].
Qed.

Lemma trimLeft_fixed (s : string) : headNotSpace s -> trimLeft s = s.
Proof. destruct s as [|c s]; [reflexivity|]. cbn. now intros ->. Qed.

Lemma TrimSpace_idem (s : string) : TrimSpace (TrimSpace s) = TrimSpace s.
Proof.
  unfold TrimSpace.
  rewrite (trimLeft_fixed (trimRight (trimLeft s)))
    by apply trimRight_head, trimLeft_head.
  apply trimRight_idem.
Qed.

(** One iteration of the pattern loop only sees the trimmed pattern. *)
Lemma patternExcludes_trim (ic : bool) (relCmp baseCmp : string) (isDir : bool)
      (raw : string) :
  patternExcludes ic relCmp baseCmp isDir (TrimSpace raw) =
  patternExcludes ic relCmp baseCmp isDir raw.
Proof. unfold patternExcludes. cbn [excludeLoop]. now rewrite TrimSpace_idem. Qed.

(** Two matchers that agree on the paths of a walk make the same walk. *)
Lemma walkCands_ext (w : World) (m1 m2 : ExcludeMatcher)
      (sel : string -> bool) (n : Node) :
  (forall q d, ShouldExclude m1 (filepath.Abs (wd w) q) d
               = ShouldExclude m2 (filepath.Abs (wd w) q) d) ->
  forall path, walkCands w m1 sel path n = walkCands w m2 sel path n.
Proof.
  intros Hagree.
  induction n as [| |readable entries IH] using Node_tree_ind; intros path.
  - cbn [walkCands]. now rewrite Hagree.
  - reflexivity.
  - destruct readable; [|reflexivity].
    rewrite !walkCands_Dir, Hagree.
    destruct (ShouldExclude m2 _ true); [reflexivity|].
    unfold entryCands. induction IH as [|[name child] rest Hc _ IHrest]; [reflexivity|].
    cbn [flat_map fst snd]. now rewrite Hc, IHrest.
Qed.

Lemma tokenCands_ext (ds : string -> string -> option bool) (w : World)
      (m1 m2 : ExcludeMatcher) (ic : bool) (tok : string) :
  (forall q d, ShouldExclude m1 (filepath.Abs (wd w) q) d
               = ShouldExclude m2 (filepath.Abs (wd w) q) d) ->
  tokenCands ds w m1 ic tok = tokenCands ds w m2 ic tok.
Proof.
  intros Hagree. unfold tokenCands. rewrite (Hagree tok false).
  destruct (Stat w tok) as [[|r es|]|]; try reflexivity.
  - now apply walkCands_ext.
  - destruct (isGlobPattern tok); [|reflexivity].
    destruct (Stat w "."); [|reflexivity].
    now apply walkCands_ext.
Qed.

Lemma CollectFiles_ext (ds : string -> string -> option bool) (w : World)
      (m1 m2 : ExcludeMatcher) (ic : bool) (paths : list string) :
  (forall q d, ShouldExclude m1 (filepath.Abs (wd w) q) d
               = ShouldExclude m2 (filepath.Abs (wd w) q) d) ->
  CollectFiles ds w m1 ic paths = CollectFiles ds w m2 ic paths.
Proof.
  intros Hagree. rewrite !CollectFiles_spec.
  replace (flat_map (tokenCands ds w m1 ic) paths)
    with (flat_map (tokenCands ds w m2 ic) paths); [reflexivity|].
  induction paths as [|tok rest IH]; [reflexivity|].
  cbn [flat_map]. now rewrite IH, (tokenCands_ext ds w m1 m2 ic tok Hagree).
Qed.

Lemma readAll_fails (rd : string -> option (list string)) (files : list string) :
  forall acc,
    readAll rd files acc = None <-> exists f, In f files /\ rd f = None.
Proof.
  induction files as [|f rest IH]; intros acc; cbn [readAll].
  - split; [discriminate | intros (f & [] & _)].
  - destruct (rd f) as [ls|] eqn:E.
    + rewrite IH. split.
      * intros (g & Hin & Hg). exists g. split; [now right | exact Hg].
      * intros (g & [<-|Hin] & Hg); [congruence | now exists g].
    + split; [intros _; exists f; split; [now left | exact E] | reflexivity].
Qed.

Lemma readAll_lines (rd : string -> option (list string)) (files : list string) :
  forall acc all,
    readAll rd files acc = Some all ->
    exists lines,
      Forall2 (fun f ls => rd f = Some ls) files lines
      /\ all = (acc ++ concat lines)%list.
Proof.
  induction files as [|f rest IH]; intros acc all; cbn [readAll].
  - intros [= <-]. exists []. split; [constructor | now rewrite app_nil_r].
  - destruct (rd f) as [ls|] eqn:E; [|discriminate].
    intros H. destruct (IH _ _ H) as (lines & Hall & ->).
    exists (ls :: lines). split; [now constructor|].
    cbn [concat]. now rewrite app_assoc.
Qed.

(** The accumulator only grows, at its end. *)
Lemma recordAll_extends (l : list string) :
  forall st, consistent st ->
    exists extra,
      result (recordAll l st) = (result st ++ extra)%list
      /\ forall p, In p extra -> ~ In p (result st).
Proof.
  induction l as [|a l IH]; intros st Hst.
  - exists []. cbn. split; [now rewrite app_nil_r | tauto].
  - cbn [recordAll fold_left]. fold (recordAll l (recordUnseen a st)).
    destruct (IH _ (consistent_recordUnseen a st Hst)) as (extra & Heq & Hnew).
    unfold recordUnseen in *. destruct (seenAt st a) eqn:E; cbn [negb] in *.
    + exists extra. split; assumption.
    + cbn [record result] in *. exists (a :: extra). split.
      * now rewrite Heq, <- app_assoc.
      * intros p [<-|Hp].
        -- intros Hin. apply (proj2 Hst) in Hin. congruence.
        -- intros Hin. apply (Hnew p Hp). apply in_app_iff. now left.
Qed.

Lemma tokenWarnings_filter (w : World) (paths : list string) :
  flat_map (tokenWarnings w) paths = map warning (List.filter (missingLiteral w) paths).
Proof.
  induction paths as [|tok rest IH]; [reflexivity|].
  cbn [flat_map List.filter]. rewrite IH. unfold tokenWarnings, missingLiteral.
  destruct (Stat w tok); [reflexivity|].
  now destruct (isGlobPattern tok).
Qed.

(** Two ascending lists with the same elements are equal. *)
Lemma sorted_unique (l1 : list string) :
  forall l2,
    StronglySorted sort.string_le l1 -> StronglySorted sort.string_le l2 ->
    Permutation l1 l2 -> l1 = l2.
Proof.
  induction l1 as [|a l1 IH]; intros l2 H1 H2 Hp.
  - apply Permutation_nil in Hp. now subst.
  - destruct l2 as [|b l2].
    + apply Permutation_sym, Permutation_nil in Hp. discriminate.
    + apply StronglySorted_inv in H1 as [H1 Ha].
      apply StronglySorted_inv in H2 as [H2 Hb].
      assert (Hab : a = b).
      { assert (Ha_in : In a (b :: l2))
          by (eapply Permutation_in; [exact Hp | now left]).
        assert (Hb_in : In b (a :: l1))
          by (eapply Permutation_in; [apply Permutation_sym; exact Hp | now left]).
        destruct Ha_in as [->|Ha_in]; [reflexivity|].
        destruct Hb_in as [->|Hb_in]; [reflexivity|].
        rewrite List.Forall_forall in Ha, Hb.
        apply String.leb_antisym; [apply Ha, Hb_in | apply Hb, Ha_in]. }
      subst b. f_equal. apply IH; try assumption.
      now apply Permutation_cons_inv in Hp.
Qed.

Lemma Strings_of_permutation (l1 l2 : list string) :
  Permutation l1 l2 -> sort.Strings l1 = sort.Strings l2.
Proof.
  intros Hp. apply sorted_unique; try apply sort_facts.Strings_sorted.
  eapply Permutation_trans; [apply Permutation_sym, sort_facts.Strings_permutation|].
  eapply Permutation_trans; [exact Hp | apply sort_facts.Strings_permutation].
Qed.

Lemma lowerByte_plain (c : ascii) : plainByte (lowerByte c) = plainByte c.
Proof. each_byte c. Qed.

Lemma lower_isLiteral (ic : bool) (s : string) :
  isLiteral (lower ic s) = isLiteral s.
Proof.
  destruct ic; [|reflexivity]. cbn [lower].
  induction s as [|c s IH]; [reflexivity|].
  cbn [ToLower isLiteral]. now rewrite lowerByte_plain, IH.
Qed.

Lemma lower_HasPrefix_sep (ic : bool) (s : string) :
  HasPrefix (lower ic s) "/" = HasPrefix s "/".
Proof. destruct ic; [apply ToLower_HasPrefix_sep | reflexivity]. Qed.

End more_facts.

(** C2 (the code at the failing inputs).  A pattern with a separator is
    matched against the candidate as filepath.Rel(".", path) returns it,
    and against the candidate itself when Rel fails, as it does for every
    absolute path.  So [a/test.go] excludes exactly the candidates that
    filepath.Clean turns into a/test.go; no pattern without wildcard that
    starts with a name excludes an absolute candidate.  In the working
    directory /w the file a/test.go reaches ShouldExclude as /w/a/test.go
    only: it is not excluded, and CollectFiles returns it, for the token "."
    and for the token a/test.go.  The pattern [test.go], without separator,
    does exclude it, by its base name. *)
Theorem C2_path_pattern_misses_absolute_candidates :
  (forall path : string,
      ShouldExclude (adhoc ["a/test.go"] false) path false = true
      <-> filepath.Clean path = "a/test.go")
  /\ (forall (ic : bool) (raw path : string),
         isLiteral (TrimSpace raw) = true ->
         Contains (TrimSpace raw) "/" = true ->
         HasPrefix (TrimSpace raw) "/" = false ->
         HasSuffix (TrimSpace raw) "/" = false ->
         HasPrefix path "/" = true ->
         ShouldExclude (adhoc [raw] ic) path false = false)
  /\ ShouldExclude (adhoc ["a/test.go"] false) "/w/a/test.go" false = false
  /\ ShouldExclude (adhoc ["a/*.go"] false) "/w/a/test.go" false = false
  /\ ShouldExclude (adhoc ["a/test.go"] false) "a/test.go" false = true
  /\ ShouldExclude (adhoc ["a/test.go"] false) "./a/test.go" false = true
  /\ ShouldExclude (adhoc ["a/test.go"] false) "b/test.go" false = false
  /\ ShouldExclude (adhoc ["test.go"] false) "/w/a/test.go" false = true
  /\ collector.files
       (collector.CollectFiles examples.noDoublestar examples.nested
          (adhoc ["a/test.go"] false) false ["."])
     = ["/w/a/test.go"; "/w/b/test.go"; "/w/test.go"]
  /\ collector.files
       (collector.CollectFiles examples.noDoublestar examples.nested
          (adhoc ["a/test.go"] false) false ["a/test.go"])
     = ["/w/a/test.go"].
Proof.
  assert (Hgen : forall ic raw path,
             TrimSpace raw <> "" ->
             HasSuffix (TrimSpace raw) "/" = false ->
             Contains (TrimSpace raw) "/" = true ->
             ShouldExclude (adhoc [raw] ic) path false =
             exclude.matchPath (lower ic (TrimSpace raw)) (lower ic (relNormOf path))).
  { intros ic raw path Hne Hsuf Hsep.
    rewrite exclude_facts.ShouldExclude_unfold.
    cbn [exclude_facts.gitignoreSays adhoc gitignoreMatcher globPatterns
         ignoreCase existsb orb].
    rewrite orb_false_r.
    now rewrite (patternExcludes_file_pattern _ _ _ _ raw Hne Hsuf), Hsep. }
  split; [|split; [|vm_compute; repeat split; reflexivity]].
  - intros path.
    rewrite Hgen by (vm_compute; congruence). cbn [lower].
    change (TrimSpace "a/test.go") with "a/test.go".
    rewrite match_facts.matchPath_literal by reflexivity.
    rewrite String.eqb_eq.
    unfold relNormOf. rewrite string_facts.ReplaceAll_sep.
    unfold filepath.RelDot.
    destruct (String.eqb (filepath.Clean path) ".") eqn:Edot.
    + apply String.eqb_eq in Edot. rewrite Edot. split; discriminate.
    + destruct (HasPrefix (filepath.Clean path) "/") eqn:Eabs.
      * split.
        -- intros Heq. subst path. vm_compute in Eabs. discriminate.
        -- intros Hc. rewrite Hc in Eabs. discriminate.
      * split; congruence.
  - intros ic raw path Hlit Hsep Hrel Hsuf Habs.
    assert (Hne : TrimSpace raw <> "").
    { intros E. rewrite E in Hsep. discriminate. }
    rewrite Hgen by assumption.
    rewrite (exclude_facts.relNormOf_absolute path Habs).
    rewrite match_facts.matchPath_literal by now rewrite more_facts.lower_isLiteral.
    apply String.eqb_neq. intros E.
    pose proof (more_facts.lower_HasPrefix_sep ic (TrimSpace raw)) as H1.
    pose proof (more_facts.lower_HasPrefix_sep ic path) as H2.
    rewrite E in H1. congruence.
Qed.

Lemma C2_path_pattern_misses_absolute_candidates_witness :
  ShouldExclude (adhoc ["src/Main.go"] true) "/w/src/main.go" false = false.
Proof.
  destruct C2_path_pattern_misses_absolute_candidates as (_ & Habs & _).
  apply (Habs true "src/Main.go" "/w/src/main.go"); reflexivity.
Defined.

(** * Further properties of ShouldExclude and CollectFiles *)

Import strings exclude spec os walk collector.

(** X1.  CollectFiles never returns an error, whatever the file system
    holds: directories that cannot be listed and entries whose lstat fails
    are passed over. *)
Theorem X1_CollectFiles_returns_no_error :
  forall (doublestarMatch : string -> string -> option bool) (w : World)
         (m : ExcludeMatcher) (ic : bool) (paths : list string),
    err (CollectFiles doublestarMatch w m ic paths) = None.
Proof. intros. now rewrite walk_facts.CollectFiles_spec. Qed.

(** X2.  CollectFiles writes one warning for every token that is neither
    found nor a glob pattern, in the order of the tokens, and nothing
    else: a token that exists or has a glob byte writes nothing, even when
    it contributes no file. *)
Theorem X2_warnings_are_the_missing_literal_tokens :
  forall (doublestarMatch : string -> string -> option bool) (w : World)
         (m : ExcludeMatcher) (ic : bool) (paths : list string),
    stderr (CollectFiles doublestarMatch w m ic paths)
    = map warning (List.filter (missingLiteral w) paths).
Proof.
  intros. rewrite walk_facts.CollectFiles_spec. cbn [stderr].
  apply more_facts.tokenWarnings_filter.
Qed.

(** X3.  With a bare directory pattern [name/] among the ad-hoc patterns,
    no path CollectFiles returns has a segment [name] with something
    below it: the content of every directory of that name is left out, at
    any depth and through whichever token it is reached. *)
Theorem X3_bare_directory_content_is_left_out :
  forall (doublestarMatch : string -> string -> option bool) (w : World)
         (m : ExcludeMatcher) (ic : bool) (paths : list string)
         (raw name p : string),
    HasPrefix (wd w) "/" = true ->
    In raw (globPatterns m) ->
    TrimSpace raw = name ++ "/" ->
    hasGlobChars name = false ->
    Contains name "/" = false ->
    In p (files (CollectFiles doublestarMatch w m ic paths)) ->
    Contains p ("/" ++ name ++ "/") = false.
Proof.
  intros ds w m ic paths raw name p.
  apply collect_facts.bare_directory_content_not_collected.
Qed.

Lemma X3_bare_directory_content_is_left_out_witness :
  Contains "/w/a.txt" ("/" ++ "Temp" ++ "/") = false.
Proof.
  apply (X3_bare_directory_content_is_left_out examples.noDoublestar examples.project
           (adhoc ["Temp/"] false) false ["."] "Temp/" "Temp" "/w/a.txt").
  - reflexivity.
  - cbn. now left.
  - reflexivity.
  - reflexivity.
  - reflexivity.
  - vm_compute. tauto.
Defined.

(** X4.  With an ad-hoc pattern that does not end in a separator, no file
    CollectFiles returns matches it: by its base name when the pattern has
    no separator, and by its absolute path (the path ShouldExclude is
    given) when it has one. *)
Theorem X4_no_returned_file_matches_a_file_pattern :
  forall (doublestarMatch : string -> string -> option bool) (w : World)
         (m : ExcludeMatcher) (ic : bool) (paths : list string) (raw p : string),
    HasPrefix (wd w) "/" = true ->
    In raw (globPatterns m) ->
    TrimSpace raw <> "" ->
    HasSuffix (TrimSpace raw) "/" = false ->
    In p (files (CollectFiles doublestarMatch w m ic paths)) ->
    exclude.matchPath (lower (ignoreCase m) (TrimSpace raw))
              (lower (ignoreCase m)
                 (if Contains (TrimSpace raw) "/" then p else filepath.Base p))
    = false.
Proof.
  intros ds w m ic paths raw p Hwd Hin Hne Hsuf Hp.
  apply walk_facts.In_CollectFiles in Hp as (tok & _ & Hc).
  pose proof (collect_facts.tokenCands_not_excluded ds w ic m tok p Hc) as Hex.
  pose proof (collect_facts.tokenCands_absolute ds w ic m tok p Hwd Hc) as Habs.
  rewrite exclude_facts.ShouldExclude_unfold in Hex.
  apply orb_false_iff in Hex as [_ Hex].
  rewrite (exclude_facts.relNormOf_absolute p Habs) in Hex.
  assert (Hraw : patternExcludes (ignoreCase m) (lower (ignoreCase m) p)
                   (lower (ignoreCase m) (filepath.Base p)) false raw = false).
  { destruct (patternExcludes _ _ _ false raw) eqn:E; [|reflexivity].
    assert (Hex' : existsb (patternExcludes (ignoreCase m) (lower (ignoreCase m) p)
                     (lower (ignoreCase m) (filepath.Base p)) false)
                     (globPatterns m) = true)
      by (apply existsb_exists; now exists raw).
    congruence. }
  rewrite (patternExcludes_file_pattern _ _ _ _ raw Hne Hsuf) in Hraw.
  cbn [negb andb] in Hraw.
  now destruct (Contains (TrimSpace raw) "/").
Qed.

Lemma X4_no_returned_file_matches_a_file_pattern_witness :
  exclude.matchPath (lower false (TrimSpace "b.*"))
            (lower false (if Contains (TrimSpace "b.*") "/"
                          then "/w/a.txt" else filepath.Base "/w/a.txt"))
  = false.
Proof.
  apply (X4_no_returned_file_matches_a_file_pattern examples.noDoublestar
           examples.project (adhoc ["b.*"] false) false ["."] "b.*" "/w/a.txt").
  - reflexivity.
  - cbn. now left.
  - vm_compute. congruence.
  - reflexivity.
  - vm_compute. tauto.
Defined.

(** X5.  ShouldExclude is a disjunction over its rules: a path is excluded
    exactly when the gitignore rule set matches its normalised path or one
    of the ad-hoc patterns, taken alone, excludes it. *)
Theorem X5_ShouldExclude_is_a_disjunction :
  forall (m : ExcludeMatcher) (path : string) (isDir : bool),
    ShouldExclude m path isDir = true <->
    (exists g, gitignoreMatcher m = Some g /\ MatchesPath g (relNormOf path) = true)
    \/ (exists raw, In raw (globPatterns m)
                    /\ ShouldExclude (adhoc [raw] (ignoreCase m)) path isDir = true).
Proof.
  intros m path isDir. rewrite exclude_facts.ShouldExclude_unfold.
  rewrite orb_true_iff, existsb_exists. unfold exclude_facts.gitignoreSays.
  split.
  - intros [Hg | (raw & Hin & Hp)].
    + left. destruct (gitignoreMatcher m) as [g|]; [now exists g | discriminate].
    + right. exists raw. split; [exact Hin|].
      rewrite exclude_facts.ShouldExclude_unfold.
      cbn [exclude_facts.gitignoreSays adhoc gitignoreMatcher globPatterns
           ignoreCase existsb orb].
      now rewrite Hp.
  - intros [(g & Hg & Hm) | (raw & Hin & Hp)].
    + left. now rewrite Hg.
    + right. exists raw. split; [exact Hin|].
      rewrite exclude_facts.ShouldExclude_unfold in Hp.
      cbn [exclude_facts.gitignoreSays adhoc gitignoreMatcher globPatterns
           ignoreCase existsb orb] in Hp.
      now rewrite orb_false_r in Hp.
Qed.

(** X6.  Only the set of ad-hoc patterns counts: two matchers with the same
    gitignore rules and case mode whose pattern lists have the same
    elements, in whatever order and however often, give the same answers
    and make CollectFiles return the same. *)
Theorem X6_pattern_order_and_repetition_do_not_matter :
  forall (m1 m2 : ExcludeMatcher),
    gitignoreMatcher m1 = gitignoreMatcher m2 ->
    ignoreCase m1 = ignoreCase m2 ->
    (forall raw, In raw (globPatterns m1) <-> In raw (globPatterns m2)) ->
    (forall path isDir, ShouldExclude m1 path isDir = ShouldExclude m2 path isDir)
    /\ (forall (doublestarMatch : string -> string -> option bool) (w : World)
               (ic : bool) (paths : list string),
           CollectFiles doublestarMatch w m1 ic paths
           = CollectFiles doublestarMatch w m2 ic paths).
Proof.
  intros m1 m2 Hg Hic Hsame.
  assert (Hagree : forall path isDir,
             ShouldExclude m1 path isDir = ShouldExclude m2 path isDir).
  { intros path isDir.
    destruct (ShouldExclude m1 path isDir) eqn:E1, (ShouldExclude m2 path isDir) eqn:E2;
      try reflexivity.
    - rewrite (exclude_facts.ShouldExclude_mono m1 m2 path isDir Hg Hic) in E2;
        [discriminate | intros raw; apply Hsame | exact E1].
    - rewrite (exclude_facts.ShouldExclude_mono m2 m1 path isDir) in E1;
        [discriminate | now symmetry | now symmetry
         | intros raw; apply Hsame | exact E2]. }
  split; [exact Hagree|].
  intros ds w ic paths. apply more_facts.CollectFiles_ext.
  intros q d. apply Hagree.
Qed.

Lemma X6_pattern_order_and_repetition_do_not_matter_witness :
  ShouldExclude (adhoc ["*.log"; "build/"] false) "build/x" false
  = ShouldExclude (adhoc ["build/"; "*.log"; "build/"] false) "build/x" false.
Proof.
  apply (X6_pattern_order_and_repetition_do_not_matter
           (adhoc ["*.log"; "build/"] false)
           (adhoc ["build/"; "*.log"; "build/"] false)).
  - reflexivity.
  - reflexivity.
  - intros raw. cbn. tauto.
Defined.

(** X7.  White space around an ad-hoc pattern is ignored: trimming every
    pattern beforehand changes no answer of ShouldExclude and nothing of
    what CollectFiles returns. *)
Theorem X7_patterns_are_trimmed :
  forall (g : option GitIgnore) (pats : list string) (ic : bool),
    (forall path isDir,
        ShouldExclude {| gitignoreMatcher := g; globPatterns := map TrimSpace pats;
                         ignoreCase := ic |} path isDir
        = ShouldExclude {| gitignoreMatcher := g; globPatterns := pats;
                           ignoreCase := ic |} path isDir)
    /\ (forall (doublestarMatch : string -> string -> option bool) (w : World)
               (ic' : bool) (paths : list string),
           CollectFiles doublestarMatch w
             {| gitignoreMatcher := g; globPatterns := map TrimSpace pats;
                ignoreCase := ic |} ic' paths
           = CollectFiles doublestarMatch w
               {| gitignoreMatcher := g; globPatterns := pats; ignoreCase := ic |}
               ic' paths).
Proof.
  intros g pats ic.
  assert (Hagree : forall path isDir,
             ShouldExclude {| gitignoreMatcher := g; globPatterns := map TrimSpace pats;
                              ignoreCase := ic |} path isDir
             = ShouldExclude {| gitignoreMatcher := g; globPatterns := pats;
                                ignoreCase := ic |} path isDir).
  { intros path isDir. rewrite !exclude_facts.ShouldExclude_unfold.
    cbn [exclude_facts.gitignoreSays gitignoreMatcher globPatterns ignoreCase].
    f_equal. induction pats as [|raw rest IH]; [reflexivity|].
    cbn [map existsb]. now rewrite IH, more_facts.patternExcludes_trim. }
  split; [exact Hagree|].
  intros ds w ic' paths. apply more_facts.CollectFiles_ext.
  intros q d. apply Hagree.
Qed.

(** X8.  In case-insensitive mode, for candidates and patterns of ASCII
    bytes, the answer of a matcher with ad-hoc patterns only depends
    neither on the case of the letters A-Z of the candidate nor on that of
    the patterns.  Letters beyond ASCII are not covered. *)
Theorem X8_ignoreCase_ignores_case :
  forall (pats pats' : list string) (path path' : string) (isDir : bool),
    List.forallb isASCII pats = true ->
    List.forallb isASCII pats' = true ->
    isASCII path = true ->
    isASCII path' = true ->
    map ToLower pats = map ToLower pats' ->
    ToLower path = ToLower path' ->
    ShouldExclude (adhoc pats true) path isDir
    = ShouldExclude (adhoc pats' true) path' isDir.
Proof.
  intros pats pats' path path' isDir _ _ _ _ Hpats Hpath.
  rewrite !lower_facts.ShouldExclude_ToLower. now rewrite Hpats, Hpath.
Qed.

Lemma X8_ignoreCase_ignores_case_witness :
  ShouldExclude (adhoc ["*.Log"; "Build/"] true) "SRC/Debug.LOG" false
  = ShouldExclude (adhoc ["*.LOG"; "build/"] true) "src/debug.log" false.
Proof.
  apply X8_ignoreCase_ignores_case; reflexivity.
Defined.

(** X9.  The sorted list Run works with does not depend on the order of
    the input tokens nor on tokens given more than once. *)
Theorem X9_token_order_does_not_matter_after_sorting :
  forall (doublestarMatch : string -> string -> option bool) (w : World)
         (m : ExcludeMatcher) (ic : bool) (paths1 paths2 : list string),
    (forall tok, In tok paths1 <-> In tok paths2) ->
    sort.Strings (files (CollectFiles doublestarMatch w m ic paths1))
    = sort.Strings (files (CollectFiles doublestarMatch w m ic paths2)).
Proof.
  intros ds w m ic paths1 paths2 Hsame.
  apply more_facts.Strings_of_permutation.
  apply Permutation.NoDup_Permutation;
    try apply collect_facts.consistent_CollectFiles.
  intros p. rewrite !walk_facts.In_CollectFiles.
  split; intros (tok & Hin & Hc); exists tok; (split; [now apply Hsame | exact Hc]).
Qed.

Lemma X9_token_order_does_not_matter_after_sorting_witness :
  sort.Strings (files (CollectFiles examples.noDoublestar examples.project
                         (adhoc [] false) false ["b.txt"; "Temp"; "b.txt"]))
  = sort.Strings (files (CollectFiles examples.noDoublestar examples.project
                           (adhoc [] false) false ["Temp"; "b.txt"])).
Proof.
  apply X9_token_order_does_not_matter_after_sorting.
  intros tok. cbn. tauto.
Defined.

(** X10.  Tokens added at the end only append to what CollectFiles
    returns: the files of the first tokens stay, in their order, at the
    head of the list, followed by files that were not there before. *)
Theorem X10_later_tokens_only_append :
  forall (doublestarMatch : string -> string -> option bool) (w : World)
         (m : ExcludeMatcher) (ic : bool) (first more : list string),
    exists extra,
      files (CollectFiles doublestarMatch w m ic (first ++ more)%list)
      = (files (CollectFiles doublestarMatch w m ic first) ++ extra)%list
      /\ forall p, In p extra ->
                   ~ In p (files (CollectFiles doublestarMatch w m ic first)).
Proof.
  intros ds w m ic first more.
  rewrite !walk_facts.CollectFiles_spec. cbn [files].
  rewrite flat_map_app, state_facts.recordAll_app.
  apply more_facts.recordAll_extends.
  apply state_facts.consistent_recordAll, state_facts.consistent_empty.
Qed.

(** X11.  BuildMatcher fails exactly when one of the exclude files cannot
    be read.  Otherwise it keeps the ad-hoc patterns and the case flag as
    given and hands the lines of all files, in order, to the gitignore
    compiler, unless there is no line at all, in which case the matcher
    has no gitignore rule set. *)
Theorem X11_BuildMatcher_reads_every_exclude_file :
  forall (readPatternsFromFile : string -> option (list string))
         (CompileIgnoreLines : list string -> GitIgnore)
         (excludeFiles pats : list string) (ic : bool),
    (BuildMatcher readPatternsFromFile CompileIgnoreLines excludeFiles pats ic = None
     <-> exists f, In f excludeFiles /\ readPatternsFromFile f = None)
    /\ (forall m,
           BuildMatcher readPatternsFromFile CompileIgnoreLines excludeFiles pats ic
           = Some m ->
           globPatterns m = pats /\ ignoreCase m = ic
           /\ exists lines,
               Forall2 (fun f ls => readPatternsFromFile f = Some ls) excludeFiles lines
               /\ gitignoreMatcher m
                  = match concat lines with
                    | [] => None
                    | all => Some (CompileIgnoreLines all)
                    end).
Proof.
  intros rd comp excludeFiles pats ic. unfold BuildMatcher. split.
  - rewrite <- (more_facts.readAll_fails rd excludeFiles []).
    destruct (readAll rd excludeFiles []); split; congruence.
  - intros m Hm.
    destruct (readAll rd excludeFiles []) as [all|] eqn:E; [|discriminate].
    injection Hm as <-. cbn [globPatterns ignoreCase gitignoreMatcher].
    split; [reflexivity|]. split; [reflexivity|].
    destruct (more_facts.readAll_lines rd excludeFiles [] all E) as (lines & Hall & ->).
    exists lines. split; [exact Hall|]. cbn [app].
    now destruct (concat lines).
Qed.

Lemma X11_BuildMatcher_reads_every_exclude_file_witness :
  globPatterns (adhoc ["*.log"] true) = ["*.log"].
Proof.
  destruct (X11_BuildMatcher_reads_every_exclude_file examples.noExcludeFile
              examples.matchNothing [] ["*.log"] true) as [_ Hok].
  destruct (Hok (adhoc ["*.log"] true)) as (Hp & _).
  - reflexivity.
  - exact Hp.
Defined.

(** X12.  A path-aware pattern without wildcard that does not start with a
    separator (such as src/test.go) changes nothing of what CollectFiles
    returns: ShouldExclude is given absolute paths, which it cannot make
    relative to ".", and an absolute path never equals such a pattern. *)
Theorem X12_relative_literal_path_pattern_has_no_effect :
  forall (doublestarMatch : string -> string -> option bool) (w : World)
         (g : option GitIgnore) (raw : string) (pats : list string)
         (ic ic' : bool) (paths : list string),
    HasPrefix (wd w) "/" = true ->
    isLiteral (TrimSpace raw) = true ->
    Contains (TrimSpace raw) "/" = true ->
    HasPrefix (TrimSpace raw) "/" = false ->
    HasSuffix (TrimSpace raw) "/" = false ->
    CollectFiles doublestarMatch w
      {| gitignoreMatcher := g; globPatterns := raw :: pats; ignoreCase := ic |}
      ic' paths
    = CollectFiles doublestarMatch w
        {| gitignoreMatcher := g; globPatterns := pats; ignoreCase := ic |}
        ic' paths.
Proof.
  intros ds w g raw pats ic ic' paths Hwd Hlit Hsep Hrel Hsuf.
  apply more_facts.CollectFiles_ext. intros q d.
  pose proof (exclude_facts.Abs_rooted (wd w) q Hwd) as Habs.
  rewrite !exclude_facts.ShouldExclude_unfold.
  cbn [exclude_facts.gitignoreSays gitignoreMatcher globPatterns ignoreCase existsb].
  rewrite (exclude_facts.relNormOf_absolute _ Habs).
  assert (Hne : TrimSpace raw <> "").
  { intros E. rewrite E in Hsep. discriminate. }
  rewrite (patternExcludes_file_pattern _ _ _ _ raw Hne Hsuf), Hsep.
  rewrite match_facts.matchPath_literal by now rewrite more_facts.lower_isLiteral.
  replace (String.eqb (lower ic (TrimSpace raw)) (lower ic (filepath.Abs (wd w) q)))
    with false; [now rewrite andb_false_r|].
  symmetry. apply String.eqb_neq. intros E.
  pose proof (more_facts.lower_HasPrefix_sep ic (TrimSpace raw)) as H1.
  pose proof (more_facts.lower_HasPrefix_sep ic (filepath.Abs (wd w) q)) as H2.
  rewrite E in H1. congruence.
Qed.

Lemma X12_relative_literal_path_pattern_has_no_effect_witness :
  CollectFiles examples.noDoublestar examples.project
    {| gitignoreMatcher := None; globPatterns := ["Temp/a/b.txt"]; ignoreCase := false |}
    false ["."]
  = CollectFiles examples.noDoublestar examples.project
      {| gitignoreMatcher := None; globPatterns := []; ignoreCase := false |}
      false ["."].
Proof.
  apply X12_relative_literal_path_pattern_has_no_effect; reflexivity.
Defined.

(** * Properties of ParseArgs *)

Module parse_facts.
Import strings clipcat app.

(** What holds of a configuration while the arguments are read. *)
Definition wellFormed (cfg : Config) : Prop :=
  (forall p, In p (Paths cfg) -> HasPrefix p "-" = false)
  /\ (OnlyTree cfg = true -> ShowTree cfg = true).

Lemma isOneOf_dash (arg : string) (names : list string) :
  Forall (fun n => HasPrefix n "-" = true) names ->
  isOneOf arg names = true -> HasPrefix arg "-" = true.
Proof.
  intros Hall H. unfold isOneOf in H. apply existsb_exists in H as (n & Hin & Heq).
  apply String.eqb_eq in Heq. subst n.
  rewrite List.Forall_forall in Hall. now apply Hall.
Qed.

Lemma knownOptions_dash : Forall (fun n => HasPrefix n "-" = true) knownOptions.
Proof. repeat constructor. Qed.

Lemma isOneOf_known (arg : string) (names : list string) :
  incl names knownOptions -> isOneOf arg knownOptions = false ->
  isOneOf arg names = false.
Proof.
  intros Hincl Hk. destruct (isOneOf arg names) eqn:E; [|reflexivity].
  unfold isOneOf in *. apply existsb_exists in E as (n & Hin & Heq).
  assert (existsb (String.eqb arg) knownOptions = true)
    by (apply existsb_exists; exists n; split; [now apply Hincl | exact Heq]).
  congruence.
Qed.

Ltac known_sublist :=
  let x := fresh in let H := fresh in
  intros x H; cbn in H; cbn; tauto.

(** An argument that is no known option is an unknown option or a path. *)
Lemma parseLoop_other (arg : string) (rest : list string) (cfg : Config) :
  isOneOf arg knownOptions = false ->
  parseLoop (arg :: rest) cfg =
  if HasPrefix arg "-"
  then Exit 2 ("Error: unknown option: " ++ arg ++ newline ++ usage)
  else parseLoop rest
         {| Paths := (Paths cfg ++ [arg])%list; Excludes := Excludes cfg;
            ExcludeFiles := ExcludeFiles cfg; ShowTree := ShowTree cfg;
            OnlyTree := OnlyTree cfg; PrintOut := PrintOut cfg;
            IgnoreCase := IgnoreCase cfg |}.
Proof.
  intros Hk. cbn [parseLoop].
  rewrite !(isOneOf_known arg _) by (try exact Hk; known_sublist).
  reflexivity.
Qed.

Lemma parseLoop_paths (args : list string) :
  forall cfg,
    Forall (fun a => HasPrefix a "-" = false) args ->
    (Paths cfg ++ args)%list <> [] ->
    parseLoop args cfg =
    Parsed {| Paths := (Paths cfg ++ args)%list; Excludes := Excludes cfg;
              ExcludeFiles := ExcludeFiles cfg; ShowTree := ShowTree cfg;
              OnlyTree := OnlyTree cfg; PrintOut := PrintOut cfg;
              IgnoreCase := IgnoreCase cfg |}.
Proof.
  induction args as [|arg rest IH]; intros cfg Hall Hne.
  - cbn [parseLoop]. rewrite app_nil_r in *.
    destruct (Paths cfg) eqn:E; [contradiction|]. cbn. now destruct cfg; cbn in *; subst.
  - inversion Hall as [|? ? Harg Hrest]; subst.
    rewrite parseLoop_other.
    + rewrite Harg, IH; cbn [Paths Excludes ExcludeFiles ShowTree OnlyTree PrintOut IgnoreCase].
      * now rewrite <- app_assoc.
      * exact Hrest.
      * rewrite <- app_assoc. exact Hne.
    + destruct (isOneOf arg knownOptions) eqn:E; [|reflexivity].
      apply (isOneOf_dash _ _ knownOptions_dash) in E. congruence.
Qed.

(** While paths are read, an argument that stops the parse stops it in the
    same way whatever was read before. *)
Lemma parseLoop_after_paths (paths : list string) :
  forall cfg rest code msg,
    Forall (fun a => HasPrefix a "-" = false) paths ->
    (forall cfg', parseLoop rest cfg' = Exit code msg) ->
    parseLoop (paths ++ rest)%list cfg = Exit code msg.
Proof.
  induction paths as [|arg more IH]; intros cfg rest code msg Hall Hstop.
  - apply Hstop.
  - inversion Hall as [|? ? Harg Hmore]; subst. cbn [app].
    rewrite parseLoop_other.
    + rewrite Harg. now apply IH.
    + destruct (isOneOf arg knownOptions) eqn:E; [|reflexivity].
      apply (isOneOf_dash _ _ knownOptions_dash) in E. congruence.
Qed.

Lemma parseLoop_wellFormed (n : nat) :
  forall args cfg0 cfg,
    List.length args <= n ->
    wellFormed cfg0 ->
    parseLoop args cfg0 = Parsed cfg ->
    wellFormed cfg /\ Paths cfg <> [].
Proof.
  induction n as [|n IH]; intros args cfg0 cfg Hlen Hwf Hparse.
  - destruct args; [|cbn in Hlen; lia]. cbn [parseLoop] in Hparse.
    destruct (Paths cfg0) eqn:E; [discriminate|].
    cbn in Hparse. injection Hparse as <-. split; [exact Hwf | congruence].
  - destruct args as [|arg rest].
    + cbn [parseLoop] in Hparse.
      destruct (Paths cfg0) eqn:E; [discriminate|].
      cbn in Hparse. injection Hparse as <-. split; [exact Hwf | congruence].
    + cbn [List.length] in Hlen. apply le_S_n in Hlen.
      destruct Hwf as [Hpaths Htree].
      cbn [parseLoop] in Hparse.
      repeat match type of Hparse with
             | context [if isOneOf ?a ?l then _ else _] =>
                 destruct (isOneOf a l) eqn:?
             end; try discriminate.
      * destruct rest as [|value rest']; [discriminate|].
        apply (IH rest' _ cfg) in Hparse; [exact Hparse | cbn in Hlen; lia|].
        split; assumption.
      * destruct rest as [|value rest']; [discriminate|].
        apply (IH rest' _ cfg) in Hparse; [exact Hparse | cbn in Hlen; lia|].
        split; assumption.
      * apply (IH rest _ cfg) in Hparse; [exact Hparse | exact Hlen|].
        split; [exact Hpaths | reflexivity].
      * apply (IH rest _ cfg) in Hparse; [exact Hparse | exact Hlen|].
        split; [exact Hpaths | reflexivity].
      * apply (IH rest _ cfg) in Hparse; [exact Hparse | exact Hlen|].
        split; assumption.
      * apply (IH rest _ cfg) in Hparse; [exact Hparse | exact Hlen|].
        split; assumption.
      * destruct (HasPrefix arg "-") eqn:Hdash; [discriminate|].
        apply (IH rest _ cfg) in Hparse; [exact Hparse | exact Hlen|].
        split; [|exact Htree].
        cbn [Paths]. intros p Hp. apply in_app_iff in Hp as [Hp|[<-|[]]];
          [now apply Hpaths | exact Hdash].
Qed.

Lemma parseLoop_exit_codes (n : nat) :
  forall args cfg0 code msg,
    List.length args <= n ->
    parseLoop args cfg0 = Exit code msg ->
    (code = 0 /\ msg = usage /\ (In "-h" args \/ In "--help" args)) \/ code = 2.
Proof.
  induction n as [|n IH]; intros args cfg0 code msg Hlen Hparse.
  - destruct args; [|cbn in Hlen; lia]. cbn [parseLoop] in Hparse.
    destruct (Nat.eqb _ 0); [injection Hparse as <- <-; now right | discriminate].
  - destruct args as [|arg rest].
    + cbn [parseLoop] in Hparse.
      destruct (Nat.eqb _ 0); [injection Hparse as <- <-; now right | discriminate].
    + cbn [List.length] in Hlen. apply le_S_n in Hlen.
      assert (Hlift : forall rest' cfg',
                 List.length rest' <= n ->
                 (forall x, In x rest' -> In x (arg :: rest)) ->
                 parseLoop rest' cfg' = Exit code msg ->
                 (code = 0 /\ msg = usage
                  /\ (In "-h" (arg :: rest) \/ In "--help" (arg :: rest)))
                 \/ code = 2).
      { intros rest' cfg' Hl Hsub Hp.
        destruct (IH rest' cfg' code msg Hl Hp) as [(-> & -> & Hin) | ->];
          [left | now right].
        split; [reflexivity|]. split; [reflexivity|].
        destruct Hin as [Hin|Hin]; [left | right]; now apply Hsub. }
      cbn [parseLoop] in Hparse.
      destruct (isOneOf arg ["-h"; "--help"]) eqn:Hhelp.
      { injection Hparse as <- <-. left. split; [reflexivity|]. split; [reflexivity|].
        unfold isOneOf in Hhelp. cbn [existsb] in Hhelp.
        rewrite orb_false_r in Hhelp. apply orb_prop in Hhelp as [H|H];
          apply String.eqb_eq in H; subst arg; [left | right]; now left. }
      repeat match type of Hparse with
             | context [if isOneOf ?a ?l then _ else _] =>
                 destruct (isOneOf a l) eqn:?
             end.
      * destruct rest as [|value rest'];
          [injection Hparse as <- <-; now right|].
        eapply (Hlift rest'); [cbn in Hlen; lia | | exact Hparse].
        intros x Hx. now do 2 right.
      * destruct rest as [|value rest'];
          [injection Hparse as <- <-; now right|].
        eapply (Hlift rest'); [cbn in Hlen; lia | | exact Hparse].
        intros x Hx. now do 2 right.
      * eapply (Hlift rest); [exact Hlen | intros x Hx; now right | exact Hparse].
      * eapply (Hlift rest); [exact Hlen | intros x Hx; now right | exact Hparse].
      * eapply (Hlift rest); [exact Hlen | intros x Hx; now right | exact Hparse].
      * eapply (Hlift rest); [exact Hlen | intros x Hx; now right | exact Hparse].
      * destruct (HasPrefix arg "-");
          [injection Hparse as <- <-; now right|].
        eapply (Hlift rest); [exact Hlen | intros x Hx; now right | exact Hparse].
Qed.

End parse_facts.

Import clipcat app.

(** X13.  A configuration ParseArgs returns has at least one path, none of
    its paths starts with a dash, and OnlyTree is only set together with
    ShowTree. *)
Theorem X13_parsed_configuration_is_well_formed :
  forall (osArgs : list string) (cfg : Config),
    ParseArgs osArgs = Parsed cfg ->
    Paths cfg <> []
    /\ (forall p, In p (Paths cfg) -> HasPrefix p "-" = false)
    /\ (OnlyTree cfg = true -> ShowTree cfg = true).
Proof.
  intros osArgs cfg H. unfold ParseArgs in H.
  destruct (parse_facts.parseLoop_wellFormed (List.length (tl osArgs)) (tl osArgs)
              emptyConfig cfg (le_n _)) as [[Hp Ht] Hne];
    [split; [intros p [] | discriminate] | exact H |].
  split; [exact Hne|]. split; assumption.
Qed.

Lemma X13_parsed_configuration_is_well_formed_witness :
  ShowTree {| Paths := ["src"]; Excludes := ["*.log"]; ExcludeFiles := [];
              ShowTree := true; OnlyTree := true; PrintOut := false;
              IgnoreCase := false |} = true.
Proof.
  destruct (X13_parsed_configuration_is_well_formed
              ["clipcat"; "-e"; "*.log"; "src"; "--only-tree"]
              {| Paths := ["src"]; Excludes := ["*.log"]; ExcludeFiles := [];
                 ShowTree := true; OnlyTree := true; PrintOut := false;
                 IgnoreCase := false |}) as (_ & _ & Htree).
  - reflexivity.
  - apply Htree. reflexivity.
Defined.

(** X14.  When no argument starts with a dash and there is at least one,
    ParseArgs returns them all as paths, in order, with every option at
    its default. *)
Theorem X14_arguments_without_dash_are_the_paths :
  forall (prog : string) (args : list string),
    Forall (fun a => HasPrefix a "-" = false) args ->
    args <> [] ->
    ParseArgs (prog :: args)
    = Parsed {| Paths := args; Excludes := []; ExcludeFiles := [];
                ShowTree := false; OnlyTree := false; PrintOut := false;
                IgnoreCase := false |}.
Proof.
  intros prog args Hall Hne. unfold ParseArgs. cbn [tl].
  now rewrite parse_facts.parseLoop_paths.
Qed.

Lemma X14_arguments_without_dash_are_the_paths_witness :
  ParseArgs ["clipcat"; "README.md"; "src/"; "*test*"]
  = Parsed {| Paths := ["README.md"; "src/"; "*test*"]; Excludes := [];
              ExcludeFiles := []; ShowTree := false; OnlyTree := false;
              PrintOut := false; IgnoreCase := false |}.
Proof.
  apply X14_arguments_without_dash_are_the_paths.
  - repeat constructor.
  - discriminate.
Defined.

(** X15.  When ParseArgs ends the process the exit code is 2, or it is 0,
    the usage text was written and -h or --help is among the
    arguments. *)
Theorem X15_exit_code_is_two_or_zero_for_help :
  forall (osArgs : list string) (code : nat) (msg : string),
    ParseArgs osArgs = Exit code msg ->
    (code = 0 /\ msg = usage /\ (In "-h" (tl osArgs) \/ In "--help" (tl osArgs)))
    \/ code = 2.
Proof.
  intros osArgs code msg H. unfold ParseArgs in H.
  exact (parse_facts.parseLoop_exit_codes _ _ _ _ _ (le_n _) H).
Qed.

Lemma X15_exit_code_is_two_or_zero_for_help_witness :
  (0 = 0 /\ usage = usage
   /\ (In "-h" (tl ["clipcat"; "src"; "-h"; "--bogus"])
       \/ In "--help" (tl ["clipcat"; "src"; "-h"; "--bogus"])))
  \/ 0 = 2.
Proof.
  apply (X15_exit_code_is_two_or_zero_for_help ["clipcat"; "src"; "-h"; "--bogus"]).
  reflexivity.
Defined.

(** X16.  After any number of paths, an argument that starts with a dash
    and is no known option ends the process with code 2, the message
    naming the option and the usage text, whatever follows it. *)
Theorem X16_unknown_option_exits_with_two :
  forall (prog : string) (paths : list string) (arg : string) (rest : list string),
    Forall (fun a => HasPrefix a "-" = false) paths ->
    HasPrefix arg "-" = true ->
    isOneOf arg knownOptions = false ->
    ParseArgs (prog :: paths ++ arg :: rest)%list
    = Exit 2 ("Error: unknown option: " ++ arg ++ output.newline ++ usage).
Proof.
  intros prog paths arg rest Hpaths Hdash Hunknown. unfold ParseArgs. cbn [tl].
  apply parse_facts.parseLoop_after_paths; [exact Hpaths|].
  intros cfg'. rewrite parse_facts.parseLoop_other by exact Hunknown.
  now rewrite Hdash.
Qed.

Lemma X16_unknown_option_exits_with_two_witness :
  ParseArgs ["clipcat"; "file.txt"; "--invalid=value"; "-h"]
  = Exit 2 ("Error: unknown option: " ++ "--invalid=value" ++ output.newline ++ usage).
Proof.
  apply (X16_unknown_option_exits_with_two "clipcat" ["file.txt"] "--invalid=value" ["-h"]).
  - repeat constructor.
  - reflexivity.
  - reflexivity.
Defined.

(** X17.  After any number of paths, -e, --exclude or --exclude-from as
    the last argument ends the process with code 2 and a message naming
    what is missing. *)
Theorem X17_option_without_value_exits_with_two :
  forall (prog : string) (paths : list string),
    Forall (fun a => HasPrefix a "-" = false) paths ->
    ParseArgs (prog :: paths ++ ["-e"])%list
    = Exit 2 ("Error: -e requires a pattern" ++ output.newline)
    /\ ParseArgs (prog :: paths ++ ["--exclude"])%list
       = Exit 2 ("Error: --exclude requires a pattern" ++ output.newline)
    /\ ParseArgs (prog :: paths ++ ["--exclude-from"])%list
       = Exit 2 ("Error: --exclude-from requires a file" ++ output.newline).
Proof.
  intros prog paths Hpaths. unfold ParseArgs. cbn [tl].
  repeat split; apply parse_facts.parseLoop_after_paths; try exact Hpaths;
    intros cfg'; reflexivity.
Qed.

Lemma X17_option_without_value_exits_with_two_witness :
  ParseArgs ["clipcat"; "src"; "-e"]
  = Exit 2 ("Error: -e requires a pattern" ++ output.newline).
Proof.
  destruct (X17_option_without_value_exits_with_two "clipcat" ["src"]) as [H _].
  - repeat constructor.
  - exact H.
Defined.

(** * Properties of package output and of Run *)

Module output_facts.
Import strings strings2 filepath filepath2 output string_facts.

(** What the loop of getRelativePath returns: the pair it started with, or
    a root that is no glob pattern and whose absolute path is a longer
    prefix of the file; and no fitting root is longer than the result. *)
Lemma bestRootLoop_spec (wd file : string) (roots : list string) :
  forall b l b' l',
    bestRootLoop wd file roots b l = (b', l') ->
    ((b' = b /\ l' = l)
     \/ (In l' roots /\ isGlobPattern l' = false /\ b' = Abs wd l'
         /\ HasPrefix file b' = true /\ String.length b < String.length b'))
    /\ String.length b <= String.length b'
    /\ (forall r, In r roots -> isGlobPattern r = false ->
                  HasPrefix file (Abs wd r) = true ->
                  String.length (Abs wd r) <= String.length b').
Proof.
  induction roots as [|root rest IH]; intros b l b' l' H; cbn [bestRootLoop] in H.
  - injection H as <- <-. split; [now left|]. split; [lia | intros r []].
  - destruct (isGlobPattern root) eqn:Eg.
    + destruct (IH _ _ _ _ H) as (Hsel & Hlen & Hmax).
      split; [|split; [exact Hlen|]].
      * destruct Hsel as [Hsame | (Hin & Hrest)]; [now left | right].
        split; [now right | exact Hrest].
      * intros r [<-|Hin] Hr; [congruence | now apply Hmax].
    + destruct (HasPrefix file (Abs wd root)) eqn:Ep; cbn [andb] in H.
      * destruct (Nat.ltb (String.length b) (String.length (Abs wd root))) eqn:El.
        -- apply Nat.ltb_lt in El.
           destruct (IH _ _ _ _ H) as (Hsel & Hlen & Hmax).
           split; [|split; [lia|]].
           ++ right. destruct Hsel as [[-> ->] | (Hin & Hg & Ha & Hp & Hl)].
              ** repeat split; auto. now left.
              ** repeat split; auto; [now right | lia].
           ++ intros r [<-|Hin] Hr Hpr; [exact Hlen | now apply Hmax].
        -- apply Nat.ltb_ge in El.
           destruct (IH _ _ _ _ H) as (Hsel & Hlen & Hmax).
           split; [|split; [exact Hlen|]].
           ++ destruct Hsel as [Hsame | (Hin & Hrest)]; [now left | right].
              split; [now right | exact Hrest].
           ++ intros r [<-|Hin] Hr Hpr; [lia | now apply Hmax].
      * destruct (IH _ _ _ _ H) as (Hsel & Hlen & Hmax).
        split; [|split; [exact Hlen|]].
        -- destruct Hsel as [Hsame | (Hin & Hrest)]; [now left | right].
           split; [now right | exact Hrest].
        -- intros r [<-|Hin] Hr Hpr; [congruence | now apply Hmax].
Qed.

Lemma bestRootLoop_none (wd file : string) (roots : list string) :
  (forall r, In r roots -> isGlobPattern r = true \/ HasPrefix file (Abs wd r) = false) ->
  forall b l, bestRootLoop wd file roots b l = (b, l).
Proof.
  induction roots as [|root rest IH]; intros Hnone b l; [reflexivity|].
  cbn [bestRootLoop].
  destruct (Hnone root (or_introl eq_refl)) as [-> | ->]; cbn [andb].
  - apply IH. intros r Hr. apply Hnone. now right.
  - destruct (isGlobPattern root); apply IH; intros r Hr; apply Hnone; now right.
Qed.

Lemma RelDot_absolute (file : string) :
  HasPrefix file "/" = true -> RelDot file = None.
Proof.
  intros Habs. unfold RelDot.
  pose proof (exclude_facts.Clean_rooted file Habs) as Hc.
  destruct (Clean file) as [|c t]; [discriminate|].
  cbn [HasPrefix] in Hc. rewrite andb_true_r in Hc.
  apply Ascii.eqb_eq in Hc. subst c. reflexivity.
Qed.

Lemma getRelativePath_fallback (wd file : string) (roots : list string) :
  HasPrefix file "/" = true ->
  (forall r, In r roots -> isGlobPattern r = true \/ HasPrefix file (Abs wd r) = false) ->
  getRelativePath wd file roots = ".:".
Proof.
  intros Habs Hnone. unfold getRelativePath.
  rewrite (bestRootLoop_none wd file roots Hnone).
  cbn [String.eqb negb]. now rewrite (RelDot_absolute file Habs).
Qed.

Lemma printFiles_empty_names (k : nat) :
  forall seen, printFiles (repeat "" k) seen = Repeat ("-" ++ newline) k.
Proof.
  induction k as [|k IH]; intros seen; [reflexivity|].
  cbn [repeat printFiles]. unfold printFile. cbn [Split1 removelast printDirs].
  cbn [List.length List.last Repeat]. rewrite IH. reflexivity.
Qed.

Lemma groupFiles_fallback (wd : string) (roots files : list string) :
  (forall f, In f files -> getRelativePath wd f roots = ".:") ->
  forall (g : Groups) (k : nat),
    groups g !! "." = Some (repeat "" (S k)) -> order g = ["."] ->
    let g' := fold_left (groupFile wd roots) files g in
    groups g' !! "." = Some (repeat "" (S k + List.length files))
    /\ order g' = ["."].
Proof.
  induction files as [|f rest IH]; intros Hall g k Hg Ho.
  - cbn. now rewrite Nat.add_0_r.
  - cbn [fold_left List.length].
    assert (Hstep : groups (groupFile wd roots g f) !! "." = Some (repeat "" (S (S k)))
                    /\ order (groupFile wd roots g f) = ["."]).
    { unfold groupFile. rewrite (Hall f (or_introl eq_refl)).
      cbn [cutFirst Ascii.eqb Bool.eqb orEmpty]. rewrite Hg. cbn [groups order].
      rewrite lookup_insert_eq. split; [|exact Ho].
      f_equal. change (repeat "" (S k) ++ [""])%list
        with (repeat "" (S k) ++ repeat "" 1)%list.
      rewrite <- repeat_app. f_equal. lia. }
    destruct Hstep as [Hg' Ho'].
    destruct (IH (fun x Hx => Hall x (or_intror Hx)) _ _ Hg' Ho') as [H1 H2].
    split; [|exact H2]. rewrite H1. do 2 f_equal. lia.
Qed.

End output_facts.

Import output filepath2.

(** X18.  getRelativePath labels a file with a root and a relative path,
    joined by a colon.  The root is one of the given roots that is no glob
    pattern and whose absolute path is a prefix of the file, and no other
    such root has a longer absolute path; when there is no such root the
    label is "." and the path is taken relative to ".". *)
Theorem X18_getRelativePath_picks_the_longest_root :
  forall (wd file : string) (roots : list string),
    exists label rel,
      getRelativePath wd file roots = label ++ ":" ++ rel
      /\ ((In label roots /\ isGlobPattern label = false
           /\ HasPrefix file (filepath.Abs wd label) = true
           /\ (forall r, In r roots -> isGlobPattern r = false ->
                         HasPrefix file (filepath.Abs wd r) = true ->
                         String.length (filepath.Abs wd r)
                         <= String.length (filepath.Abs wd label))
           /\ rel = orEmpty (Rel (filepath.Abs wd label) file))
          \/ (label = "." /\ rel = orEmpty (filepath.RelDot file)
              /\ forall r, In r roots -> isGlobPattern r = false ->
                           HasPrefix file (filepath.Abs wd r) = true ->
                           filepath.Abs wd r = "")).
Proof.
  intros wd file roots. unfold getRelativePath.
  destruct (bestRootLoop wd file roots "" "") as [b l] eqn:E.
  destruct (output_facts.bestRootLoop_spec wd file roots _ _ _ _ E)
    as (Hsel & _ & Hmax).
  destruct Hsel as [[-> ->] | (Hin & Hg & -> & Hp & Hl)].
  - cbn [String.eqb negb]. exists ".", (orEmpty (filepath.RelDot file)).
    split; [reflexivity|]. right. split; [reflexivity|]. split; [reflexivity|].
    intros r Hr Hgr Hpr. specialize (Hmax r Hr Hgr Hpr). cbn in Hmax.
    destruct (filepath.Abs wd r); [reflexivity | cbn in Hmax; lia].
  - replace (String.eqb (filepath.Abs wd l) "") with false
      by (destruct (filepath.Abs wd l); [cbn in Hl; lia | reflexivity]).
    cbn [negb]. exists l, (orEmpty (Rel (filepath.Abs wd l) file)).
    split; [reflexivity|]. left. repeat split; auto.
Qed.

(** X19.  For a file given by its absolute path, when every root is a glob
    pattern or has an absolute path that is no prefix of the file,
    getRelativePath returns ".:" with an empty path: filepath.Rel cannot
    make the file relative to ".". *)
Theorem X19_getRelativePath_without_root_is_empty :
  forall (wd file : string) (roots : list string),
    HasPrefix file "/" = true ->
    (forall r, In r roots ->
               isGlobPattern r = true \/ HasPrefix file (filepath.Abs wd r) = false) ->
    getRelativePath wd file roots = ".:".
Proof. exact output_facts.getRelativePath_fallback. Qed.

Lemma X19_getRelativePath_without_root_is_empty_witness :
  getRelativePath "/w" "/w/src/main.go" ["*.go"; "docs"] = ".:".
Proof.
  apply X19_getRelativePath_without_root_is_empty.
  - reflexivity.
  - intros r [<-|[<-|[]]]; [now left | now right].
Defined.

(** X20.  When every root is a glob pattern, WriteTree prints for files
    given by their absolute paths the line "./" and then, for each file,
    a line that holds a single dash and no name. *)
Theorem X20_WriteTree_of_glob_roots_shows_no_names :
  forall (wd : string) (roots files : list string),
    files <> [] ->
    (forall f, In f files -> HasPrefix f "/" = true) ->
    (forall r, In r roots -> isGlobPattern r = true) ->
    WriteTree wd roots files
    = "./" ++ newline ++ strings2.Repeat ("-" ++ newline) (List.length files).
Proof.
  intros wd roots files Hne Habs Hglob.
  assert (Hfb : forall f, In f files -> getRelativePath wd f roots = ".:").
  { intros f Hf. apply output_facts.getRelativePath_fallback; [now apply Habs|].
    intros r Hr. left. now apply Hglob. }
  destruct files as [|f rest]; [contradiction|].
  unfold WriteTree, groupFiles. cbn [fold_left].
  destruct (output_facts.groupFiles_fallback wd roots rest
              (fun x Hx => Hfb x (or_intror Hx))
              (groupFile wd roots {| groups := ∅; order := [] |} f) 0)
    as [Hg Ho].
  - unfold groupFile. rewrite (Hfb f (or_introl eq_refl)).
    cbn [strings2.cutFirst Ascii.eqb Bool.eqb orEmpty groups order].
    rewrite lookup_empty. cbn [groups]. now rewrite lookup_insert_eq.
  - unfold groupFile. rewrite (Hfb f (or_introl eq_refl)).
    cbn [strings2.cutFirst Ascii.eqb Bool.eqb orEmpty groups order].
    now rewrite lookup_empty.
  - rewrite Ho. cbn [printGroups]. rewrite Hg.
    change (default [] (Some (repeat "" (1 + List.length rest))))
      with (repeat "" (1 + List.length rest)).
    unfold printGroup. cbn [String.eqb Ascii.eqb Bool.eqb].
    rewrite output_facts.printFiles_empty_names.
    cbn [List.length Nat.add]. now rewrite string_facts.str_app_nil_r.
Qed.

Lemma X20_WriteTree_of_glob_roots_shows_no_names_witness :
  WriteTree "/w" ["*.go"] ["/w/a.go"; "/w/src/b.go"]
  = "./" ++ newline ++ strings2.Repeat ("-" ++ newline) 2.
Proof.
  apply (X20_WriteTree_of_glob_roots_shows_no_names "/w" ["*.go"]
           ["/w/a.go"; "/w/src/b.go"]).
  - discriminate.
  - intros f [<-|[<-|[]]]; reflexivity.
  - intros r [<-|[]]. reflexivity.
Defined.

Section RunProperties.
Variable readPatternsFromFile : string -> option (list string).
Variable CompileIgnoreLines : list string -> GitIgnore.
Variable doublestarMatch : string -> string -> option bool.
Variable w : World.

(** X21.  When one of the exclude files cannot be read, Run returns the
    error of loading the exclude patterns and has done nothing else: no
    warning is written, nothing is printed and the clipboard is not
    touched. *)
Theorem X21_unreadable_exclude_file_stops_Run :
  forall (readFile : string -> FileRead) (copyToClipboard : string -> option string)
         (cfg : Config) (f : string),
    In f (ExcludeFiles cfg) ->
    readPatternsFromFile f = None ->
    Run readPatternsFromFile CompileIgnoreLines doublestarMatch w readFile
        copyToClipboard cfg
    = {| runErr := Some LoadingExcludePatterns; clipboardData := None;
         stdout := ""; runStderr := [] |}.
Proof.
  intros readFile clip cfg f Hin Hf. unfold Run.
  assert (Hb : BuildMatcher readPatternsFromFile CompileIgnoreLines
                 (ExcludeFiles cfg) (Excludes cfg) (IgnoreCase cfg) = None).
  { unfold BuildMatcher.
    assert (Hr : readAll readPatternsFromFile (ExcludeFiles cfg) [] = None)
      by (apply more_facts.readAll_fails; now exists f).
    now rewrite Hr. }
  now rewrite Hb.
Qed.

(** X22.  A Run that returns an error prints nothing to the standard
    output, also when printing was asked for; and without any clipboard
    command on the machine every Run returns an error. *)
Theorem X22_failed_Run_prints_nothing :
  forall (readFile : string -> FileRead) (cfg : Config),
    (forall (copyToClipboard : string -> option string),
        let o := Run readPatternsFromFile CompileIgnoreLines doublestarMatch w
                     readFile copyToClipboard cfg in
        runErr o <> None -> stdout o = "")
    /\ (forall (lookPath : string -> bool)
               (runCommand : string -> list string -> string -> option string),
           (forall c, lookPath c = false) ->
           let o := Run readPatternsFromFile CompileIgnoreLines doublestarMatch w
                        readFile (clipboard.CopyToClipboard lookPath runCommand) cfg in
           runErr o <> None /\ stdout o = "").
Proof.
  intros readFile cfg.
  assert (Hfail : forall clip,
             runErr (Run readPatternsFromFile CompileIgnoreLines doublestarMatch w
                         readFile clip cfg) <> None ->
             stdout (Run readPatternsFromFile CompileIgnoreLines doublestarMatch w
                         readFile clip cfg) = "").
  { intros clip. unfold Run.
    destruct (BuildMatcher _ _ _ _ _) as [m|]; [|reflexivity].
    destruct (err _); [reflexivity|].
    destruct (Nat.eqb _ 0); [reflexivity|].
    destruct (clip _); [reflexivity|]. cbn [runErr]. congruence. }
  split; [exact Hfail|].
  intros lookPath runCommand Hnone o.
  assert (Herr : runErr o <> None).
  { unfold o, Run.
    destruct (BuildMatcher _ _ _ _ _) as [m|]; [|discriminate].
    destruct (err _); [discriminate|].
    destruct (Nat.eqb _ 0); [discriminate|].
    unfold clipboard.CopyToClipboard. rewrite !Hnone. discriminate. }
  split; [exact Herr | now apply Hfail].
Qed.

End RunProperties.

Lemma X21_unreadable_exclude_file_stops_Run_witness :
  Run (fun _ => None) examples.matchNothing examples.noDoublestar
      examples.project (fun _ => Copies "text" true) (fun _ => None)
      {| Paths := ["a.txt"]; Excludes := []; ExcludeFiles := ["missing"];
         ShowTree := false; OnlyTree := false; PrintOut := true;
         IgnoreCase := false |}
  = {| runErr := Some LoadingExcludePatterns; clipboardData := None;
       stdout := ""; runStderr := [] |}.
Proof.
  apply (X21_unreadable_exclude_file_stops_Run (fun _ => None) examples.matchNothing
           examples.noDoublestar examples.project (fun _ => Copies "text" true)
           (fun _ => None) _ "missing").
  - now left.
  - reflexivity.
Defined.

Lemma X22_failed_Run_prints_nothing_witness :
  stdout (Run examples.noExcludeFile examples.matchNothing examples.noDoublestar
              examples.project (fun _ => OpenFails)
              (clipboard.CopyToClipboard (fun _ => false) (fun _ _ _ => None))
              {| Paths := ["a.txt"]; Excludes := []; ExcludeFiles := [];
                 ShowTree := false; OnlyTree := false; PrintOut := true;
                 IgnoreCase := false |}) = "".
Proof.
  destruct (X22_failed_Run_prints_nothing examples.noExcludeFile examples.matchNothing
              examples.noDoublestar examples.project (fun _ => OpenFails)
              {| Paths := ["a.txt"]; Excludes := []; ExcludeFiles := [];
                 ShowTree := false; OnlyTree := false; PrintOut := true;
                 IgnoreCase := false |}) as [_ H].
  destruct (H (fun _ => false) (fun _ _ _ => None)) as [_ Hout].
  - reflexivity.
  - exact Hout.
Defined.


(** X23.  In only-tree mode Run never reads a file: what it does is the
    same whatever opening and copying the files would give. *)
Theorem X23_only_tree_reads_no_file :
  forall (readPatternsFromFile : string -> option (list string))
         (CompileIgnoreLines : list string -> GitIgnore)
         (doublestarMatch : string -> string -> option bool) (w : World)
         (readFile1 readFile2 : string -> FileRead)
         (copyToClipboard : string -> option string) (cfg : Config),
    OnlyTree cfg = true ->
    Run readPatternsFromFile CompileIgnoreLines doublestarMatch w readFile1
        copyToClipboard cfg
    = Run readPatternsFromFile CompileIgnoreLines doublestarMatch w readFile2
          copyToClipboard cfg.
Proof.
  intros rd comp ds w r1 r2 clip cfg Honly. unfold Run, assemble.
  now rewrite Honly.
Qed.

Lemma X23_only_tree_reads_no_file_witness :
  Run examples.noExcludeFile examples.matchNothing examples.noDoublestar
      examples.project (fun _ => OpenFails) (fun _ => None)
      {| Paths := ["."]; Excludes := []; ExcludeFiles := []; ShowTree := true;
         OnlyTree := true; PrintOut := true; IgnoreCase := false |}
  = Run examples.noExcludeFile examples.matchNothing examples.noDoublestar
        examples.project (fun _ => Copies "text" true) (fun _ => None)
        {| Paths := ["."]; Excludes := []; ExcludeFiles := []; ShowTree := true;
           OnlyTree := true; PrintOut := true; IgnoreCase := false |}.
Proof.
  apply X23_only_tree_reads_no_file. reflexivity.
Defined.

(** X24.  Whether the collected files can be read never decides whether
    Run succeeds: with a clipboard command whose verdict does not depend
    on the data, Run returns the same error, or none, whatever opening and
    copying the files gives. *)
Theorem X24_unreadable_files_do_not_fail_Run :
  forall (readPatternsFromFile : string -> option (list string))
         (CompileIgnoreLines : list string -> GitIgnore)
         (doublestarMatch : string -> string -> option bool) (w : World)
         (readFile1 readFile2 : string -> FileRead)
         (copyToClipboard : string -> option string) (cfg : Config),
    (forall d1 d2, copyToClipboard d1 = copyToClipboard d2) ->
    runErr (Run readPatternsFromFile CompileIgnoreLines doublestarMatch w readFile1
                copyToClipboard cfg)
    = runErr (Run readPatternsFromFile CompileIgnoreLines doublestarMatch w readFile2
                  copyToClipboard cfg).
Proof.
  intros rd comp ds w r1 r2 clip cfg Hclip. unfold Run.
  destruct (BuildMatcher _ _ _ _ _) as [m|]; [|reflexivity].
  destruct (err _); [reflexivity|].
  destruct (Nat.eqb _ 0); [reflexivity|].
  match goal with
  | |- context [clip (assemble w r1 cfg ?fs)] =>
      rewrite (Hclip (assemble w r1 cfg fs) (assemble w r2 cfg fs))
  end.
  now destruct (clip _).
Qed.

Lemma X24_unreadable_files_do_not_fail_Run_witness :
  runErr (Run examples.noExcludeFile examples.matchNothing examples.noDoublestar
              examples.project (fun _ => OpenFails) (fun _ => None)
              {| Paths := ["a.txt"]; Excludes := []; ExcludeFiles := [];
                 ShowTree := false; OnlyTree := false; PrintOut := false;
                 IgnoreCase := false |})
  = runErr (Run examples.noExcludeFile examples.matchNothing examples.noDoublestar
                examples.project (fun _ => Copies "text" true) (fun _ => None)
                {| Paths := ["a.txt"]; Excludes := []; ExcludeFiles := [];
                   ShowTree := false; OnlyTree := false; PrintOut := false;
                   IgnoreCase := false |}).
Proof.
  apply X24_unreadable_files_do_not_fail_Run. reflexivity.
Defined.

(** X25.  Run calls CopyToClipboard exactly when the exclude files could
    be read and CollectFiles returned at least one file. *)
Theorem X25_clipboard_is_reached_iff_files_were_collected :
  forall (readPatternsFromFile : string -> option (list string))
         (CompileIgnoreLines : list string -> GitIgnore)
         (doublestarMatch : string -> string -> option bool) (w : World)
         (readFile : string -> FileRead)
         (copyToClipboard : string -> option string) (cfg : Config),
    clipboardData (Run readPatternsFromFile CompileIgnoreLines doublestarMatch w
                       readFile copyToClipboard cfg) <> None
    <-> exists m,
        BuildMatcher readPatternsFromFile CompileIgnoreLines
          (ExcludeFiles cfg) (Excludes cfg) (IgnoreCase cfg) = Some m
        /\ files (CollectFiles doublestarMatch w m (IgnoreCase cfg) (Paths cfg)) <> [].
Proof.
  intros rd comp ds w readFile clip cfg. unfold Run.
  destruct (BuildMatcher _ _ _ _ _) as [m|].
  - assert (He : err (CollectFiles ds w m (IgnoreCase cfg) (Paths cfg)) = None)
      by now rewrite walk_facts.CollectFiles_spec.
    rewrite He.
    destruct (files (CollectFiles ds w m (IgnoreCase cfg) (Paths cfg))) as [|p l] eqn:E.
    + cbn. split; [congruence | intros (m' & [= <-] & Hne)].
      rewrite E in Hne. congruence.
    + cbn [List.length Nat.eqb].
      split.
      * intros _. exists m. split; [reflexivity|]. rewrite E. discriminate.
      * intros _. now destruct (clip _).
  - cbn. split; [congruence | intros (m' & Hm & _); discriminate].
Qed.

(** * Glob tokens *)

Module glob_facts.
Import strings os walk exclude collector spec string_facts walk_facts.

Lemma lowerByte_star (c : ascii) :
  Ascii.eqb (lowerByte c) "*"%char = Ascii.eqb c "*"%char.
Proof. each_byte c. Qed.

Lemma ToLower_HasPrefix_stars (s : string) :
  HasPrefix (ToLower s) "**" = HasPrefix s "**".
Proof.
  destruct s as [|c [|d s]]; cbn [ToLower HasPrefix];
    rewrite ?lowerByte_star; reflexivity.
Qed.

Lemma ToLower_isDoublestarPattern (s : string) :
  isDoublestarPattern (ToLower s) = isDoublestarPattern s.
Proof.
  unfold isDoublestarPattern.
  induction s as [|x s IH]; [reflexivity|].
  cbn [ToLower Contains]. rewrite IH.
  change (String (lowerByte x) (ToLower s)) with (ToLower (String x s)).
  now rewrite ToLower_HasPrefix_stars.
Qed.

Lemma ToLower_containsAnySep (s : string) :
  containsAnySep (ToLower s) = containsAnySep s.
Proof.
  unfold containsAnySep. change (String filepath.Separator "") with "/".
  now rewrite ToLower_Contains_sep.
Qed.

Lemma ToLower_isGlobPattern (s : string) :
  isGlobPattern (ToLower s) = isGlobPattern s.
Proof. apply ToLower_ContainsAny_glob. Qed.

(** Under ignoreCase the test of a glob token reads the token through
    ToLower only. *)
Lemma globMatches_ToLower (ds : string -> string -> option bool) (g1 g2 p : string) :
  ToLower g1 = ToLower g2 ->
  globMatches ds true g1 p = globMatches ds true g2 p.
Proof.
  intros Heq. unfold globMatches.
  change (String filepath.Separator "") with exclude.osSep.
  rewrite !ReplaceAll_sep.
  rewrite <- (ToLower_containsAnySep g1), <- (ToLower_isDoublestarPattern g1).
  rewrite <- (ToLower_containsAnySep g2), <- (ToLower_isDoublestarPattern g2).
  now rewrite Heq.
Qed.

(** A walk that selects more finds more. *)
Lemma walkCands_sel_incl (w : World) (m : ExcludeMatcher)
      (sel1 sel2 : string -> bool) (n : Node) :
  (forall p, sel1 p = true -> sel2 p = true) ->
  forall path a, In a (walkCands w m sel1 path n) -> In a (walkCands w m sel2 path n).
Proof.
  intros Hsel.
  induction n as [| |readable entries IH] using Node_tree_ind; intros path a Hin.
  - cbn [walkCands] in *.
    destruct (ShouldExclude m _ false); [contradiction|].
    destruct (sel1 path) eqn:E; [|contradiction].
    now rewrite (Hsel _ E).
  - contradiction.
  - destruct readable; [|contradiction].
    rewrite walkCands_Dir in *.
    destruct (ShouldExclude m _ true); [contradiction|].
    unfold entryCands in *. apply in_flat_map in Hin as ([name child] & Hc & Ha).
    apply in_flat_map. exists (name, child). split; [exact Hc|].
    rewrite List.Forall_forall in IH. exact (IH _ Hc _ _ Ha).
Qed.

Lemma walkCands_sel_ext (w : World) (m : ExcludeMatcher)
      (sel1 sel2 : string -> bool) (n : Node) :
  (forall p, sel1 p = sel2 p) ->
  forall path, walkCands w m sel1 path n = walkCands w m sel2 path n.
Proof.
  intros Hsel.
  induction n as [| |readable entries IH] using Node_tree_ind; intros path.
  - cbn [walkCands]. now rewrite Hsel.
  - reflexivity.
  - destruct readable; [|reflexivity].
    rewrite !walkCands_Dir.
    destruct (ShouldExclude m _ true); [reflexivity|].
    unfold entryCands. induction IH as [|[name child] rest Hc _ IHrest]; [reflexivity|].
    cbn [flat_map fst snd]. now rewrite Hc, IHrest.
Qed.

(** What a token that is not found collects is among what the token "."
    collects. *)
Lemma tokenCands_missing_in_dot (ds : string -> string -> option bool) (w : World)
      (m : ExcludeMatcher) (ic : bool) (tok a : string) :
  Stat w tok = None ->
  In a (tokenCands ds w m ic tok) -> In a (tokenCands ds w m ic ".").
Proof.
  intros Hmiss. unfold tokenCands. rewrite Hmiss.
  destruct (isGlobPattern tok); [|contradiction].
  destruct (Stat w ".") as [[|r es|]|]; try contradiction.
  - cbn [walkCands].
    destruct (ShouldExclude m _ false); [contradiction|].
    now destruct (globMatches ds ic tok ".").
  - now apply walkCands_sel_incl.
Qed.

Lemma tokenCands_ToLower (ds : string -> string -> option bool) (w : World)
      (m : ExcludeMatcher) (g1 g2 : string) :
  ToLower g1 = ToLower g2 -> Stat w g1 = None -> Stat w g2 = None ->
  tokenCands ds w m true g1 = tokenCands ds w m true g2.
Proof.
  intros Heq H1 H2. unfold tokenCands. rewrite H1, H2.
  assert (Hg : isGlobPattern g1 = isGlobPattern g2)
    by now rewrite <- (ToLower_isGlobPattern g1), Heq, ToLower_isGlobPattern.
  rewrite Hg. destruct (isGlobPattern g2); [|reflexivity].
  destruct (Stat w "."); [|reflexivity].
  apply walkCands_sel_ext. intros p. now apply globMatches_ToLower.
Qed.

End glob_facts.

(** X26.  With an absolute working directory every path CollectFiles
    returns is absolute, whatever the tokens look like. *)
Theorem X26_collected_paths_are_absolute :
  forall (doublestarMatch : string -> string -> option bool) (w : World)
         (m : ExcludeMatcher) (ic : bool) (paths : list string) (p : string),
    HasPrefix (wd w) "/" = true ->
    In p (files (CollectFiles doublestarMatch w m ic paths)) ->
    HasPrefix p "/" = true.
Proof.
  intros ds w m ic paths p Hwd Hin.
  apply walk_facts.In_CollectFiles in Hin as (tok & _ & Hc).
  exact (collect_facts.tokenCands_absolute ds w ic m tok p Hwd Hc).
Qed.

Lemma X26_collected_paths_are_absolute_witness :
  HasPrefix "/w/a.txt" "/" = true.
Proof.
  apply (X26_collected_paths_are_absolute examples.noDoublestar examples.project
           (adhoc [] false) false ["a.txt"] "/w/a.txt").
  - reflexivity.
  - vm_compute. now left.
Defined.

(** X27.  A token that is not found searches the working directory only:
    every file it contributes is a file the token "." contributes as
    well.  So a glob pattern that points outside the working directory
    finds nothing there. *)
Theorem X27_glob_token_stays_in_working_directory :
  forall (doublestarMatch : string -> string -> option bool) (w : World)
         (m : ExcludeMatcher) (ic : bool) (tok p : string),
    Stat w tok = None ->
    In p (files (CollectFiles doublestarMatch w m ic [tok])) ->
    In p (files (CollectFiles doublestarMatch w m ic ["."])).
Proof.
  intros ds w m ic tok p Hmiss Hin.
  apply walk_facts.In_CollectFiles in Hin as (t & [<-|[]] & Hc).
  apply walk_facts.In_CollectFiles. exists ".". split; [now left|].
  now apply (glob_facts.tokenCands_missing_in_dot ds w m ic tok).
Qed.

Lemma X27_glob_token_stays_in_working_directory_witness :
  In "/w/a.txt"
     (files (CollectFiles examples.noDoublestar examples.project
               (adhoc [] false) false ["."])).
Proof.
  apply (X27_glob_token_stays_in_working_directory examples.noDoublestar
           examples.project (adhoc [] false) false "a.*" "/w/a.txt").
  - reflexivity.
  - vm_compute. now left.
Defined.

(** X28.  With ignoreCase set, two tokens of ASCII bytes that are not
    found and differ only in the case of their letters A-Z contribute the
    same files, wherever they stand among the tokens.  Letters beyond
    ASCII are not covered. *)
Theorem X28_ignoreCase_applies_to_glob_tokens :
  forall (doublestarMatch : string -> string -> option bool) (w : World)
         (m : ExcludeMatcher) (before after : list string) (g1 g2 : string),
    isASCII g1 = true ->
    isASCII g2 = true ->
    ToLower g1 = ToLower g2 ->
    Stat w g1 = None -> Stat w g2 = None ->
    files (CollectFiles doublestarMatch w m true (before ++ g1 :: after))
    = files (CollectFiles doublestarMatch w m true (before ++ g2 :: after)).
Proof.
  intros ds w m before after g1 g2 _ _ Heq H1 H2.
  rewrite !walk_facts.CollectFiles_spec. cbn [files].
  rewrite !flat_map_app. cbn [flat_map].
  now rewrite (glob_facts.tokenCands_ToLower ds w m g1 g2 Heq H1 H2).
Qed.

Lemma X28_ignoreCase_applies_to_glob_tokens_witness :
  files (CollectFiles examples.noDoublestar examples.project (adhoc [] false) true
           ([] ++ "A.*" :: []))
  = files (CollectFiles examples.noDoublestar examples.project (adhoc [] false) true
             ([] ++ "a.*" :: [])).
Proof.
  apply (X28_ignoreCase_applies_to_glob_tokens examples.noDoublestar examples.project
           (adhoc [] false) [] [] "A.*" "a.*"); reflexivity.
Defined.
